(** * Transform: double-buffered transform-feedback choreography

    A shallow embedding of [modules/core/src/lib/transform.js] (class
    [Transform]) and the properties its specification states about it.

    JavaScript objects have identity, so GPU primitives (buffers, textures,
    framebuffers, transform-feedback objects) live in a store indexed by
    locations; the tables of the class hold references into that store and two
    tables may alias the same object.  Methods are computations in a state and
    exception monad: a thrown error keeps the mutations made before it. *)

From stdpp Require Import base option list gmap strings fin_maps pretty.
From Stdlib Require Import ZArith Lia QArith Lqa.

Local Open Scope Z_scope.
Local Open Scope nat_scope.
Local Open Scope string_scope.

(** ** JavaScript values held in the tables *)

Abbreviation loc := nat.

Inductive value : Type :=
| VUndefined
| VNull
| VBuffer (l : loc)          (* an instance of Buffer *)
| VTexture2D (l : loc)       (* an instance of Texture2D *)
| VObject (buffer : value)   (* a plain object; only its [buffer] property is read *)
| VInherited (name : string). (* the member [name] of [Object.prototype] *)

#[global] Instance value_eq_dec : EqDecision value.
Proof. solve_decision. Defined.

#[global] Instance value_inhabited : Inhabited value := populate VUndefined.

(** Truthiness, as tested by [if (v)], [!v], [a || b] and [a && b]. *)
Definition truthy (v : value) : bool :=
  match v with
  | VUndefined | VNull => false
  | _ => true
  end.

(** A string is truthy unless it is empty; [undefined] and [null] are [None]. *)
Definition truthy_str (s : option string) : bool :=
  match s with
  | Some s => negb (bool_decide (s = ""))
  | None => false
  end.

Definition instanceof_Buffer (v : value) : bool :=
  match v with VBuffer _ => true | _ => false end.

Definition instanceof_Texture2D (v : value) : bool :=
  match v with VTexture2D _ => true | _ => false end.

(** [v.buffer] for a value that is not [undefined] or [null]. *)
Definition prop_buffer (v : value) : value :=
  match v with VObject b => b | _ => VUndefined end.

(** The tables of the class and of its arguments are plain objects: a table
    holds the own properties, and every table has the prototype
    [Object.prototype]. *)
Abbreviation table := (gmap string value).

(** The names that a plain object inherits from [Object.prototype].  They are
    not enumerable: [for ... in], [Object.keys] and [Object.assign] skip them. *)
Definition Object_prototype_names : list string :=
  ["constructor"; "__defineGetter__"; "__defineSetter__"; "hasOwnProperty";
   "__lookupGetter__"; "__lookupSetter__"; "isPrototypeOf"; "propertyIsEnumerable";
   "toString"; "valueOf"; "__proto__"; "toLocaleString"].

(** What a name that is no own property reads as: the inherited member (a
    function, or for [__proto__] the prototype itself) or [undefined].  An
    inherited member is an object that is no [Buffer] and no [Texture2D] and has
    no [buffer], [delete] or [setParameters] of its own. *)
Definition Object_prototype (key : string) : value :=
  if bool_decide (key ∈ Object_prototype_names) then VInherited key else VUndefined.

(** [obj[key]]: the own property, or else what [Object.prototype] has under
    that name.  An assignment [obj[key] = v] is the insertion [<[key := v]> obj];
    for the key [__proto__] JavaScript replaces the prototype of the object
    instead of adding an own property, and such an object then reads like the
    table with the own property [__proto__] only under that key itself. *)
Definition get_prop (obj : table) (key : string) : value :=
  default (Object_prototype key) (obj !! key).

(** [Object.assign(target, source)]; an [undefined] source assigns nothing. *)
Definition Object_assign {V} (target : gmap string V) (source : option (gmap string V))
  : gmap string V :=
  match source with
  | Some s => s ∪ target
  | None => target
  end.

(** The two-element arrays indexed by the generation index. *)
Definition Array2 (A : Type) : Type := A * A.

Definition at2 {A} (i : nat) (a : Array2 A) : A :=
  match i with 0 => a.1 | _ => a.2 end.

Definition set2 {A} (i : nat) (x : A) (a : Array2 A) : Array2 A :=
  match i with 0 => (x, a.2) | _ => (a.1, x) end.

(** ** The GPU primitives and the store they live in *)

Module GL.
Definition TEXTURE_MAG_FILTER : N := 0x2800.
Definition TEXTURE_MIN_FILTER : N := 0x2801.
Definition TEXTURE_WRAP_S : N := 0x2802.
Definition TEXTURE_WRAP_T : N := 0x2803.
Definition NEAREST : N := 0x2600.
Definition CLAMP_TO_EDGE : N := 0x812F.
Definition UNPACK_FLIP_Y_WEBGL : N := 0x9240.
Definition POINTS : N := 0x0.
End GL.

Record Accessor := mkAccessor {
  acc_size : option nat;
  acc_stride : option nat;
  acc_offset : option nat
}.

Abbreviation TypedArray := (list Z).

(** ** Numbers

    A finite JavaScript number is a rational, and [===] and [<] on finite
    numbers are those of the rationals (0 and -0 are one number).  An element
    count is such a number: the code asks for no more than
    [Number.isFinite]. *)
Definition number_eqb (x y : Q) : bool := Qeq_bool x y.
Definition number_ltb (x y : Q) : bool := negb (Qle_bool y x).

(** [ToIntegerOrInfinity]: the integer part, rounded towards zero. *)
Definition ToIntegerOrInfinity (x : Q) : Z := Z.quot (Qnum x) (Z.pos (Qden x)).

(** The largest length that [ToIndex] accepts, 2^53 - 1. *)
Definition MAX_SAFE_INTEGER : Z := 9007199254740991.

(** [Math.fround] of a natural number: the nearest number with a significand
    of 24 bits, a tie going to the even significand.  Every natural number up
    to 2^24 is its own rounding. *)
Definition fround (i : Z) : Z :=
  let e := Z.log2 i in
  if (e <? 24)%Z then i
  else
    let s := (e - 23)%Z in
    let q := Z.shiftr i s in
    let r := Z.land i (Z.ones s) in
    let half := Z.shiftl 1 (s - 1) in
    let q' := if (half <? r)%Z || ((r =? half)%Z && Z.odd q) then (q + 1)%Z else q in
    Z.shiftl q' s.

(** Options of [new Buffer(gl, opts)]; an absent option is [None]. *)
Record BufferOpts := mkBufferOpts {
  opt_byteLength : option nat;
  opt_usage : option N;
  opt_accessor : option Accessor;
  opt_data : option TypedArray
}.

Record Buffer := mkBuffer {
  byteLength : option nat;
  usage : option N;
  accessor : option Accessor;
  data : option TypedArray;      (* the contents last uploaded from the CPU *)
  buffer_deleted : bool
}.

Record Texture2D := mkTexture2D {
  width : nat;
  height : nat;
  parameters : gmap N N;
  pixelStore : gmap N bool;
  texture_deleted : bool
}.

Record Framebuffer := mkFramebuffer {
  fb_width : nat;
  fb_height : nat;
  color_attachment0 : value
}.

Record TransformFeedback := mkTransformFeedback {
  tf_buffers : table
}.

Record Model := mkModel {
  vertexCount : option Q;
  model_deleted : bool
}.

(** ** Arguments of the public methods *)

(** [_targetTexture]: a texture, or the name of the source texture to clone. *)
Inductive TextureOrAttribute :=
| TTexture (l : loc)
| TAttribute (name : string).

Definition truthy_target (x : option TextureOrAttribute) : bool :=
  match x with
  | Some (TTexture _) => true
  | Some (TAttribute name) => truthy_str (Some name)
  | None => false
  end.

(** The [props] of the constructor and the [opts] of [update]. *)
Module Props.
Record t := mk {
  vs : option string;
  varyings : option (list string);               (* [Some] when it is an array *)
  _targetTextureVarying : option string;
  sourceBuffers : option table;
  feedbackBuffers : option table;
  feedbackMap : option (list (string * string)); (* entries in enumeration order *)
  destinationBuffers : option table;             (* deprecated *)
  sourceDestinationMap : option (list (string * string)); (* deprecated *)
  _sourceTextures : option table;
  _swapTexture : option string;
  _targetTexture : option TextureOrAttribute;
  (* [None]: no such key; [Some None]: a key whose value is not a finite number *)
  elementCount : option (option Q)
}.
Definition empty : t :=
  mk None None None None None None None None None None None None.
End Props.

Inductive Uniform :=
| UTexture (texture : value)
| UNumbers (numbers : list Z).

Module RunOpts.
Record t := mk {
  uniforms : option (gmap string Uniform);
  parameters : option (gmap string (list nat));
  clearRenderTarget : option bool
}.
Definition empty : t := mk None None None.
End RunOpts.

(** What [model.transform] is called with. *)
Record TransformOpts := mkTransformOpts {
  to_transformFeedback : option loc;
  to_uniforms : gmap string Uniform;
  to_discard : bool;
  to_framebuffer : option loc;
  to_parameters : gmap string (list nat)
}.

(** Calls that reach the device, in program order. *)
Inductive Call :=
| Framebuffer_clear (framebuffer : loc)
| Model_setAttributes (attributes : table)
| Model_transform (opts : TransformOpts).

Record GLContext := mkGL {
  webgl2 : bool;
  gl_buffers : list Buffer;
  gl_textures : list Texture2D;
  gl_framebuffers : list Framebuffer;
  gl_transformFeedbacks : list TransformFeedback;
  gl_calls : list Call
}.

Definition set_gl_buffers x (g : GLContext) : GLContext :=
  mkGL (webgl2 g) x (gl_textures g) (gl_framebuffers g) (gl_transformFeedbacks g) (gl_calls g).
Definition set_gl_textures x (g : GLContext) : GLContext :=
  mkGL (webgl2 g) (gl_buffers g) x (gl_framebuffers g) (gl_transformFeedbacks g) (gl_calls g).
Definition set_gl_framebuffers x (g : GLContext) : GLContext :=
  mkGL (webgl2 g) (gl_buffers g) (gl_textures g) x (gl_transformFeedbacks g) (gl_calls g).
Definition set_gl_transformFeedbacks x (g : GLContext) : GLContext :=
  mkGL (webgl2 g) (gl_buffers g) (gl_textures g) (gl_framebuffers g) x (gl_calls g).
Definition set_gl_calls x (g : GLContext) : GLContext :=
  mkGL (webgl2 g) (gl_buffers g) (gl_textures g) (gl_framebuffers g) (gl_transformFeedbacks g) x.

(** ** The instance *)

Record Transform := mkTransform {
  model : option Model;
  elementCount : Q;
  currentIndex : nat;
  sourceBuffers : Array2 table;
  sourceTextures : Array2 table;
  feedbackBuffers : Array2 table;
  feedbackMap : option (list (string * string));
  targetTextures : Array2 value;
  transformFeedbacks : Array2 (option loc);
  framebuffers : Array2 (option loc);
  resources : table;
  elementIDBuffer : value;
  _targetRefTexName : option string;
  (* properties added by [_initialize], before the instance is sealed *)
  varyingsArray : option (list string);
  targetTextureVarying : option string;
  renderingToTexture : bool;
  _swapTexture : option string;
  hasSourceTextures : bool;
  samplerTextureMap : gmap string string;
  targetTextureType : option string;
  (* [Object.seal(this)] has run *)
  sealed : bool
}.

Definition set_model x (t : Transform) : Transform :=
  mkTransform x (elementCount t) (currentIndex t) (sourceBuffers t) (sourceTextures t)
  (feedbackBuffers t) (feedbackMap t) (targetTextures t) (transformFeedbacks t) (framebuffers t)
  (resources t) (elementIDBuffer t) (_targetRefTexName t) (varyingsArray t)
  (targetTextureVarying t) (renderingToTexture t) (_swapTexture t) (hasSourceTextures t)
  (samplerTextureMap t) (targetTextureType t) (sealed t).
Definition set_elementCount x (t : Transform) : Transform :=
  mkTransform (model t) x (currentIndex t) (sourceBuffers t) (sourceTextures t) (feedbackBuffers
  t) (feedbackMap t) (targetTextures t) (transformFeedbacks t) (framebuffers t) (resources t)
  (elementIDBuffer t) (_targetRefTexName t) (varyingsArray t) (targetTextureVarying t)
  (renderingToTexture t) (_swapTexture t) (hasSourceTextures t) (samplerTextureMap t)
  (targetTextureType t) (sealed t).
Definition set_currentIndex x (t : Transform) : Transform :=
  mkTransform (model t) (elementCount t) x (sourceBuffers t) (sourceTextures t) (feedbackBuffers
  t) (feedbackMap t) (targetTextures t) (transformFeedbacks t) (framebuffers t) (resources t)
  (elementIDBuffer t) (_targetRefTexName t) (varyingsArray t) (targetTextureVarying t)
  (renderingToTexture t) (_swapTexture t) (hasSourceTextures t) (samplerTextureMap t)
  (targetTextureType t) (sealed t).
Definition set_sourceBuffers x (t : Transform) : Transform :=
  mkTransform (model t) (elementCount t) (currentIndex t) x (sourceTextures t) (feedbackBuffers
  t) (feedbackMap t) (targetTextures t) (transformFeedbacks t) (framebuffers t) (resources t)
  (elementIDBuffer t) (_targetRefTexName t) (varyingsArray t) (targetTextureVarying t)
  (renderingToTexture t) (_swapTexture t) (hasSourceTextures t) (samplerTextureMap t)
  (targetTextureType t) (sealed t).
Definition set_sourceTextures x (t : Transform) : Transform :=
  mkTransform (model t) (elementCount t) (currentIndex t) (sourceBuffers t) x (feedbackBuffers
  t) (feedbackMap t) (targetTextures t) (transformFeedbacks t) (framebuffers t) (resources t)
  (elementIDBuffer t) (_targetRefTexName t) (varyingsArray t) (targetTextureVarying t)
  (renderingToTexture t) (_swapTexture t) (hasSourceTextures t) (samplerTextureMap t)
  (targetTextureType t) (sealed t).
Definition set_feedbackBuffers x (t : Transform) : Transform :=
  mkTransform (model t) (elementCount t) (currentIndex t) (sourceBuffers t) (sourceTextures t) x
  (feedbackMap t) (targetTextures t) (transformFeedbacks t) (framebuffers t) (resources t)
  (elementIDBuffer t) (_targetRefTexName t) (varyingsArray t) (targetTextureVarying t)
  (renderingToTexture t) (_swapTexture t) (hasSourceTextures t) (samplerTextureMap t)
  (targetTextureType t) (sealed t).
Definition set_feedbackMap x (t : Transform) : Transform :=
  mkTransform (model t) (elementCount t) (currentIndex t) (sourceBuffers t) (sourceTextures t)
  (feedbackBuffers t) x (targetTextures t) (transformFeedbacks t) (framebuffers t) (resources t)
  (elementIDBuffer t) (_targetRefTexName t) (varyingsArray t) (targetTextureVarying t)
  (renderingToTexture t) (_swapTexture t) (hasSourceTextures t) (samplerTextureMap t)
  (targetTextureType t) (sealed t).
Definition set_targetTextures x (t : Transform) : Transform :=
  mkTransform (model t) (elementCount t) (currentIndex t) (sourceBuffers t) (sourceTextures t)
  (feedbackBuffers t) (feedbackMap t) x (transformFeedbacks t) (framebuffers t) (resources t)
  (elementIDBuffer t) (_targetRefTexName t) (varyingsArray t) (targetTextureVarying t)
  (renderingToTexture t) (_swapTexture t) (hasSourceTextures t) (samplerTextureMap t)
  (targetTextureType t) (sealed t).
Definition set_transformFeedbacks x (t : Transform) : Transform :=
  mkTransform (model t) (elementCount t) (currentIndex t) (sourceBuffers t) (sourceTextures t)
  (feedbackBuffers t) (feedbackMap t) (targetTextures t) x (framebuffers t) (resources t)
  (elementIDBuffer t) (_targetRefTexName t) (varyingsArray t) (targetTextureVarying t)
  (renderingToTexture t) (_swapTexture t) (hasSourceTextures t) (samplerTextureMap t)
  (targetTextureType t) (sealed t).
Definition set_framebuffers x (t : Transform) : Transform :=
  mkTransform (model t) (elementCount t) (currentIndex t) (sourceBuffers t) (sourceTextures t)
  (feedbackBuffers t) (feedbackMap t) (targetTextures t) (transformFeedbacks t) x (resources t)
  (elementIDBuffer t) (_targetRefTexName t) (varyingsArray t) (targetTextureVarying t)
  (renderingToTexture t) (_swapTexture t) (hasSourceTextures t) (samplerTextureMap t)
  (targetTextureType t) (sealed t).
Definition set_resources x (t : Transform) : Transform :=
  mkTransform (model t) (elementCount t) (currentIndex t) (sourceBuffers t) (sourceTextures t)
  (feedbackBuffers t) (feedbackMap t) (targetTextures t) (transformFeedbacks t) (framebuffers t)
  x (elementIDBuffer t) (_targetRefTexName t) (varyingsArray t) (targetTextureVarying t)
  (renderingToTexture t) (_swapTexture t) (hasSourceTextures t) (samplerTextureMap t)
  (targetTextureType t) (sealed t).
Definition set_elementIDBuffer x (t : Transform) : Transform :=
  mkTransform (model t) (elementCount t) (currentIndex t) (sourceBuffers t) (sourceTextures t)
  (feedbackBuffers t) (feedbackMap t) (targetTextures t) (transformFeedbacks t) (framebuffers t)
  (resources t) x (_targetRefTexName t) (varyingsArray t) (targetTextureVarying t)
  (renderingToTexture t) (_swapTexture t) (hasSourceTextures t) (samplerTextureMap t)
  (targetTextureType t) (sealed t).
Definition set_targetRefTexName x (t : Transform) : Transform :=
  mkTransform (model t) (elementCount t) (currentIndex t) (sourceBuffers t) (sourceTextures t)
  (feedbackBuffers t) (feedbackMap t) (targetTextures t) (transformFeedbacks t) (framebuffers t)
  (resources t) (elementIDBuffer t) x (varyingsArray t) (targetTextureVarying t)
  (renderingToTexture t) (_swapTexture t) (hasSourceTextures t) (samplerTextureMap t)
  (targetTextureType t) (sealed t).
Definition set_varyingsArray x (t : Transform) : Transform :=
  mkTransform (model t) (elementCount t) (currentIndex t) (sourceBuffers t) (sourceTextures t)
  (feedbackBuffers t) (feedbackMap t) (targetTextures t) (transformFeedbacks t) (framebuffers t)
  (resources t) (elementIDBuffer t) (_targetRefTexName t) x (targetTextureVarying t)
  (renderingToTexture t) (_swapTexture t) (hasSourceTextures t) (samplerTextureMap t)
  (targetTextureType t) (sealed t).
Definition set_targetTextureVarying x (t : Transform) : Transform :=
  mkTransform (model t) (elementCount t) (currentIndex t) (sourceBuffers t) (sourceTextures t)
  (feedbackBuffers t) (feedbackMap t) (targetTextures t) (transformFeedbacks t) (framebuffers t)
  (resources t) (elementIDBuffer t) (_targetRefTexName t) (varyingsArray t) x
  (renderingToTexture t) (_swapTexture t) (hasSourceTextures t) (samplerTextureMap t)
  (targetTextureType t) (sealed t).
Definition set_renderingToTexture x (t : Transform) : Transform :=
  mkTransform (model t) (elementCount t) (currentIndex t) (sourceBuffers t) (sourceTextures t)
  (feedbackBuffers t) (feedbackMap t) (targetTextures t) (transformFeedbacks t) (framebuffers t)
  (resources t) (elementIDBuffer t) (_targetRefTexName t) (varyingsArray t)
  (targetTextureVarying t) x (_swapTexture t) (hasSourceTextures t) (samplerTextureMap t)
  (targetTextureType t) (sealed t).
Definition set_swapTexture x (t : Transform) : Transform :=
  mkTransform (model t) (elementCount t) (currentIndex t) (sourceBuffers t) (sourceTextures t)
  (feedbackBuffers t) (feedbackMap t) (targetTextures t) (transformFeedbacks t) (framebuffers t)
  (resources t) (elementIDBuffer t) (_targetRefTexName t) (varyingsArray t)
  (targetTextureVarying t) (renderingToTexture t) x (hasSourceTextures t) (samplerTextureMap t)
  (targetTextureType t) (sealed t).
Definition set_hasSourceTextures x (t : Transform) : Transform :=
  mkTransform (model t) (elementCount t) (currentIndex t) (sourceBuffers t) (sourceTextures t)
  (feedbackBuffers t) (feedbackMap t) (targetTextures t) (transformFeedbacks t) (framebuffers t)
  (resources t) (elementIDBuffer t) (_targetRefTexName t) (varyingsArray t)
  (targetTextureVarying t) (renderingToTexture t) (_swapTexture t) x (samplerTextureMap t)
  (targetTextureType t) (sealed t).
Definition set_samplerTextureMap x (t : Transform) : Transform :=
  mkTransform (model t) (elementCount t) (currentIndex t) (sourceBuffers t) (sourceTextures t)
  (feedbackBuffers t) (feedbackMap t) (targetTextures t) (transformFeedbacks t) (framebuffers t)
  (resources t) (elementIDBuffer t) (_targetRefTexName t) (varyingsArray t)
  (targetTextureVarying t) (renderingToTexture t) (_swapTexture t) (hasSourceTextures t) x
  (targetTextureType t) (sealed t).
Definition set_targetTextureType x (t : Transform) : Transform :=
  mkTransform (model t) (elementCount t) (currentIndex t) (sourceBuffers t) (sourceTextures t)
  (feedbackBuffers t) (feedbackMap t) (targetTextures t) (transformFeedbacks t) (framebuffers t)
  (resources t) (elementIDBuffer t) (_targetRefTexName t) (varyingsArray t)
  (targetTextureVarying t) (renderingToTexture t) (_swapTexture t) (hasSourceTextures t)
  (samplerTextureMap t) x (sealed t).
Definition set_sealed x (t : Transform) : Transform :=
  mkTransform (model t) (elementCount t) (currentIndex t) (sourceBuffers t) (sourceTextures t)
  (feedbackBuffers t) (feedbackMap t) (targetTextures t) (transformFeedbacks t) (framebuffers t)
  (resources t) (elementIDBuffer t) (_targetRefTexName t) (varyingsArray t)
  (targetTextureVarying t) (renderingToTexture t) (_swapTexture t) (hasSourceTextures t)
  (samplerTextureMap t) (targetTextureType t) x.

(** ** Methods as computations over the instance and the device *)

Record State := mkState { this : Transform; gl : GLContext }.

Inductive Error := AssertionError | TypeError | RangeError.

Inductive Outcome (A : Type) :=
| Ok (a : A)
| Throw (e : Error).
Arguments Ok {A} a.
Arguments Throw {A} e.

(** A computation returns or throws, and in both cases leaves a state. *)
Definition M (A : Type) : Type := State -> Outcome A * State.

#[global] Instance M_ret : MRet M := fun A a st => (Ok a, st).
#[global] Instance M_bind : MBind M := fun A B k m st =>
  match m st with
  | (Ok a, st') => k a st'
  | (Throw e, st') => (Throw e, st')
  end.

Definition throw {A} (e : Error) : M A := fun st => (Throw e, st).
Definition get_this : M Transform := fun st => (Ok (this st), st).
Definition get_gl : M GLContext := fun st => (Ok (gl st), st).
Definition modify_this (f : Transform -> Transform) : M unit :=
  fun st => (Ok tt, mkState (f (this st)) (gl st)).
Definition modify_gl (f : GLContext -> GLContext) : M unit :=
  fun st => (Ok tt, mkState (this st) (f (gl st))).

Definition assert (b : bool) : M unit :=
  if b then mret tt else throw AssertionError.

Definition when (b : bool) (m : M unit) : M unit :=
  if b then m else mret tt.

(** [for (const x of xs) body(x)] *)
Fixpoint for_each {A} (xs : list A) (body : A -> M unit) : M unit :=
  match xs with
  | [] => mret tt
  | x :: xs => body x;; for_each xs body
  end.

(** [new Float32Array(length)] for a finite number: [ToIndex] throws a
    [RangeError] when the integer part of the number is negative or above
    2^53 - 1, and otherwise the array has that many elements, all zero.  (An
    engine that cannot allocate the array throws the same error; the memory of
    the engine is not modelled.) *)
Definition new_Float32Array (len : Q) : M TypedArray :=
  let n := ToIntegerOrInfinity len in
  if (n <? 0)%Z || (MAX_SAFE_INTEGER <? n)%Z then throw RangeError
  else mret (replicate (Z.to_nat n) 0%Z).

(** [array.forEach((_, index, array) => { array[index] = index; })] on a
    [Float32Array]: each element holds its index as a single-precision
    number. *)
Definition fill_with_indices (array : TypedArray) : TypedArray :=
  (fun index => fround (Z.of_nat index)) <$> seq 0 (length array).

(** *** The primitives of the device layer *)

(** [new Buffer(gl, opts)]: the buffer carries the options it is given. *)
Definition new_Buffer (opts : BufferOpts) : M value :=
  g ← get_gl;
  modify_gl (set_gl_buffers (gl_buffers g ++
    [mkBuffer (opt_byteLength opts) (opt_usage opts) (opt_accessor opts) (opt_data opts) false]));;
  mret (VBuffer (length (gl_buffers g))).

Definition mark_buffer_deleted (b : Buffer) : Buffer :=
  mkBuffer (byteLength b) (usage b) (accessor b) (data b) true.

Definition mark_texture_deleted (x : Texture2D) : Texture2D :=
  mkTexture2D (width x) (height x) (parameters x) (pixelStore x) true.

(** [resource.delete()] *)
Definition Resource_delete (resource : value) : M unit :=
  match resource with
  | VBuffer l => modify_gl (fun g => set_gl_buffers (alter mark_buffer_deleted l (gl_buffers g)) g)
  | VTexture2D l =>
      modify_gl (fun g => set_gl_textures (alter mark_texture_deleted l (gl_textures g)) g)
  | _ => throw TypeError
  end.

(** [buffer.setData({data})] *)
Definition Buffer_setData (buffer : value) (d : TypedArray) : M unit :=
  match buffer with
  | VBuffer l =>
      modify_gl (fun g => set_gl_buffers (alter (fun b =>
        mkBuffer (byteLength b) (usage b) (accessor b) (Some d) (buffer_deleted b)) l
        (gl_buffers g)) g)
  | _ => throw TypeError
  end.

(** [texture.setParameters(parameters)] *)
Definition Texture2D_setParameters (texture : value) (ps : gmap N N) : M unit :=
  match texture with
  | VTexture2D l =>
      modify_gl (fun g => set_gl_textures (alter (fun x =>
        mkTexture2D (width x) (height x) (ps ∪ parameters x) (pixelStore x) (texture_deleted x)) l
        (gl_textures g)) g)
  | _ => throw TypeError
  end.

(** [const {width, height} = texture] for a texture of the store. *)
Definition texture_size (texture : value) : M (nat * nat) :=
  match texture with
  | VTexture2D l =>
      g ← get_gl;
      match gl_textures g !! l with
      | Some x => mret (width x, height x)
      | None => throw TypeError
      end
  | _ => throw TypeError
  end.

(** Modelled from the spec: [cloneTextureFrom] of the webgl module is not part
    of this file.  A clone has the width and height of its reference texture
    and carries the given parameter and pixel-store overrides. *)
Definition cloneTextureFrom (refTexture : value) (ps : gmap N N) (store : gmap N bool)
  : M value :=
  match refTexture with
  | VTexture2D l =>
      g ← get_gl;
      match gl_textures g !! l with
      | Some x =>
          modify_gl (set_gl_textures (gl_textures g ++
            [mkTexture2D (width x) (height x) (ps ∪ parameters x) (store ∪ pixelStore x) false]));;
          mret (VTexture2D (length (gl_textures g)))
      | None => throw TypeError
      end
  | _ => throw TypeError
  end.

(** [new Framebuffer(gl, {width, height, attachments})] *)
Definition new_Framebuffer (w h : nat) (texture : value) : M loc :=
  g ← get_gl;
  modify_gl (set_gl_framebuffers (gl_framebuffers g ++ [mkFramebuffer w h texture]));;
  mret (length (gl_framebuffers g)).

(** [framebuffer.update({attachments, resizeAttachments: false})] followed by
    [framebuffer.resize({width, height})] *)
Definition Framebuffer_update_resize (framebuffer : loc) (w h : nat) (texture : value)
  : M unit :=
  modify_gl (fun g => set_gl_framebuffers
    (alter (fun _ => mkFramebuffer w h texture) framebuffer (gl_framebuffers g)) g).

Definition new_TransformFeedback (buffers : table) : M loc :=
  g ← get_gl;
  modify_gl (set_gl_transformFeedbacks (gl_transformFeedbacks g ++ [mkTransformFeedback buffers]));;
  mret (length (gl_transformFeedbacks g)).

Definition TransformFeedback_setBuffers (tf : loc) (buffers : table) : M unit :=
  modify_gl (fun g => set_gl_transformFeedbacks
    (alter (fun _ => mkTransformFeedback buffers) tf (gl_transformFeedbacks g)) g).

Definition call (c : Call) : M unit :=
  modify_gl (fun g => set_gl_calls (gl_calls g ++ [c]) g).

(** Methods of [this.model]; [this.model] is [null] until the model is built. *)
Definition with_model (f : Model -> Model) : M unit :=
  t ← get_this;
  match model t with
  | Some m => modify_this (set_model (Some (f m)))
  | None => throw TypeError
  end.

Definition model_call (c : Call) : M unit :=
  t ← get_this;
  match model t with
  | Some m => call c
  | None => throw TypeError
  end.

(** Texture parameters needed so sample can precisely pick pixel for given
    element id. *)
Definition SRC_TEX_PARAMETER_OVERRIDES : gmap N N :=
  {[ GL.TEXTURE_MIN_FILTER := GL.NEAREST;
     GL.TEXTURE_MAG_FILTER := GL.NEAREST;
     GL.TEXTURE_WRAP_S := GL.CLAMP_TO_EDGE;
     GL.TEXTURE_WRAP_T := GL.CLAMP_TO_EDGE ]}.

(** *** Reading results *)

(** Return Buffer object for given varying name. *)
Definition getBuffer (varyingName : option string) (t : Transform) : value :=
  let bufferOrParams :=
    match varyingName with
    | Some name =>
        if truthy_str varyingName
        then get_prop (at2 (currentIndex t) (feedbackBuffers t)) name
        else VNull
    | None => VNull
    end in
  if negb (truthy bufferOrParams) then VNull
  else if instanceof_Buffer bufferOrParams then bufferOrParams
  else prop_buffer bufferOrParams.

(** returns current framebuffer object that is being used. *)
Definition getFramebuffer (t : Transform) : option loc :=
  at2 (currentIndex t) (framebuffers t).

(** Returns the color attachment texture from current framebuffer target *)
Definition _getTargetTexture (st : State) : value :=
  match at2 (currentIndex (this st)) (framebuffers (this st)) with
  | Some fb =>
      match gl_framebuffers (gl st) !! fb with
      | Some f => color_attachment0 f
      | None => VUndefined
      end
  | None => VNull
  end.

Section Transform.

(** The collaborators outside this file, taken as parameters. *)

(** [updateForTextures] of [transform-shader-utils]: from the vertex shader, the
    source textures, the texture-output varying and the target texture, the type
    of the texture output and the sampler of each source texture. *)
Variable updateForTextures :
  string -> table -> option string -> value -> option string * gmap string string.

(** [getSizeUniforms] of [transform-shader-utils]. *)
Variable getSizeUniforms :
  list Texture2D -> table -> option string -> value -> gmap string Uniform.

(** [typeToChannelCount] of the shader tools; [None] when it rejects the type. *)
Variable typeToChannelCount : option string -> option nat.

(** What the device holds: the pixels of a framebuffer, four channels each, and
    the contents of a buffer. *)
Variable readPixels : GLContext -> loc -> list (Z * Z * Z * Z).
Variable Buffer_getData : GLContext -> loc -> TypedArray.

(** The number a typed array of pixels stores when it is assigned [undefined]. *)
Variable number_of_undefined : Z.

(** [readPixelsToArray(framebuffer)]: readPixels returns 4 elements for each
    pixel. *)
Definition channels (pixel : Z * Z * Z * Z) : list Z :=
  let '(r, g, b, a) := pixel in [r; g; b; a].

Definition readPixelsToArray (g : GLContext) (framebuffer : loc) : TypedArray :=
  concat (channels <$> readPixels g framebuffer).

(** The inner loop of [getData]: [for (j = 0; j < channelCount; j++)
    packedPixels[packCount++] = pixels[i + j]]. *)
Definition pack_channels (pixels : TypedArray) (channelCount i : nat)
    (acc : TypedArray * nat) : TypedArray * nat :=
  foldl (fun '(packedPixels, packCount) j =>
           (<[packCount := default number_of_undefined (pixels !! (i + j))]> packedPixels,
            S packCount))
        acc (seq 0 channelCount).

(** [for (i = 0; i < pixels.length; i += 4)], over a zero-filled array of
    [(pixels.length * channelCount) / 4] elements. *)
Definition pack_pixels (pixels : TypedArray) (channelCount : nat) : TypedArray :=
  let packedPixels := replicate (length pixels * channelCount / 4) 0%Z in
  (foldl (fun acc k => pack_channels pixels channelCount (4 * k) acc)
         (packedPixels, 0) (seq 0 ((length pixels + 3) / 4))).1.

(** Return data either from Buffer or from Texture *)
Definition getData (varyingName : option string) (packed : bool) : M TypedArray :=
  t ← get_this;
  g ← get_gl;
  let buffer := getBuffer varyingName t in
  if truthy buffer then
    match buffer with
    | VBuffer l => mret (Buffer_getData g l)
    | _ => throw TypeError
    end
  else
    assert (negb (truthy_str varyingName)
            || bool_decide (varyingName = targetTextureVarying t));;
    match at2 (currentIndex t) (framebuffers t) with
    | None => throw TypeError
    | Some fb =>
        let pixels := readPixelsToArray g fb in
        if negb packed then mret pixels
        else
          match typeToChannelCount (targetTextureType t) with
          | None => throw AssertionError
          | Some channelCount => mret (pack_pixels pixels channelCount)
          end
    end.

(** *** Running and swapping *)

(** set texture filtering parameters on source textures. *)
Definition _setSourceTextureParameters : M unit :=
  t ← get_this;
  let index := currentIndex t in
  for_each (map_to_list (at2 index (sourceTextures t)))
    (fun '(name, texture) => Texture2D_setParameters texture SRC_TEX_PARAMETER_OVERRIDES).

Definition _getInputs : M (table * gmap string Uniform) :=
  t ← get_this;
  let current := currentIndex t in
  let attributes := Object_assign ∅ (Some (at2 current (sourceBuffers t))) in
  if hasSourceTextures t || truthy_str (targetTextureVarying t) then
    let attributes := <["transform_elementID" := elementIDBuffer t]> attributes in
    (* [uniforms[sampler] = this.sourceTextures[current][textureName]] for each sampler *)
    let uniforms : gmap string Uniform :=
      (fun textureName => UTexture (get_prop (at2 current (sourceTextures t)) textureName))
        <$> samplerTextureMap t in
    _setSourceTextureParameters;;
    g ← get_gl;
    let sizeUniforms :=
      getSizeUniforms (gl_textures g) (at2 current (sourceTextures t))
                      (targetTextureVarying t) (at2 current (targetTextures t)) in
    mret (attributes, Object_assign uniforms (Some sizeUniforms))
  else mret (attributes, ∅).

(** Run one transform feedback loop. *)
Definition run (opts : RunOpts.t) : M unit :=
  '(attributes, uniforms) ← _getInputs;
  let uniforms := Object_assign uniforms (RunOpts.uniforms opts) in
  let parameters := Object_assign ∅ (RunOpts.parameters opts) in
  let clearRenderTarget := default true (RunOpts.clearRenderTarget opts) in
  t ← get_this;
  '(framebuffer, discard, parameters) ←
    (if renderingToTexture t then
       match at2 (currentIndex t) (framebuffers t) with
       | None => throw AssertionError
       | Some fb =>
           g ← get_gl;
           match gl_framebuffers g !! fb with
           | None => throw TypeError
           | Some f =>
               let parameters := <["viewport" := [0; 0; fb_width f; fb_height f]]> parameters in
               when clearRenderTarget (call (Framebuffer_clear fb));;
               mret (Some fb, false, parameters)
           end
       end
     else mret (None, true, parameters));
  model_call (Model_setAttributes attributes);;
  model_call (Model_transform
          (mkTransformOpts (at2 (currentIndex t) (transformFeedbacks t)) uniforms discard
                           framebuffer parameters)).

(** Swap source and destination buffers and textures. *)
Definition swap : M unit :=
  t ← get_this;
  assert (bool_decide (is_Some (feedbackMap t)) || truthy_str (_swapTexture t));;
  modify_this (fun t => set_currentIndex ((currentIndex t + 1) mod 2) t).

(** Deprecated name of [swap]; the deprecation message is not modelled. *)
Definition swapBuffers : M unit := swap.

(** *** Owned resources *)

(** Create a buffer and add to list of buffers to be deleted. *)
Definition _createNewBuffer (name : string) (opts : BufferOpts) : M value :=
  buffer ← new_Buffer opts;
  t ← get_this;
  when (truthy (get_prop (resources t) name)) (Resource_delete (get_prop (resources t) name));;
  modify_this (fun t => set_resources (<[name := buffer]> (resources t)) t);;
  mret buffer.

(** Delete owned resources. *)
Definition delete : M unit :=
  t ← get_this;
  for_each (map_to_list (resources t)) (fun '(name, resource) => Resource_delete resource);;
  with_model (fun m => mkModel (vertexCount m) true).

(** *** Element count and the element-index buffer *)

(** create/update buffer to access source texture's individual pixels. *)
Definition _updateElementIDBuffer (elementCount' : Q) : M unit :=
  t ← get_this;
  if negb (hasSourceTextures t) && negb (truthy_str (targetTextureVarying t)) then mret tt
  else
    (* NOTE: using float so this will work with GLSL 1.0 shaders. *)
    elementIds ← new_Float32Array elementCount';
    let elementIds := fill_with_indices elementIds in
    if negb (truthy (elementIDBuffer t)) then
      buffer ← _createNewBuffer "elementIDBuffer"
                 (mkBufferOpts None None (Some (mkAccessor (Some 1) None None)) (Some elementIds));
      modify_this (set_elementIDBuffer buffer)
    else Buffer_setData (elementIDBuffer t) elementIds.

(** set element count and updated elementID buffer if needed. *)
Definition _setElementCount (opts : Props.t) : M unit :=
  match Props.elementCount opts with
  | None => mret tt
  | Some given =>
      match given with
      | None => throw AssertionError     (* Transform: invalid elementCount *)
      | Some elementCount' =>
          t ← get_this;
          if number_eqb (elementCount t) elementCount' then mret tt
          else
            when (number_ltb (elementCount t) elementCount')
                 (_updateElementIDBuffer elementCount');;
            with_model (fun m => mkModel (Some elementCount') (model_deleted m));;
            modify_this (set_elementCount elementCount')
      end
  end.

(** *** Buffers *)

(** [const {byteLength, usage, accessor} = sourceBuffer]: destructuring
    [undefined] or [null] throws; an object without these properties yields
    [undefined] for each. *)
Definition destructure_layout (sourceBuffer : value) : M BufferOpts :=
  match sourceBuffer with
  | VUndefined | VNull => throw TypeError
  | VBuffer l =>
      g ← get_gl;
      match gl_buffers g !! l with
      | Some b => mret (mkBufferOpts (byteLength b) (usage b) (accessor b) None)
      | None => throw TypeError
      end
  | _ => mret (mkBufferOpts None None None None)
  end.

(** auto create any feedback buffers *)
Definition _createFeedbackBuffers (feedbackBuffers' : option table) : M unit :=
  t ← get_this;
  match feedbackMap t with
  | None => mret tt      (* feedbackMap required to auto create buffers. *)
  | Some entries =>
      let current := currentIndex t in
      for_each entries (fun '(sourceBufferName, feedbackBufferName) =>
        t ← get_this;
        if bool_decide (Some feedbackBufferName ≠ targetTextureVarying t)
           && match feedbackBuffers' with
              | None => true
              | Some given => negb (truthy (get_prop given feedbackBufferName))
              end
        then
          (* Create new buffer with same layout and settings as source buffer *)
          let sourceBuffer := get_prop (at2 current (sourceBuffers t)) sourceBufferName in
          opts ← destructure_layout sourceBuffer;
          buffer ← _createNewBuffer feedbackBufferName opts;
          modify_this (fun t => set_feedbackBuffers
            (set2 current (<[feedbackBufferName := buffer]> (at2 current (feedbackBuffers t)))
                  (feedbackBuffers t)) t)
        else mret tt)
  end.

(** setup buffers for swapping.  Second set of source and feedback objects are
    setup to point to corresponding feedback and source buffers. *)
Definition _setupSwapBuffers : M unit :=
  t ← get_this;
  match feedbackMap t with
  | None => mret tt      (* feedbackMap required set up swap buffers. *)
  | Some entries =>
      let current := currentIndex t in
      let next := (current + 1) mod 2 in
      (* Copy all buffers/textures so un-mapped sources will remain same *)
      modify_this (fun t => set_sourceBuffers
        (set2 next (Object_assign (at2 next (sourceBuffers t))
                                  (Some (at2 current (sourceBuffers t))))
              (sourceBuffers t)) t);;
      modify_this (fun t => set_feedbackBuffers
        (set2 next (Object_assign (at2 next (feedbackBuffers t))
                                  (Some (at2 current (feedbackBuffers t))))
              (feedbackBuffers t)) t);;
      for_each entries (fun '(srcName, dstName) =>
        t ← get_this;
        if bool_decide (Some dstName ≠ targetTextureVarying t) then
          modify_this (fun t => set_sourceBuffers
            (set2 next (<[srcName := get_prop (at2 current (feedbackBuffers t)) dstName]>
                          (at2 next (sourceBuffers t)))
                  (sourceBuffers t)) t);;
          modify_this (fun t => set_feedbackBuffers
            (set2 next (<[dstName := get_prop (at2 current (sourceBuffers t)) srcName]>
                          (at2 next (feedbackBuffers t)))
                  (feedbackBuffers t)) t);;
          (* make sure the new destination buffer is a Buffer object *)
          t ← get_this;
          assert (instanceof_Buffer (get_prop (at2 next (feedbackBuffers t)) dstName))
        else mret tt)
  end.

(** [a || b] on objects that may be [undefined]. *)
Definition or_else {A} (a b : option A) : option A :=
  match a with Some _ => a | None => b end.

(** The check of one given feedback buffer: [x instanceof Buffer ||
    x.buffer instanceof Buffer]. *)
Definition check_feedbackBuffer (x : value) : M unit :=
  if instanceof_Buffer x then mret tt
  else match x with
       | VUndefined | VNull => throw TypeError
       | _ => assert (instanceof_Buffer (prop_buffer x))
       end.

Definition _deduceBufferProps (props : Props.t)
  : M (option table * option table * option (list (string * string))) :=
  let sourceBuffers' := Props.sourceBuffers props in
  (* backward compatibility *)
  let feedbackBuffers' :=
    match Props.destinationBuffers props with
    | Some _ => or_else (Props.feedbackBuffers props) (Props.destinationBuffers props)
    | None => Props.feedbackBuffers props
    end in
  let feedbackMap' :=
    match Props.sourceDestinationMap props with
    | Some _ => or_else (Props.feedbackMap props) (Props.sourceDestinationMap props)
    | None => Props.feedbackMap props
    end in
  for_each (map_to_list (default ∅ feedbackBuffers'))
    (fun '(bufferName, x) => check_feedbackBuffer x);;
  mret (sourceBuffers', feedbackBuffers', feedbackMap').

(** setup source and destination buffers *)
Definition _setupBuffers (props : Props.t) : M unit :=
  t ← get_this;
  let current := currentIndex t in
  '(sourceBuffers', feedbackBuffers', feedbackMap') ← _deduceBufferProps props;
  when (bool_decide (is_Some feedbackMap')) (modify_this (set_feedbackMap feedbackMap'));;
  modify_this (fun t => set_sourceBuffers
    (set2 current (Object_assign (at2 current (sourceBuffers t)) sourceBuffers')
          (sourceBuffers t)) t);;
  modify_this (fun t => set_feedbackBuffers
    (set2 current (Object_assign (at2 current (feedbackBuffers t)) feedbackBuffers')
          (feedbackBuffers t)) t);;
  _createFeedbackBuffers feedbackBuffers';;
  _setupSwapBuffers.

(** setup TransformFeedback objects to capture the results *)
Definition _setupTransformFeedback_at (index : nat) : M unit :=
  t ← get_this;
  match at2 index (transformFeedbacks t) with
  | Some tf => TransformFeedback_setBuffers tf (at2 index (feedbackBuffers t))
  | None =>
      match model t with
      | None => throw TypeError       (* [this.model.program] *)
      | Some _ =>
          tf ← new_TransformFeedback (at2 index (feedbackBuffers t));
          modify_this (fun t => set_transformFeedbacks
            (set2 index (Some tf) (transformFeedbacks t)) t)
      end
  end.

Definition _setupTransformFeedback : M unit :=
  t ← get_this;
  let current := currentIndex t in
  if bool_decide (at2 current (feedbackBuffers t) = ∅) then mret tt
  else
    _setupTransformFeedback_at current;;
    (* If buffers are swappable setup second transform feedback object. *)
    when (bool_decide (is_Some (feedbackMap t)))
         (_setupTransformFeedback_at ((current + 1) mod 2)).

(** *** Textures *)

(** Builds target texture using source reference or provided texture object. *)
Definition _buildTargetTexture (textureOrAttribute : TextureOrAttribute) (index : nat)
  : M value :=
  match textureOrAttribute with
  | TTexture l =>
      modify_this (set_targetRefTexName None);;
      mret (VTexture2D l)
  | TAttribute name =>
      t ← get_this;
      let refTexture := get_prop (at2 index (sourceTextures t)) name in
      (* Transform: invalid reference for targetTexture *)
      assert (truthy refTexture);;
      (* save reference texture name, when corresponding source texture is
         updated we also update target texture. *)
      modify_this (set_targetRefTexName (Some name));;
      texture ← cloneTextureFrom refTexture
                  {[ GL.TEXTURE_MIN_FILTER := GL.NEAREST;
                     GL.TEXTURE_MAG_FILTER := GL.NEAREST;
                     GL.TEXTURE_WRAP_S := GL.CLAMP_TO_EDGE;
                     GL.TEXTURE_WRAP_T := GL.CLAMP_TO_EDGE ]}
                  {[ GL.UNPACK_FLIP_Y_WEBGL := false ]};
      (* track the new texture created above
         there can only be two target textures, index 0 and index 1 *)
      let resourceName := "target-texture-" +:+ pretty index in
      t ← get_this;
      when (truthy (get_prop (resources t) resourceName))
           (Resource_delete (get_prop (resources t) resourceName));;
      modify_this (fun t => set_resources (<[resourceName := texture]> (resources t)) t);;
      mret texture
  end.

(** setup textures for swapping. *)
Definition _setupSwapTextures : M unit :=
  t ← get_this;
  if negb (truthy_str (_swapTexture t)) || negb (truthy_str (targetTextureVarying t)) then
    (* Must be rendering to a texture and _swapTexture is provided *)
    mret tt
  else
    let current := currentIndex t in
    let next := (current + 1) mod 2 in
    let swapName := default "" (_swapTexture t) in
    modify_this (fun t => set_sourceTextures
      (set2 next (Object_assign (at2 next (sourceTextures t))
                                (Some (at2 current (sourceTextures t))))
            (sourceTextures t)) t);;
    modify_this (fun t => set_sourceTextures
      (set2 next (<[swapName := at2 current (targetTextures t)]> (at2 next (sourceTextures t)))
            (sourceTextures t)) t);;
    modify_this (fun t => set_targetTextures
      (set2 next (get_prop (at2 current (sourceTextures t)) swapName) (targetTextures t)) t).

Definition _setupFramebuffer (framebuffer : option loc) (texture : value) (index : nat)
  : M (option loc) :=
  '(w, h) ← texture_size texture;
  match framebuffer with
  | Some fb =>
      (* Resize to new target texture size *)
      Framebuffer_update_resize fb w h texture;;
      mret (Some fb)
  | None =>
      fb ← new_Framebuffer w h texture;
      mret (Some fb)
  end.

(** setup framebuffers with texture attachments, to which results are rendered *)
Definition _setupFramebuffers : M unit :=
  t ← get_this;
  if negb (renderingToTexture t) then mret tt
  else
    let current := currentIndex t in
    fb ← _setupFramebuffer (at2 current (framebuffers t)) (at2 current (targetTextures t)) current;
    modify_this (fun t => set_framebuffers (set2 current fb (framebuffers t)) t);;
    t ← get_this;
    when (truthy_str (_swapTexture t))
      (let next := (current + 1) mod 2 in
       fb ← _setupFramebuffer (at2 next (framebuffers t)) (at2 next (targetTextures t)) next;
       modify_this (fun t => set_framebuffers (set2 next fb (framebuffers t)) t)).

(** setup source and destination textures *)
Definition _setupTextures (props : Props.t) : M unit :=
  t ← get_this;
  let current := currentIndex t in
  let _sourceTextures := Props._sourceTextures props in
  when (truthy_str (Props._swapTexture props))
    (* a sealed instance that was built without this property cannot gain it *)
    (if sealed t && bool_decide (_swapTexture t = None) then throw TypeError
     else modify_this (set_swapTexture (Props._swapTexture props)));;
  for_each (map_to_list (default ∅ _sourceTextures))
    (fun '(textureName, x) => assert (instanceof_Texture2D x));;
  (* Setup source texture *)
  modify_this (fun t => set_sourceTextures
    (set2 current (Object_assign (at2 current (sourceTextures t)) _sourceTextures)
          (sourceTextures t)) t);;
  modify_this (fun t => set_hasSourceTextures
    (negb (bool_decide (at2 0 (sourceTextures t) = ∅))) t);;
  t ← get_this;
  _targetTexture ←
    (if truthy_str (targetTextureVarying t) then
       _targetTexture ←
         (if negb (truthy_target (Props._targetTexture props))
             && truthy_str (_targetRefTexName t) then
            (* if _targetTexture is not specified, but it was previously created
               with a reference texture, update it *)
            match _sourceTextures with
            | None => throw TypeError
            | Some given =>
                if truthy (get_prop given (default "" (_targetRefTexName t)))
                then mret (TAttribute <$> _targetRefTexName t)
                else mret (Props._targetTexture props)
            end
          else mret (Props._targetTexture props));
       match _targetTexture with
       | Some target =>
           if truthy_target _targetTexture then
             texture ← _buildTargetTexture target current;
             modify_this (fun t => set_targetTextures
               (set2 current texture (targetTextures t)) t);;
             mret _targetTexture
           else mret _targetTexture
       | None => mret _targetTexture
       end
     else mret (Props._targetTexture props));
  _setupSwapTextures;;
  (* setup Framebuffer object for rendering to Texture. *)
  when (truthy_target _targetTexture) _setupFramebuffers.

(** sets target texture for rendering by updating framebuffer *)
Definition _updateTargetTexture (texture : TextureOrAttribute) (index : nat) : M unit :=
  targetTexture ← _buildTargetTexture texture index;
  when (truthy targetTexture)
    (modify_this (fun t => set_targetTextures (set2 index targetTexture (targetTextures t)) t);;
     t ← get_this;
     match at2 index (framebuffers t) with
     | Some fb =>
         '(w, h) ← texture_size targetTexture;
         Framebuffer_update_resize fb w h (at2 index (targetTextures t))
     | None => mret tt
     end).

(** *** Construction and update *)

(** scan and update vertex shader for texture attributes. *)
Definition _processVertexShader (vs : string) : M (option string * gmap string string) :=
  t ← get_this;
  mret (updateForTextures vs (at2 (currentIndex t) (sourceTextures t))
                          (targetTextureVarying t) (at2 (currentIndex t) (targetTextures t))).

(** build and return shader related parameters; the shader sources themselves
    belong to the program and are not kept here. *)
Definition _getShaders (props : Props.t) : M (gmap string string) :=
  '(targetTextureType', samplerTextureMap') ← _processVertexShader (default "" (Props.vs props));
  modify_this (set_targetTextureType targetTextureType');;
  mret samplerTextureMap'.

(** [Number.isFinite(x) ? x : undefined], for the vertex count of the model. *)
Definition vertexCount_of (elementCount' : option (option Q)) : option Q :=
  mjoin elementCount'.

(** build Model and TransformFeedback objects *)
Definition _buildModel (props : Props.t) : M unit :=
  samplerTextureMap' ← _getShaders props;
  modify_this (set_model (Some (mkModel (vertexCount_of (Props.elementCount props)) false)));;
  modify_this (set_samplerTextureMap samplerTextureMap');;
  (* setup TF to capture varyings. *)
  _setupTransformFeedback;;
  (* create buffer to access source texture pixels. *)
  _setElementCount props.

Definition _initialize (props : Props.t) : M unit :=
  (* Transform: vertex shader must be provided *)
  assert (truthy_str (Props.vs props));;
  let varyingsArray' :=
    match Props.feedbackMap props, Props.varyings props with
    | Some entries, None => Some (snd <$> entries)
    | _, varyings' => varyings'
    end in
  modify_this (set_varyingsArray varyingsArray');;
  when (truthy_str (Props._targetTextureVarying props))
    (modify_this (set_targetTextureVarying (Props._targetTextureVarying props));;
     modify_this (set_renderingToTexture true));;
  _setupBuffers props;;
  _setupTextures props;;
  _buildModel props.

(** The fields as the constructor sets them before [_initialize]. *)
Definition initial : Transform :=
  {| model := None;
     elementCount := 0%Q;
     currentIndex := 0;
     sourceBuffers := (∅, ∅);
     sourceTextures := (∅, ∅);
     feedbackBuffers := (∅, ∅);
     feedbackMap := None;
     targetTextures := (VUndefined, VUndefined);
     transformFeedbacks := (None, None);
     framebuffers := (None, None);
     resources := ∅;
     elementIDBuffer := VNull;
     _targetRefTexName := None;
     varyingsArray := None;
     targetTextureVarying := None;
     renderingToTexture := false;
     _swapTexture := None;
     hasSourceTextures := false;
     samplerTextureMap := ∅;
     targetTextureType := None;
     sealed := false |}.

Definition constructor (props : Props.t) : M unit :=
  g ← get_gl;
  assert (webgl2 g);;
  modify_this (fun _ => initial);;
  _initialize props;;
  modify_this (set_sealed true).

(** [new Transform(gl, props)] *)
Definition new_Transform (g : GLContext) (props : Props.t) : Outcome unit * State :=
  constructor props (mkState initial g).

(** Update some or all buffer bindings. *)
Definition update (opts : Props.t) : M unit :=
  _setElementCount opts;;
  _setupBuffers opts;;
  _setupTransformFeedback;;
  _setupTextures opts.

(** *** The public interface as a transition system *)

Inductive Op :=
| Update (opts : Props.t)
| Run (opts : RunOpts.t)
| Swap
| Delete
| UpdateTargetTexture (texture : TextureOrAttribute) (index : bool).

Definition exec (op : Op) : M unit :=
  match op with
  | Update opts => update opts
  | Run opts => run opts
  | Swap => swap
  | Delete => delete
  | UpdateTargetTexture texture index => _updateTargetTexture texture (Nat.b2n index)
  end.

(** The states an instance built on the device [g0] can be in; a method that
    throws leaves the instance in the state it had reached. *)
Inductive reachable (g0 : GLContext) : State -> Prop :=
| reachable_new props st :
    new_Transform g0 props = (Ok tt, st) -> reachable g0 st
| reachable_exec st op o st' :
    reachable g0 st -> exec op st = (o, st') -> reachable g0 st'.

(** The states in which a configuration call, the construction of an instance
    or an [update] of one, returns. *)
Inductive configured (g0 : GLContext) : State -> Prop :=
| configured_new props st' :
    new_Transform g0 props = (Ok tt, st') -> configured g0 st'
| configured_update st opts st' :
    reachable g0 st -> update opts st = (Ok tt, st') -> configured g0 st'.

End Transform.

(** * Relations between the states of a computation *)

(** [pres R m]: every run of [m], returning or throwing, relates the state it
    starts from to the state it leaves. *)
Definition pres {A} (R : relation State) (m : M A) : Prop :=
  forall st o st', m st = (o, st') -> R st st'.

(** A projection of the state that a computation leaves as it is. *)
Definition unchanged {A} (f : State -> A) : relation State :=
  fun st st' => f st' = f st.

(** A property of the state that a computation keeps. *)
Definition keeps (I : State -> Prop) : relation State :=
  fun st st' => I st -> I st'.

Definition idx (st : State) : nat := currentIndex (this st).

(** The generation index is 0 or 1. *)
Definition binary_index (st : State) : Prop := idx st < 2.
(** * Reasoning about computations *)

(** An instance that does not render to a texture has no framebuffer. *)
Definition no_render_target (st : State) : Prop :=
  renderingToTexture (this st) = false -> framebuffers (this st) = (None, None).

(** What [_getInputs] leaves as it is. *)
Definition inputs_frame (st : State) : Transform * list Call * list Framebuffer :=
  (this st, gl_calls (gl st), gl_framebuffers (gl st)).

(** What the loop of [_setupSwapBuffers] does to the source-buffer table of the
    other generation, given the feedback-buffer table of the current one. *)
Definition wire_sources (textureVarying : option string) (feedback : table)
    (entries : list (string * string)) (sources : table) : table :=
  foldl (fun tbl '(srcName, dstName) =>
           if bool_decide (Some dstName <> textureVarying)
           then <[srcName := get_prop feedback dstName]> tbl else tbl)
        sources entries.

(** What it does to the feedback-buffer table of the other generation, given
    the source-buffer table of the current one. *)
Definition wire_feedbacks (textureVarying : option string) (sources : table)
    (entries : list (string * string)) (feedbacks : table) : table :=
  foldl (fun tbl '(srcName, dstName) =>
           if bool_decide (Some dstName <> textureVarying)
           then <[dstName := get_prop sources srcName]> tbl else tbl)
        feedbacks entries.

(** The pair [srcName -> dstName] of the feedback map is wired across the two
    generations. *)
Definition pair_wired (t : Transform) (srcName dstName : string) : Prop :=
  let c := currentIndex t in
  let n := (c + 1) mod 2 in
  get_prop (at2 n (sourceBuffers t)) srcName = get_prop (at2 c (feedbackBuffers t)) dstName
  /\ get_prop (at2 n (feedbackBuffers t)) dstName = get_prop (at2 c (sourceBuffers t)) srcName
  /\ instanceof_Buffer (get_prop (at2 n (feedbackBuffers t)) dstName) = true.

(** The source side of the wiring, which every pair of the feedback map has:
    the other generation reads [srcName] from the buffer into which the current
    generation captures [dstName], and the current source is a buffer. *)
Definition source_wired (t : Transform) (srcName dstName : string) : Prop :=
  let c := currentIndex t in
  let n := (c + 1) mod 2 in
  get_prop (at2 n (sourceBuffers t)) srcName = get_prop (at2 c (feedbackBuffers t)) dstName
  /\ instanceof_Buffer (get_prop (at2 c (sourceBuffers t)) srcName) = true.

(** The swap texture [name] is wired across the two generations. *)
Definition texture_wired (t : Transform) (name : string) : Prop :=
  let c := currentIndex t in
  let n := (c + 1) mod 2 in
  get_prop (at2 n (sourceTextures t)) name = at2 c (targetTextures t)
  /\ at2 n (targetTextures t) = get_prop (at2 c (sourceTextures t)) name.



(** The feedback buffers given to a configuration call, under either name. *)
Definition given_feedbackBuffers (props : Props.t) : option table :=
  or_else (Props.feedbackBuffers props) (Props.destinationBuffers props).



(** ** Owned resources *)

(** The object lives in the store of the device. *)
Definition in_store (g : GLContext) (v : value) : Prop :=
  match v with
  | VBuffer l => l < length (gl_buffers g)
  | VTexture2D l => l < length (gl_textures g)
  | _ => False
  end.

(** The object has been destroyed by [delete()]. *)
Definition is_deleted (g : GLContext) (v : value) : Prop :=
  match v with
  | VBuffer l => exists b, gl_buffers g !! l = Some b /\ buffer_deleted b = true
  | VTexture2D l => exists x, gl_textures g !! l = Some x /\ texture_deleted x = true
  | _ => False
  end.

(** The object is in the resource registry. *)
Definition registered (t : Transform) (v : value) : Prop :=
  exists name, resources t !! name = Some v.

(** What is registered lives in the store. *)
Definition registry_ok (st : State) : Prop :=
  forall name v, resources (this st) !! name = Some v -> in_store (gl st) v.

(** A name under which [this.resources[name]] reads what was registered, or
    nothing: a key of the registry, or a name that [Object.prototype] does not
    have. *)
Definition registry_name (t : Transform) (name : string) : Prop :=
  is_Some (resources t !! name) \/ name ∉ Object_prototype_names.

(** No registered resource is dropped: what was registered or destroyed is
    still registered or is destroyed. *)
Definition kept (st st' : State) : Prop :=
  forall v, registered (this st) v \/ is_deleted (gl st) v ->
            registered (this st') v \/ is_deleted (gl st') v.

(** From a state whose registry is in order, the computation leaves one whose
    registry is in order and drops no registered resource. *)
Definition tracked (st st' : State) : Prop :=
  registry_ok st -> registry_ok st' /\ kept st st'.

(** The registry and the sizes of the store are the same and what was destroyed
    stays destroyed. *)
Definition stable (st st' : State) : Prop :=
  resources (this st') = resources (this st)
  /\ length (gl_buffers (gl st')) = length (gl_buffers (gl st))
  /\ length (gl_textures (gl st')) = length (gl_textures (gl st))
  /\ (forall v, is_deleted (gl st) v -> is_deleted (gl st') v).

(** [if (this.resources[name]) this.resources[name].delete();
    this.resources[name] = resource]: the two steps that follow the creation of
    an owned resource. *)
Definition register (name : string) (resource : value) : M unit :=
  t ← get_this;
  when (truthy (get_prop (resources t) name)) (Resource_delete (get_prop (resources t) name));;
  modify_this (fun t => set_resources (<[name := resource]> (resources t)) t).


(** The contents of the element-index buffer built for the element count [E]:
    as many elements as the integer part of [E], each holding its index in
    single precision. *)
Definition element_ids (E : Q) : TypedArray :=
  fill_with_indices (replicate (Z.to_nat (ToIntegerOrInfinity E)) 0%Z).

(** The test [this.hasSourceTextures || this.targetTextureVarying] of
    [_getInputs], [_updateElementIDBuffer] and [_getShaders].  The flag
    [hasSourceTextures] is what [_setupTextures] last computed, from the source
    textures of generation 0 whatever the current generation is. *)
Definition textures_enabled (t : Transform) : Prop :=
  hasSourceTextures t = true \/ truthy_str (targetTextureVarying t) = true.


(** The instance has a source texture in generation 0 or a texture output. *)
Definition textures_configured (t : Transform) : Prop :=
  at2 0 (sourceTextures t) <> ∅ \/ truthy_str (targetTextureVarying t) = true.

(** The model has been built. *)
Definition model_built (st : State) : Prop := model (this st) <> None.

(** The test [textures_enabled] holds exactly when the instance has a source
    texture in generation 0 or a texture output; and the element-index buffer,
    once it exists, belongs to such an instance and is a buffer of the store
    whose contents were built for a count that is at least the element
    count. *)
Definition index_buffer_ok (st : State) : Prop :=
  (textures_enabled (this st) <-> textures_configured (this st))
  /\ (elementIDBuffer (this st) = VNull
      \/ textures_enabled (this st)
         /\ exists l b E,
              elementIDBuffer (this st) = VBuffer l
              /\ gl_buffers (gl st) !! l = Some b
              /\ data b = Some (element_ids E)
              /\ (elementCount (this st) <= E)%Q).

(** What the element-index buffer depends on, apart from the store. *)
Definition index_view (st : State) :=
  (elementIDBuffer (this st), elementCount (this st), hasSourceTextures (this st),
   targetTextureVarying (this st), at2 0 (sourceTextures (this st)), model (this st)).

(** The element-index buffer has just been filled for the count [E]. *)
Definition index_built (E : Q) (st : State) : Prop :=
  textures_enabled (this st)
  /\ exists l b,
       elementIDBuffer (this st) = VBuffer l
       /\ gl_buffers (gl st) !! l = Some b
       /\ data b = Some (element_ids E).

(** The fields that decide the wiring of the buffers. *)
Definition buffer_view (st : State) :=
  (sourceBuffers (this st), feedbackBuffers (this st), currentIndex (this st),
   feedbackMap (this st), targetTextureVarying (this st)).

(** The fields that decide the wiring of the textures. *)
Definition texture_view (st : State) :=
  (sourceTextures (this st), targetTextures (this st), currentIndex (this st),
   _swapTexture (this st), targetTextureVarying (this st)).

(** No buffer is reached by the name: it is omitted, empty, or not bound in the
    current generation's feedback-buffer table. *)
Definition reaches_no_buffer (t : Transform) (varyingName : option string) : Prop :=
  match varyingName with
  | None => True
  | Some name => name = "" \/ at2 (currentIndex t) (feedbackBuffers t) !! name = None
  end.

(** * A sample device and sample instances *)

Definition sample_updateForTextures
  : string -> table -> option string -> value -> option string * gmap string string :=
  fun vs sourceTextureMap targetTextureVarying targetTexture =>
    (match targetTextureVarying with Some _ => Some "vec2" | None => None end, ∅).

Definition sample_getSizeUniforms
  : list Texture2D -> table -> option string -> value -> gmap string Uniform :=
  fun textures sourceTextureMap targetTextureVarying targetTexture => ∅.

Definition sample_accessor : Accessor := mkAccessor (Some 1) None None.

(** A device with two buffers of different layout and one 2x2 texture. *)
Definition sample_gl : GLContext :=
  mkGL true
    [mkBuffer (Some 16) (Some 0x88E4%N) (Some sample_accessor) None false;
     mkBuffer (Some 32) (Some 0x88E8%N) (Some (mkAccessor (Some 2) None None)) None false]
    [mkTexture2D 2 2 ∅ ∅ false] [] [] [].

(** [{vs, elementCount: 4, sourceBuffers: {pos}, feedbackMap: {pos: 'nextPos'}}] *)
Definition sample_props : Props.t :=
  Props.mk (Some "void main() {}") None None (Some {[ "pos" := VBuffer 0 ]}) None
           (Some [("pos", "nextPos")]) None None None None None (Some (Some 4%Q)).

Definition sample_state : State :=
  Eval vm_compute in (new_Transform sample_updateForTextures sample_gl sample_props).2.

(** An instance with no buffers and no textures: [{vs}]. *)
Definition bare_props : Props.t :=
  Props.mk (Some "void main() {}") None None None None None None None None None None None.

Definition bare_state : State :=
  Eval vm_compute in (new_Transform sample_updateForTextures sample_gl bare_props).2.

Definition sample_typeToChannelCount (type : option string) : option nat :=
  match type with
  | Some "float" => Some 1
  | Some "vec2" => Some 2
  | Some "vec3" => Some 3
  | Some "vec4" => Some 4
  | _ => None
  end.

Definition sample_readPixels (g : GLContext) (framebuffer : loc) : list (Z * Z * Z * Z) :=
  [(1, 2, 3, 4); (5, 6, 7, 8)]%Z.

Definition sample_Buffer_getData (g : GLContext) (buffer : loc) : TypedArray :=
  [Z.of_nat buffer; 42%Z].

(** [{vs, feedbackBuffers: {nextPos: {buffer}}}]: a feedback buffer given in a
    wrapper object. *)
Definition wrapper_props : Props.t :=
  Props.mk (Some "void main() {}") None None None (Some {[ "nextPos" := VObject (VBuffer 1) ]})
           None None None None None None None.

Definition wrapper_state : State :=
  Eval vm_compute in (new_Transform sample_updateForTextures sample_gl wrapper_props).2.

(** [{vs, feedbackBuffers: {'': {buffer}}}]: a feedback buffer under the empty
    name. *)
Definition unnamed_props : Props.t :=
  Props.mk (Some "void main() {}") None None None (Some {[ "" := VObject (VBuffer 1) ]})
           None None None None None None None.

Definition unnamed_state : State :=
  Eval vm_compute in (new_Transform sample_updateForTextures sample_gl unnamed_props).2.

(** [{vs, _targetTextureVarying: 'outTex', _sourceTextures: {tex},
    _targetTexture: 'tex', elementCount: 4}]: an instance that renders to a
    texture cloned from its source texture. *)
Definition texture_props : Props.t :=
  Props.mk (Some "void main() {}") None (Some "outTex") None None None None None
           (Some {[ "tex" := VTexture2D 0 ]}) None (Some (TAttribute "tex")) (Some (Some 4%Q)).

Definition texture_state : State :=
  Eval vm_compute in (new_Transform sample_updateForTextures sample_gl texture_props).2.

(** The same, with a buffer bound under the empty name:
    [feedbackBuffers: {'': buffer}]. *)
Definition unnamed_texture_props : Props.t :=
  Props.mk (Some "void main() {}") None (Some "outTex") None (Some {[ "" := VBuffer 0 ]})
           None None None
           (Some {[ "tex" := VTexture2D 0 ]}) None (Some (TAttribute "tex")) (Some (Some 4%Q)).

Definition unnamed_texture_state : State :=
  Eval vm_compute in (new_Transform sample_updateForTextures sample_gl unnamed_texture_props).2.

(** [{vs, sourceBuffers: {a, b}, feedbackMap: {a: 'c', b: 'c'}}]: two sources
    mapped to one destination. *)
Definition fanin_props : Props.t :=
  Props.mk (Some "void main() {}") None None
           (Some {[ "a" := VBuffer 0; "b" := VBuffer 1 ]}) None
           (Some [("a", "c"); ("b", "c")]) None None None None None (Some (Some 4%Q)).

Definition fanin_state : State :=
  Eval vm_compute in (new_Transform sample_updateForTextures sample_gl fanin_props).2.

(** [{vs, _targetTextureVarying: 'outTex', _sourceTextures: {tex},
    _targetTexture: 'tex', _swapTexture: 'tex', elementCount: 4}]: an instance
    that renders to a texture and swaps it with its source texture. *)
Definition pingpong_props : Props.t :=
  Props.mk (Some "void main() {}") None (Some "outTex") None None None None None
           (Some {[ "tex" := VTexture2D 0 ]}) (Some "tex") (Some (TAttribute "tex"))
           (Some (Some 4%Q)).

Definition pingpong_state : State :=
  Eval vm_compute in (new_Transform sample_updateForTextures sample_gl pingpong_props).2.







(** * Further definitions *)

(** [static isSupported(gl)]: For now WebGL2 only. *)
Definition isSupported (g : GLContext) : bool := webgl2 g.

(** What the check of [_deduceBufferProps] accepts as a feedback buffer:
    [x instanceof Buffer || x.buffer instanceof Buffer]. *)
Definition accepted_feedbackBuffer (x : value) : bool :=
  instanceof_Buffer x || instanceof_Buffer (prop_buffer x).

(** The properties with the deprecated names [destinationBuffers] and
    [sourceDestinationMap] given under their current names. *)
Definition current_names (props : Props.t) : Props.t :=
  Props.mk (Props.vs props) (Props.varyings props) (Props._targetTextureVarying props)
           (Props.sourceBuffers props)
           (or_else (Props.feedbackBuffers props) (Props.destinationBuffers props))
           (or_else (Props.feedbackMap props) (Props.sourceDestinationMap props))
           None None
           (Props._sourceTextures props) (Props._swapTexture props)
           (Props._targetTexture props) (Props.elementCount props).

(** What is decided when the instance is built and what no method changes
    afterwards. *)
Definition construction_view (st : State) :=
  (targetTextureVarying (this st), renderingToTexture (this st), varyingsArray (this st),
   samplerTextureMap (this st), targetTextureType (this st), sealed (this st)).

(** A sealed instance that was built without a swap texture. *)
Definition sealed_without_swapTexture (st : State) : Prop :=
  sealed (this st) = true /\ _swapTexture (this st) = None.

(** ** Borrowed resources *)

(** The object was created after the instance was built on the device [g0]. *)
Definition created_since (g0 : GLContext) (v : value) : Prop :=
  match v with
  | VBuffer l => length (gl_buffers g0) <= l
  | VTexture2D l => length (gl_textures g0) <= l
  | _ => False
  end.

(** Two states of a texture that differ at most in the parameters of
    [SRC_TEX_PARAMETER_OVERRIDES]. *)
Definition same_but_filtering (x x' : Texture2D) : Prop :=
  width x' = width x
  /\ height x' = height x
  /\ pixelStore x' = pixelStore x
  /\ texture_deleted x' = texture_deleted x
  /\ forall k, SRC_TEX_PARAMETER_OVERRIDES !! k = None -> parameters x' !! k = parameters x !! k.

(** The buffers of the device [g0] have the layout, the last upload from the
    CPU and the deletion mark they had, and its textures differ at most in
    their filtering; what the instance destroys or fills from the CPU, the
    registry and the element-index buffer, was created by the instance. *)
Definition borrowed_ok (g0 : GLContext) (st : State) : Prop :=
  (forall name v, resources (this st) !! name = Some v -> created_since g0 v)
  /\ (elementIDBuffer (this st) = VNull \/ created_since g0 (elementIDBuffer (this st)))
  /\ (forall l b, gl_buffers g0 !! l = Some b -> gl_buffers (gl st) !! l = Some b)
  /\ (forall l x, gl_textures g0 !! l = Some x ->
        exists x', gl_textures (gl st) !! l = Some x' /\ same_but_filtering x x').

(** ** Framebuffers and transform-feedback objects *)

(** The number of slots of a two-element array that are filled. *)
Definition slot_count (p : Array2 (option loc)) : nat :=
  match p.1 with Some _ => 1 | None => 0 end + match p.2 with Some _ => 1 | None => 0 end.

(** Of a store of [len] objects, the first [n0] were there before the instance
    was built and every other one is held by exactly one of the two slots. *)
Definition slots_ok (n0 len : nat) (p : Array2 (option loc)) : Prop :=
  len = n0 + slot_count p
  /\ (forall i l, at2 i p = Some l -> n0 <= l < len)
  /\ (forall l l', p.1 = Some l -> p.2 = Some l' -> l <> l').

(** The framebuffers and the transform-feedback objects created since the
    instance was built on [g0] are those of [this.framebuffers] and
    [this.transformFeedbacks]. *)
Definition device_objects_ok (g0 : GLContext) (st : State) : Prop :=
  slots_ok (length (gl_framebuffers g0)) (length (gl_framebuffers (gl st)))
           (framebuffers (this st))
  /\ slots_ok (length (gl_transformFeedbacks g0)) (length (gl_transformFeedbacks (gl st)))
              (transformFeedbacks (this st)).

(** The same, with a generation index of 0 or 1. *)
Definition objects_ok (g0 : GLContext) (st : State) : Prop :=
  device_objects_ok g0 st /\ currentIndex (this st) < 2.

(** The device apart from its framebuffers, and apart from its
    transform-feedback objects. *)
Definition but_framebuffers (g : GLContext) :=
  (webgl2 g, gl_buffers g, gl_textures g, gl_transformFeedbacks g, gl_calls g).

Definition but_transformFeedbacks (g : GLContext) :=
  (webgl2 g, gl_buffers g, gl_textures g, gl_framebuffers g, gl_calls g).

(** The transform-feedback object of generation [index] exists and captures
    into the feedback buffers of that generation. *)
Definition captures_into (index : nat) (st : State) : Prop :=
  exists tf,
    at2 index (transformFeedbacks (this st)) = Some tf
    /\ gl_transformFeedbacks (gl st) !! tf
       = Some (mkTransformFeedback (at2 index (feedbackBuffers (this st)))).

(** The framebuffer of generation [index] exists, is attached to the target
    texture of that generation and has its size. *)
Definition renders_into (index : nat) (st : State) : Prop :=
  exists fb l x,
    at2 index (framebuffers (this st)) = Some fb
    /\ at2 index (targetTextures (this st)) = VTexture2D l
    /\ gl_textures (gl st) !! l = Some x
    /\ gl_framebuffers (gl st) !! fb
       = Some (mkFramebuffer (width x) (height x) (VTexture2D l)).

(** What [captures_into] depends on. *)
Definition capture_view (st : State) :=
  (transformFeedbacks (this st), feedbackBuffers (this st), currentIndex (this st),
   feedbackMap (this st), gl_transformFeedbacks (gl st)).

(** The sizes of the textures of the device. *)
Definition texture_sizes (g : GLContext) : list (nat * nat) :=
  (fun x => (width x, height x)) <$> gl_textures g.

(** What [renders_into] depends on. *)
Definition render_view (st : State) :=
  (framebuffers (this st), targetTextures (this st), currentIndex (this st),
   _swapTexture (this st), gl_framebuffers (gl st), texture_sizes (gl st)).

(** What the re-cloning of the target texture depends on. *)
Definition follow_view (st : State) :=
  (renderingToTexture (this st), targetTextureVarying (this st), _targetRefTexName (this st),
   currentIndex (this st), texture_sizes (gl st)).

(** ** Texture inputs *)

(** A texture after [setParameters(SRC_TEX_PARAMETER_OVERRIDES)]. *)
Definition override_filtering (x : Texture2D) : Texture2D :=
  mkTexture2D (width x) (height x) (SRC_TEX_PARAMETER_OVERRIDES ∪ parameters x)
              (pixelStore x) (texture_deleted x).

(** The device apart from its textures. *)
Definition but_textures (g : GLContext) :=
  (webgl2 g, gl_buffers g, gl_framebuffers g, gl_transformFeedbacks g, gl_calls g).

(** A device without WebGL2. *)
Definition webgl1_gl : GLContext := mkGL false [] [] [] [] [].

(** [{feedbackBuffers: {out: texture}}]: a texture where a buffer is expected. *)
Definition misbound_props : Props.t :=
  Props.mk None None None None (Some {[ "out" := VTexture2D 0 ]}) None None None None None
           None None.

(** [{_sourceTextures: {tex: buffer}}]: a buffer where a texture is expected. *)
Definition mistextured_props : Props.t :=
  Props.mk None None None None None None None None (Some {[ "tex" := VBuffer 0 ]}) None
           None None.

(** [{_swapTexture: 'tex'}] *)
Definition swap_texture_props : Props.t :=
  Props.mk None None None None None None None None None (Some "tex") None None.

(** The texture instance after one [run]. *)
Definition ran_texture_state : State :=
  Eval vm_compute in (run sample_getSizeUniforms RunOpts.empty texture_state).2.

(** [{_sourceTextures: {tex}}]: the source texture given again. *)
Definition retextured_props : Props.t :=
  Props.mk None None None None None None None None (Some {[ "tex" := VTexture2D 0 ]}) None
           None None.

(** ** Instances on which the code departs from its specification *)

(** The sample instance after [swap()], and after [swap()] and [update({})]. *)
Definition swapped_state : State :=
  Eval vm_compute in (swap sample_state).2.

Definition reupdated_state : State :=
  Eval vm_compute in (update Props.empty swapped_state).2.

(** A device with three textures. *)
Definition swap_gl : GLContext :=
  mkGL true []
    [mkTexture2D 2 2 ∅ ∅ false; mkTexture2D 2 2 ∅ ∅ false; mkTexture2D 4 4 ∅ ∅ false] [] [] [].

(** [{vs, _targetTextureVarying: 'outTex', _sourceTextures: {tex: texture0},
    _targetTexture: texture1, _swapTexture: 'tex', elementCount: 4}]: an
    instance that reads texture 0, renders to texture 1 and swaps the two. *)
Definition exchange_props : Props.t :=
  Props.mk (Some "void main() {}") None (Some "outTex") None None None None None
           (Some {[ "tex" := VTexture2D 0 ]}) (Some "tex") (Some (TTexture 1)) (Some (Some 4%Q)).

Definition exchange_state : State :=
  Eval vm_compute in (new_Transform sample_updateForTextures swap_gl exchange_props).2.

(** [{_sourceTextures: {tex: texture2}}]: another source texture, and no
    target texture. *)
Definition resourced_props : Props.t :=
  Props.mk None None None None None None None None (Some {[ "tex" := VTexture2D 2 ]}) None
           None None.

(** The instance after [update({_sourceTextures: {tex: texture2}})]; after a
    [run()] and a [swap()]; and after the same [update] again. *)
Definition resourced_state : State :=
  Eval vm_compute in (update resourced_props exchange_state).2.

Definition resourced_swapped_state : State :=
  Eval vm_compute in
    (swap (run sample_getSizeUniforms RunOpts.empty resourced_state).2).2.

Definition resourced_again_state : State :=
  Eval vm_compute in (update resourced_props resourced_swapped_state).2.





(** The sample instance after [swap()] and [update({_sourceTextures: {tex}})]:
    its only source texture is in generation 1. *)
Definition late_generation_state : State :=
  Eval vm_compute in (update retextured_props swapped_state).2.



(** * Reasoning about computations *)

Lemma at2_same {A} (i : nat) (x : A) : at2 i (x, x) = x.
Proof. now destruct i. Qed.

(** ** Reading a table *)

Lemma get_prop_Some (tbl : table) name v : tbl !! name = Some v -> get_prop tbl name = v.
Proof. intros H. unfold get_prop. now rewrite H. Qed.

Lemma get_prop_None (tbl : table) name :
  tbl !! name = None -> get_prop tbl name = Object_prototype name.
Proof. intros H. unfold get_prop. now rewrite H. Qed.

Lemma get_prop_insert_eq (tbl : table) name v : get_prop (<[name := v]> tbl) name = v.
Proof. unfold get_prop. now rewrite lookup_insert_eq. Qed.

Lemma get_prop_insert_ne (tbl : table) name name' v :
  name <> name' -> get_prop (<[name := v]> tbl) name' = get_prop tbl name'.
Proof. intros H. unfold get_prop. now rewrite lookup_insert_ne. Qed.

Lemma Object_prototype_other name :
  name ∉ Object_prototype_names -> Object_prototype name = VUndefined.
Proof. intros H. unfold Object_prototype. now rewrite bool_decide_eq_false_2. Qed.

Lemma Object_prototype_member name :
  name ∈ Object_prototype_names -> Object_prototype name = VInherited name.
Proof. intros H. unfold Object_prototype. now rewrite bool_decide_eq_true_2. Qed.

(** What is read under a name is an own property or comes from the
    prototype; the prototype holds no buffer, no texture and no wrapper. *)
Lemma get_prop_cases (tbl : table) name :
  tbl !! name = Some (get_prop tbl name)
  \/ tbl !! name = None
     /\ (get_prop tbl name = VUndefined \/ get_prop tbl name = VInherited name).
Proof.
  unfold get_prop, Object_prototype. destruct (tbl !! name); [now left | right].
  split; [reflexivity |]. cbn. case_bool_decide; auto.
Qed.

Lemma bind_Ok {A B} (m : M A) (k : A -> M B) st b st' :
  (m ≫= k) st = (Ok b, st') ->
  exists a st1, m st = (Ok a, st1) /\ k a st1 = (Ok b, st').
Proof.
  unfold mbind, M_bind. destruct (m st) as [[a|e] st1]; [eauto | discriminate].
Qed.

Lemma bind_run {A B} (m : M A) (k : A -> M B) st a st1 :
  m st = (Ok a, st1) -> (m ≫= k) st = k a st1.
Proof. unfold mbind, M_bind. now intros ->. Qed.

Lemma bind_Throw {A B} (m : M A) (k : A -> M B) st e st1 :
  m st = (Throw e, st1) -> (m ≫= k) st = (Throw e, st1).
Proof. unfold mbind, M_bind. now intros ->. Qed.

Section pres.
Context (R : relation State) `{!PreOrder R}.

Lemma pres_ret {A} (a : A) : pres R (mret a).
Proof. intros st o st' [= <- <-]. reflexivity. Qed.

Lemma pres_throw {A} e : pres R (@throw A e).
Proof. intros st o st' [= <- <-]. reflexivity. Qed.

Lemma pres_get_this : pres R get_this.
Proof. intros st o st' [= <- <-]. reflexivity. Qed.

Lemma pres_get_gl : pres R get_gl.
Proof. intros st o st' [= <- <-]. reflexivity. Qed.

Lemma pres_assert b : pres R (assert b).
Proof. destruct b; [apply pres_ret | apply pres_throw]. Qed.

Lemma pres_bind {A B} (m : M A) (k : A -> M B) :
  pres R m -> (forall a, pres R (k a)) -> pres R (m ≫= k).
Proof.
  intros Hm Hk st o st'. unfold mbind, M_bind.
  destruct (m st) as [[a|e] st1] eqn:E.
  - intros H. transitivity st1; [eapply Hm | eapply Hk]; eauto.
  - intros [= <- <-]. eapply Hm; eauto.
Qed.

Lemma pres_when b (m : M unit) : pres R m -> pres R (when b m).
Proof. destruct b; [auto | intros; apply pres_ret]. Qed.

Lemma pres_for_each {A} (xs : list A) (body : A -> M unit) :
  (forall x, x ∈ xs -> pres R (body x)) -> pres R (for_each xs body).
Proof.
  induction xs as [|x xs IH]; intros H; simpl.
  - apply pres_ret.
  - apply pres_bind; [apply H; left | intros _; apply IH; intros; apply H; now right].
Qed.

Lemma pres_modify_this f :
  (forall st, R st (mkState (f (this st)) (gl st))) -> pres R (modify_this f).
Proof. intros H st o st' [= <- <-]. apply H. Qed.

Lemma pres_modify_gl f :
  (forall st, R st (mkState (this st) (f (gl st)))) -> pres R (modify_gl f).
Proof. intros H st o st' [= <- <-]. apply H. Qed.
End pres.

(** Decomposes a computation along its control structure; [tac] closes the
    state updates. *)
Ltac pres_step tac :=
  lazymatch goal with
  | |- pres _ (mbind _ _) => apply pres_bind; [ assumption || typeclasses eauto | | intros ? ]
  | |- pres _ (mret _) => apply pres_ret; assumption || typeclasses eauto
  | |- pres _ (throw _) => apply pres_throw; assumption || typeclasses eauto
  | |- pres _ get_this => apply pres_get_this; assumption || typeclasses eauto
  | |- pres _ get_gl => apply pres_get_gl; assumption || typeclasses eauto
  | |- pres _ (assert _) => apply pres_assert; assumption || typeclasses eauto
  | |- pres _ (when _ _) => apply pres_when; [ assumption || typeclasses eauto | ]
  | |- pres _ (for_each _ _) => apply pres_for_each; [ assumption || typeclasses eauto | intros ? _ ]
  | |- pres _ (modify_this _) => apply pres_modify_this; intros ?; tac
  | |- pres _ (modify_gl _) => apply pres_modify_gl; intros ?; tac
  | |- pres _ (if ?b then _ else _) => destruct b
  | |- pres _ (match ?x with _ => _ end) => destruct x
  end.

Ltac pres_go tac := repeat (cbv beta; pres_step tac).

#[global] Instance unchanged_preorder {A} (f : State -> A) : PreOrder (unchanged f).
Proof. split; [now intros ? | intros ? ? ? H1 H2; unfold unchanged in *; congruence]. Qed.

#[global] Instance keeps_preorder (I : State -> Prop) : PreOrder (keeps I).
Proof. split; [now intros ? | intros ? ? ? H1 H2; unfold keeps in *; tauto]. Qed.

(** Unfolds the method at the head of the computation. *)
Ltac head_of m := lazymatch m with ?f _ => head_of f | _ => m end.

Ltac unfold_head :=
  lazymatch goal with
  | |- pres _ ?m => let h := head_of m in unfold h at 1
  end.

Create HintDb pres.

Ltac pres_auto tac :=
  repeat (cbv beta; first [ solve [auto with pres nocore] | pres_step tac | unfold_head ]).

Lemma use_pres {A} (R : relation State) (m : M A) st o st' :
  pres R m -> m st = (o, st') -> R st st'.
Proof. intros H. apply H. Qed.

(** Splits [H : (m ≫= k) st = (Ok b, st')] into the run [Hs] of [m], which ends
    in the state [st1], and the run of the continuation. *)
Tactic Notation "split_bind" hyp(H) "as" ident(Hs) ident(st1) :=
  let a := fresh "a" in
  apply bind_Ok in H as (a & st1 & Hs & H); cbv beta in H;
  lazymatch type of a with unit => destruct a | _ => idtac end.

(** Runs the state updates of a computation. *)
Ltac msimpl :=
  repeat (progress (
    unfold mbind, M_bind, get_this, get_gl, modify_gl, modify_this, when, assert,
      throw, mret, M_ret in *;
    cbn [this gl fst snd] in * )).

Section Properties.

Context (updateForTextures :
           string -> table -> option string -> value -> option string * gmap string string)
        (getSizeUniforms :
           list Texture2D -> table -> option string -> value -> gmap string Uniform).

Local Abbreviation reachable := (reachable updateForTextures getSizeUniforms).
Local Abbreviation run := (run getSizeUniforms).
Local Abbreviation constructor := (constructor updateForTextures).
Local Abbreviation new_Transform := (new_Transform updateForTextures).

(** ** The generation index *)

Ltac index_tac :=
  unfold keeps, binary_index, idx; cbn -[Nat.modulo]; intros;
  first [ assumption | lia | apply Nat.mod_upper_bound; lia ].

Lemma constructor_binary_index props : pres (keeps binary_index) (constructor props).
Proof. pres_auto index_tac. Qed.

Lemma exec_binary_index op : pres (keeps binary_index) (exec getSizeUniforms op).
Proof. destruct op; cbn [exec]; unfold swap; pres_auto index_tac. Qed.

Lemma reachable_binary_index g0 st : reachable g0 st -> binary_index st.
Proof.
  induction 1 as [props st H | st op o st' _ IH H].
  - eapply constructor_binary_index; [exact H |]. unfold binary_index, idx. cbn. lia.
  - eapply exec_binary_index; eauto.
Qed.

Lemma flip_twice c : c < 2 -> ((c + 1) mod 2 + 1) mod 2 = c.
Proof. intros H. destruct c as [|[|c]]; [reflexivity | reflexivity | lia]. Qed.

Lemma flip_differs c : c < 2 -> (c + 1) mod 2 <> c.
Proof. intros H. destruct c as [|[|c]]; [discriminate | discriminate | lia]. Qed.

(** C7: on an instance with a feedback map or a swap-texture name, [swap]
    returns, replaces the generation index by its successor modulo 2 and
    changes nothing else; the index then differs from the original, and a
    second [swap] restores the original state. *)
Theorem swap_flips_generation g0 st :
  reachable g0 st ->
  is_Some (feedbackMap (this st)) \/ truthy_str (_swapTexture (this st)) = true ->
  exists st1,
    swap st = (Ok tt, st1)
    /\ st1 = mkState (set_currentIndex ((currentIndex (this st) + 1) mod 2) (this st)) (gl st)
    /\ currentIndex (this st1) <> currentIndex (this st)
    /\ swap st1 = (Ok tt, st)
    /\ currentIndex (this st1) < 2.
Proof.
  intros Hr Hc. apply reachable_binary_index in Hr. unfold binary_index, idx in Hr.
  assert (Ha : bool_decide (is_Some (feedbackMap (this st)))
               || truthy_str (_swapTexture (this st)) = true).
  { destruct Hc as [Hc | Hc]; [rewrite (bool_decide_eq_true_2 _ Hc) | rewrite Hc, orb_true_r];
      reflexivity. }
  eexists. split; [| split; [reflexivity | split; [| split]]].
  - unfold swap, mbind, M_bind, get_this, assert, modify_this. rewrite Ha. reflexivity.
  - cbn -[Nat.modulo]. now apply flip_differs.
  - unfold swap, mbind, M_bind, get_this, assert, modify_this. cbn -[Nat.modulo].
    rewrite Ha. cbn -[Nat.modulo]. rewrite flip_twice by assumption.
    destruct st as [t g]; destruct t; reflexivity.
  - cbn -[Nat.modulo]. apply Nat.mod_upper_bound. lia.
Qed.

(** C8: on an instance with neither a feedback map nor a swap-texture name,
    [swap] fails its assertion and leaves the state, the generation index
    included, as it was. *)
Theorem swap_unconfigured_is_fatal st :
  feedbackMap (this st) = None ->
  truthy_str (_swapTexture (this st)) = false ->
  swap st = (Throw AssertionError, st)
  /\ forall o st', swap st = (o, st') -> currentIndex (this st') = currentIndex (this st).
Proof.
  intros Hf Hs.
  assert (E : swap st = (Throw AssertionError, st)).
  { unfold swap, mbind, M_bind, get_this, assert, modify_this. rewrite Hf, Hs.
    rewrite bool_decide_eq_false_2 by (intros [? ?]; discriminate). reflexivity. }
  split; [exact E |]. intros o st'. rewrite E. now intros [= <- <-].
Qed.

End Properties.

(** * Reading results *)

Section Reading.

Context (typeToChannelCount : option string -> option nat)
        (readPixels : GLContext -> loc -> list (Z * Z * Z * Z))
        (Buffer_getData : GLContext -> loc -> TypedArray)
        (number_of_undefined : Z).

Local Abbreviation getData' :=
  (getData typeToChannelCount readPixels Buffer_getData number_of_undefined).

Local Open Scope list_scope.

(** ** Packing the pixels *)

Lemma pack_channels_spec pixels cc i (pre : list Z) m :
  cc <= m ->
  pack_channels number_of_undefined pixels cc i (pre ++ replicate m 0%Z, length pre)
  = (pre ++ ((fun j => default number_of_undefined (pixels !! (i + j))) <$> seq 0 cc) ++ replicate (m - cc) 0%Z,
     length pre + cc).
Proof.
  unfold pack_channels.
  assert (G : forall n a pre m, n <= m ->
    foldl (fun '(packedPixels, packCount) j =>
             (<[packCount := default number_of_undefined (pixels !! (i + j))]> packedPixels, S packCount))
          (pre ++ replicate m 0%Z, length pre) (seq a n)
    = (pre ++ ((fun j => default number_of_undefined (pixels !! (i + j))) <$> seq a n) ++ replicate (m - n) 0%Z,
       length pre + n)).
  { induction n as [|n IH]; intros a pre' m' Hle; simpl.
    - now rewrite Nat.sub_0_r, Nat.add_0_r.
    - destruct m' as [|m']; [lia |]. simpl.
      replace (<[length pre' := default number_of_undefined (pixels !! (i + a))]> (pre' ++ 0%Z :: replicate m' 0%Z))
        with ((pre' ++ [default number_of_undefined (pixels !! (i + a))]) ++ replicate m' 0%Z).
      2:{ rewrite insert_app_r_alt by lia. rewrite Nat.sub_diag. simpl.
          now rewrite <- app_assoc. }
      replace (S (length pre')) with (length (pre' ++ [default number_of_undefined (pixels !! (i + a))]))
        by (rewrite length_app; simpl; lia).
      rewrite IH by lia. rewrite length_app. simpl.
      rewrite <- app_assoc. simpl. f_equal. lia. }
  intros. now apply G.
Qed.

Lemma lookup_flat (px : list (Z * Z * Z * Z)) k j p :
  px !! k = Some p -> j < 4 ->
  concat (channels <$> px) !! (4 * k + j) = channels p !! j.
Proof.
  revert k. induction px as [|q px IH]; intros k Hk Hj; [discriminate |].
  rewrite fmap_cons. cbn [concat].
  destruct k as [|k].
  - injection Hk as ->. destruct p as [[[r g] b] a].
    destruct j as [|[|[|[|j]]]]; try reflexivity; lia.
  - rewrite lookup_app_r by (destruct q as [[[r g] b] a]; simpl; lia).
    replace (4 * S k + j - length (channels q)) with (4 * k + j)
      by (destruct q as [[[r g] b] a]; simpl; lia).
    now apply IH.
Qed.

Lemma length_flat (px : list (Z * Z * Z * Z)) : length (concat (channels <$> px)) = 4 * length px.
Proof.
  induction px as [|[[[r g] b] a] px IH]; [reflexivity |].
  rewrite fmap_cons. cbn [concat]. rewrite length_app, IH. simpl. lia.
Qed.

Lemma take_channels p cc :
  cc <= 4 -> (fun j => default number_of_undefined (channels p !! j)) <$> seq 0 cc = take cc (channels p).
Proof.
  intros H. destruct p as [[[r g] b] a].
  destruct cc as [|[|[|[|[|cc]]]]]; simpl; try reflexivity; lia.
Qed.

Lemma pack_pixels_spec (px : list (Z * Z * Z * Z)) cc :
  cc <= 4 ->
  pack_pixels number_of_undefined (concat (channels <$> px)) cc = concat ((fun p => take cc (channels p)) <$> px).
Proof.
  intros Hcc. unfold pack_pixels. rewrite length_flat.
  replace ((4 * length px + 3) / 4) with (length px).
  2:{ apply Nat.div_unique with 3; lia. }
  replace (4 * length px * cc / 4) with (length px * cc).
  2:{ apply Nat.div_unique with 0; lia. }
  set (pixels := concat (channels <$> px)).
  assert (G : forall n done todo, px = done ++ todo -> n = length todo ->
    foldl (fun acc k => pack_channels number_of_undefined pixels cc (4 * k) acc)
      (concat ((fun p => take cc (channels p)) <$> done) ++ replicate (n * cc) 0%Z,
       length done * cc) (seq (length done) n)
    = (concat ((fun p => take cc (channels p)) <$> px), length px * cc)).
  { induction n as [|n IH]; intros done todo Hpx Hn.
    - destruct todo; [| discriminate]. rewrite app_nil_r in Hpx. subst done. simpl.
      now rewrite app_nil_r.
    - destruct todo as [|p todo]; [discriminate |]. simpl in Hn. injection Hn as Hn.
      cbn [seq foldl].
      set (pre := concat ((fun p => take cc (channels p)) <$> done)).
      assert (Hlen : length pre = length done * cc).
      { subst pre. clear -Hcc. induction done as [|q done IH]; [reflexivity |].
        rewrite fmap_cons. cbn [concat]. rewrite length_app, IH, length_take.
        destruct q as [[[r g] b] a]. simpl. lia. }
      rewrite <- Hlen.
      rewrite pack_channels_spec by (simpl; lia).
      assert (Hvals : (fun j => default number_of_undefined (pixels !! (4 * length done + j))) <$> seq 0 cc
                      = take cc (channels p)).
      { rewrite <- (take_channels p cc Hcc). apply list_fmap_ext.
        intros i j Hj. apply lookup_seq in Hj as [Hj1 Hj2]. simpl in Hj1. subst j.
        unfold pixels. rewrite (lookup_flat px (length done) i p); [reflexivity | | lia].
        rewrite Hpx. rewrite lookup_app_r by lia. now rewrite Nat.sub_diag. }
      rewrite Hvals.
      replace (S n * cc - cc) with (n * cc) by lia.
      replace (pre ++ take cc (channels p) ++ replicate (n * cc) 0%Z)
        with (concat ((fun p => take cc (channels p)) <$> (done ++ [p])) ++ replicate (n * cc) 0%Z).
      2:{ rewrite fmap_app, concat_app. cbn [fmap list_fmap concat].
          rewrite app_nil_r, <- app_assoc. reflexivity. }
      replace (length pre + cc) with (length (done ++ [p]) * cc)
        by (rewrite length_app; simpl; lia).
      replace (S (length done)) with (length (done ++ [p]))
        by (rewrite length_app; simpl; lia).
      apply IH with todo; [rewrite <- app_assoc; exact Hpx | exact Hn]. }
  exact (f_equal fst (G (length px) [] px eq_refl eq_refl)).
Qed.

(** ** [getBuffer] *)

Lemma getBuffer_unbound t name :
  at2 (currentIndex t) (feedbackBuffers t) !! name = None ->
  name ∉ Object_prototype_names ->
  getBuffer (Some name) t = VNull.
Proof.
  intros H Hn. unfold getBuffer.
  rewrite (get_prop_None _ _ H), (Object_prototype_other _ Hn).
  simpl. now destruct (bool_decide (name = "")).
Qed.

(** Under a name that is not bound but inherited from [Object.prototype],
    [getBuffer] finds the inherited member and returns its [buffer]:
    [undefined]. *)
Lemma getBuffer_inherited t name :
  at2 (currentIndex t) (feedbackBuffers t) !! name = None ->
  name ∈ Object_prototype_names ->
  getBuffer (Some name) t = VUndefined.
Proof.
  intros H Hn. unfold getBuffer.
  rewrite (get_prop_None _ _ H), (Object_prototype_member _ Hn).
  assert (name <> "") as Hne.
  { intros ->. apply (bool_decide_eq_true_2 _) in Hn. vm_compute in Hn. discriminate Hn. }
  cbn [truthy_str]. now rewrite (bool_decide_eq_false_2 _ Hne).
Qed.

Lemma getBuffer_unbound_falsy t name :
  at2 (currentIndex t) (feedbackBuffers t) !! name = None ->
  truthy (getBuffer (Some name) t) = false.
Proof.
  intros H. destruct (decide (name ∈ Object_prototype_names)) as [Hn | Hn].
  - now rewrite (getBuffer_inherited t name H Hn).
  - now rewrite (getBuffer_unbound t name H Hn).
Qed.

Lemma getBuffer_falsy_name t varyingName :
  truthy_str varyingName = false -> getBuffer varyingName t = VNull.
Proof. intros H. unfold getBuffer. destruct varyingName; [rewrite H |]; reflexivity. Qed.

Lemma getBuffer_bound t name v :
  name <> "" ->
  get_prop (at2 (currentIndex t) (feedbackBuffers t)) name = v ->
  getBuffer (Some name) t
  = if negb (truthy v) then VNull else if instanceof_Buffer v then v else prop_buffer v.
Proof.
  intros Hn <-. unfold getBuffer. cbn [truthy_str].
  now rewrite bool_decide_eq_false_2.
Qed.

(** C10, as amended: [getBuffer] is a total function of the instance that
    returns [null] for a name that is not bound in the current generation's
    feedback-buffer table and is not the name of a member of
    [Object.prototype], and for a null, omitted or empty name; for a non-empty
    name bound to a wrapper object carrying a buffer it returns that buffer,
    and for one bound to a buffer it returns the buffer. *)
Theorem getBuffer_returns_buffer_or_null t :
  getBuffer None t = VNull
  /\ getBuffer (Some "") t = VNull
  /\ (forall name,
        at2 (currentIndex t) (feedbackBuffers t) !! name = None ->
        name ∉ Object_prototype_names ->
        getBuffer (Some name) t = VNull)
  /\ (forall name l,
        name <> "" ->
        get_prop (at2 (currentIndex t) (feedbackBuffers t)) name = VObject (VBuffer l) ->
        getBuffer (Some name) t = VBuffer l)
  /\ (forall name l,
        name <> "" ->
        get_prop (at2 (currentIndex t) (feedbackBuffers t)) name = VBuffer l ->
        getBuffer (Some name) t = VBuffer l).
Proof.
  split; [reflexivity |]. split; [reflexivity |]. split; [apply getBuffer_unbound |].
  split; intros name l Hn Hb; now rewrite (getBuffer_bound t name _ Hn Hb).
Qed.

(** C10, as stated, fails for the empty name: bound to a wrapper object that
    carries a buffer, it still reads as [null].  It also fails for the names
    that every object inherits: [toString] is bound in no table, and
    [getBuffer] returns [undefined] for it, not [null]. *)
Lemma getBuffer_empty_name_counterexample :
  ~ (forall (t : Transform) (name : string) (l : loc),
       get_prop (at2 (currentIndex t) (feedbackBuffers t)) name = VObject (VBuffer l) ->
       getBuffer (Some name) t = VBuffer l)
  /\ ~ (forall (t : Transform) (name : string),
         at2 (currentIndex t) (feedbackBuffers t) !! name = None ->
         getBuffer (Some name) t = VNull).
Proof.
  split.
  - intros H. specialize (H (this unnamed_state) "" 1).
    assert (E : getBuffer (Some "") (this unnamed_state) = VBuffer 1)
      by (apply H; vm_compute; reflexivity).
    vm_compute in E. discriminate E.
  - intros H. specialize (H (this bare_state) "toString").
    assert (E : getBuffer (Some "toString") (this bare_state) = VNull)
      by (apply H; vm_compute; reflexivity).
    vm_compute in E. discriminate E.
Qed.

(** ** [getData] *)

Ltac run_getData :=
  unfold getData, mbind, M_bind, get_this, get_gl, assert, throw, mret, M_ret;
  cbn [this gl fst snd].

Lemma getData_of_buffer st varyingName packed l :
  getBuffer varyingName (this st) = VBuffer l ->
  getData' varyingName packed st = (Ok (Buffer_getData (gl st) l), st).
Proof. intros H. run_getData. now rewrite H. Qed.

Lemma reaches_no_buffer_getBuffer t varyingName :
  reaches_no_buffer t varyingName -> truthy (getBuffer varyingName t) = false.
Proof.
  destruct varyingName as [name|]; [| reflexivity].
  intros [-> | H]; [reflexivity | now apply getBuffer_unbound_falsy].
Qed.

(** C6, as amended: for a non-empty name bound to a feedback buffer of the
    current generation (directly or in a wrapper object) [getData] returns that
    buffer's contents.  For a name that reaches no buffer (omitted, empty or
    unbound): a non-empty name other than the texture output fails the
    assertion; otherwise, with a render target in the current generation, the
    result is its pixels, and with [packed] it is the array of length
    [pixels.length * channelCount / 4] made of the first [channelCount]
    channels of each pixel.  The state is left as it was. *)
Theorem getData_reads_buffer_or_pixels st varyingName packed :
  let t := this st in
  let tbl := at2 (currentIndex t) (feedbackBuffers t) in
  (forall name l,
     varyingName = Some name -> name <> "" ->
     get_prop tbl name = VBuffer l \/ get_prop tbl name = VObject (VBuffer l) ->
     getData' varyingName packed st = (Ok (Buffer_getData (gl st) l), st))
  /\ (reaches_no_buffer t varyingName ->
      (truthy_str varyingName = true -> varyingName <> targetTextureVarying t ->
       getData' varyingName packed st = (Throw AssertionError, st))
      /\ (truthy_str varyingName = false \/ varyingName = targetTextureVarying t ->
          forall fb, getFramebuffer t = Some fb ->
            let pixels := readPixelsToArray readPixels (gl st) fb in
            (packed = false -> getData' varyingName packed st = (Ok pixels, st))
            /\ (packed = true ->
                forall channelCount,
                  typeToChannelCount (targetTextureType t) = Some channelCount ->
                  channelCount <= 4 ->
                  exists packedPixels,
                    getData' varyingName packed st = (Ok packedPixels, st)
                    /\ length packedPixels = length pixels * channelCount / 4
                    /\ packedPixels
                       = concat ((fun p => take channelCount (channels p))
                                   <$> readPixels (gl st) fb)))).
Proof.
  intros t tbl. split.
  - intros name l -> Hn Hb. apply getData_of_buffer.
    rewrite (getBuffer_bound _ name _ Hn eq_refl). fold t tbl.
    destruct Hb as [-> | ->]; reflexivity.
  - intros Hnone. pose proof (reaches_no_buffer_getBuffer _ _ Hnone) as Hb. fold t in Hb.
    split.
    + intros Ht Hne. run_getData. fold t. rewrite Hb.
      rewrite Ht, (bool_decide_eq_false_2 _ Hne). reflexivity.
    + intros Hok fb Hfb pixels.
      assert (Ha : negb (truthy_str varyingName)
                   || bool_decide (varyingName = targetTextureVarying t) = true).
      { destruct Hok as [-> | Hok]; [reflexivity |].
        rewrite (bool_decide_eq_true_2 _ Hok). apply orb_true_r. }
      unfold getFramebuffer in Hfb. split.
      * intros ->. run_getData. fold t. rewrite Hb.
        rewrite Ha, Hfb. reflexivity.
      * intros -> cc Hcc Hle. eexists. split; [| split].
        -- run_getData. fold t. rewrite Hb. rewrite Ha, Hfb, Hcc. reflexivity.
        -- unfold pixels, readPixelsToArray.
           rewrite (pack_pixels_spec _ cc Hle), length_flat.
           replace (4 * length (readPixels (gl st) fb) * cc / 4)
             with (length (readPixels (gl st) fb) * cc)
             by (apply Nat.div_unique with 0; lia).
           generalize (readPixels (gl st) fb). intros px.
           induction px as [|[[[r g] b] a] px IH]; [reflexivity |].
           rewrite fmap_cons. cbn [concat]. rewrite length_app, IH, length_take.
           simpl. lia.
        -- unfold readPixelsToArray. apply (pack_pixels_spec _ cc Hle).
Qed.

End Reading.

(** * Running *)

Section Running.

Context (updateForTextures :
           string -> table -> option string -> value -> option string * gmap string string)
        (getSizeUniforms :
           list Texture2D -> table -> option string -> value -> gmap string Uniform).

Local Abbreviation reachable' := (reachable updateForTextures getSizeUniforms).
Local Abbreviation run' := (run getSizeUniforms).
Local Abbreviation _getInputs' := (_getInputs getSizeUniforms).

(** ** Framebuffers exist only when rendering to a texture *)

Lemma _setupFramebuffers_rendering :
  pres (unchanged (fun st => renderingToTexture (this st))) _setupFramebuffers.
Proof. pres_auto ltac:(reflexivity). Qed.

Lemma _setupFramebuffers_no_render_target : pres (keeps no_render_target) _setupFramebuffers.
Proof.
  intros st o st' H Hinv Hr.
  pose proof (_setupFramebuffers_rendering st o st' H) as E. unfold unchanged in E.
  rewrite Hr in E.
  unfold _setupFramebuffers, mbind, M_bind, get_this in H. cbn [this gl] in H.
  rewrite <- E in H. cbn in H. injection H as <- <-. now apply Hinv.
Qed.

#[local] Hint Resolve _setupFramebuffers_no_render_target : pres.

Ltac target_tac :=
  unfold keeps, no_render_target; cbn; intros;
  first [ reflexivity | discriminate | now auto ].

Lemma constructor_no_render_target props :
  pres (keeps no_render_target) (constructor updateForTextures props).
Proof. pres_auto target_tac. Qed.

Lemma exec_no_render_target op : pres (keeps no_render_target) (exec getSizeUniforms op).
Proof. destruct op; cbn [exec]; unfold swap; pres_auto target_tac. Qed.

Lemma reachable_no_render_target g0 st : reachable' g0 st -> no_render_target st.
Proof.
  induction 1 as [props st H | st op o st' _ IH H].
  - eapply constructor_no_render_target; [exact H |]. intros _. reflexivity.
  - eapply exec_no_render_target; eauto.
Qed.

(** ** [run] *)

Lemma _getInputs_frame : pres (unchanged inputs_frame) _getInputs'.
Proof. pres_auto ltac:(reflexivity). Qed.

Ltac run_step :=
  repeat (progress (
    unfold mbind, M_bind, get_this, get_gl, modify_gl, modify_this, model_call, call, when,
      throw, mret, M_ret in *;
    cbn [this gl fst snd gl_calls gl_framebuffers set_gl_calls] in * )).

(** How [run] routes its output. *)
Lemma run_routes g0 st opts o st' :
  reachable' g0 st ->
  run' opts st = (o, st') ->
  let t := this st in
  let clear := default true (RunOpts.clearRenderTarget opts) in
  let transformFeedback := at2 (currentIndex t) (transformFeedbacks t) in
  this st' = t
  /\ (renderingToTexture t = true ->
      match getFramebuffer t with
      | None =>
          o <> Ok tt
          /\ gl_calls (gl st') = gl_calls (gl st)
          /\ ((exists inputs st1, _getInputs' st = (Ok inputs, st1)) -> o = Throw AssertionError)
      | Some fb =>
          o = Ok tt ->
          exists f attributes uniforms parameters,
            gl_framebuffers (gl st) !! fb = Some f
            /\ parameters !! "viewport" = Some [0; 0; fb_width f; fb_height f]
            /\ gl_calls (gl st')
               = (gl_calls (gl st)
                  ++ (if clear then [Framebuffer_clear fb] else [])
                  ++ [Model_setAttributes attributes;
                      Model_transform
                        (mkTransformOpts transformFeedback uniforms false (Some fb) parameters)])%list
      end)
  /\ (renderingToTexture t = false ->
      getFramebuffer t = None
      /\ gl_framebuffers (gl st') = gl_framebuffers (gl st)
      /\ (forall fb, Framebuffer_clear fb ∉ drop (length (gl_calls (gl st))) (gl_calls (gl st')))
      /\ (o = Ok tt ->
          exists attributes uniforms,
            gl_calls (gl st')
            = (gl_calls (gl st)
               ++ [Model_setAttributes attributes;
                   Model_transform
                     (mkTransformOpts transformFeedback uniforms true None
                        (Object_assign ∅ (RunOpts.parameters opts)))])%list))
  /\ ((exists inputs st1, _getInputs' st = (Ok inputs, st1)) ->
      is_Some (model t) ->
      (renderingToTexture t = true ->
       exists fb f, getFramebuffer t = Some fb /\ gl_framebuffers (gl st) !! fb = Some f) ->
      o = Ok tt).
Proof.
  intros Hreach Hrun t clear transformFeedback. subst t transformFeedback.
  pose proof (reachable_no_render_target _ _ Hreach) as Hinv.
  unfold run in Hrun. unfold mbind at 1, M_bind at 1 in Hrun.
  destruct (_getInputs' st) as [[[attributes uniforms]|e] st1] eqn:Ein;
    pose proof (_getInputs_frame _ _ _ Ein) as F; unfold unchanged, inputs_frame in F;
    injection F as Ft Fc Ff.
  2:{ injection Hrun as <- <-.
      split; [exact Ft |]. split; [| split].
      - intros Hr. destruct (getFramebuffer (this st)); [discriminate |].
        split; [discriminate |]. split; [exact Fc |]. intros (? & ? & [=]).
      - intros Hr. split; [unfold getFramebuffer; now rewrite (Hinv Hr), at2_same |].
        split; [exact Ff |]. split.
        + rewrite Fc, drop_all. intros fb Hin. now apply elem_of_nil in Hin.
        + discriminate.
      - intros (? & ? & [=]). }
  destruct st1 as [t1 g1]. cbn [this gl] in Ft, Fc, Ff. subst t1.
  unfold getFramebuffer. run_step.
  destruct (renderingToTexture (this st)) eqn:Hr.
  - destruct (at2 (currentIndex (this st)) (framebuffers (this st))) as [fb|] eqn:Hfb;
      run_step.
    + rewrite Ff in Hrun.
      destruct (gl_framebuffers (gl st) !! fb) as [f|] eqn:Hf; run_step.
      * fold clear in Hrun.
        destruct clear; run_step;
          destruct (model (this st)) as [m|] eqn:Hm; run_step; repeat (rewrite Hm in Hrun; run_step).
        all: injection Hrun as <- <-; cbn [this gl gl_calls set_gl_calls].
        all: (split; [reflexivity |]); (split; [| split]).
        all: try solve [ intros; discriminate | intros; reflexivity
                       | intros _ [? [=]] | intros _ _; discriminate ].
        all: intros _ _; exists f; do 3 eexists; (split; [reflexivity |]);
          (split; [apply lookup_insert_eq |]); rewrite Fc, <- !app_assoc; reflexivity.
      * injection Hrun as <- <-. split; [reflexivity |]. split; [| split]; try discriminate.
        intros _ _ H. destruct (H eq_refl) as (fb' & f' & [= <-] & Hf'). congruence.
    + injection Hrun as <- <-. split; [reflexivity |]. split; [| split]; try discriminate.
      * intros _. split; [discriminate |]. split; [exact Fc |]. reflexivity.
      * intros _ _ H. destruct (H eq_refl) as (fb' & f' & [=] & _).
  - assert (Hnone : at2 (currentIndex (this st)) (framebuffers (this st)) = None)
      by (rewrite (Hinv Hr); apply at2_same).
    destruct (model (this st)) as [m|] eqn:Hm; run_step; repeat (rewrite Hm in Hrun; run_step);
      injection Hrun as <- <-;
      cbn [this gl gl_calls gl_framebuffers set_gl_calls];
      (split; [reflexivity |]); (split; [discriminate |]); split.
    + intros _. split; [exact Hnone |]. split; [exact Ff |]. split.
      * intros fb. rewrite Fc, <- app_assoc, drop_app_length. intros Hin.
        apply elem_of_cons in Hin as [[=] | Hin].
        apply elem_of_cons in Hin as [[=] | Hin]. now apply elem_of_nil in Hin.
      * intros _. do 2 eexists. rewrite Fc, <- app_assoc. reflexivity.
    + reflexivity.
    + intros _. split; [exact Hnone |]. split; [exact Ff |]. split.
      * intros fb. rewrite Fc, drop_all. intros Hin. now apply elem_of_nil in Hin.
      * discriminate.
    + intros _ [? [=]].
Qed.

(** C5: every call of [run] on an instance leaves the instance itself as it is
    and routes the output as configured.  Rendering to a texture: without a
    framebuffer in the current generation the call fails (on its assertion, once
    the inputs are assembled) before any device call; with one, a call that
    returns has cleared it first unless [clearRenderTarget] is false, and has
    then drawn once with [discard] false, this framebuffer, and the viewport
    [0, 0, width, height] of the framebuffer.  Not rendering to a texture:
    [getFramebuffer] is empty, no framebuffer is created, changed or cleared,
    and a call that returns has drawn once with [discard] true and no
    framebuffer.  The call returns whenever the inputs are assembled, the model
    exists and, when rendering to a texture, the framebuffer exists. *)
Theorem run_routes_output g0 st opts o st' :
  reachable' g0 st ->
  run' opts st = (o, st') ->
  let t := this st in
  let clear := default true (RunOpts.clearRenderTarget opts) in
  let transformFeedback := at2 (currentIndex t) (transformFeedbacks t) in
  this st' = t
  /\ (renderingToTexture t = true ->
      match getFramebuffer t with
      | None =>
          o <> Ok tt
          /\ gl_calls (gl st') = gl_calls (gl st)
          /\ ((exists inputs st1, _getInputs' st = (Ok inputs, st1)) -> o = Throw AssertionError)
      | Some fb =>
          o = Ok tt ->
          exists f attributes uniforms parameters,
            gl_framebuffers (gl st) !! fb = Some f
            /\ parameters !! "viewport" = Some [0; 0; fb_width f; fb_height f]
            /\ gl_calls (gl st')
               = (gl_calls (gl st)
                  ++ (if clear then [Framebuffer_clear fb] else [])
                  ++ [Model_setAttributes attributes;
                      Model_transform
                        (mkTransformOpts transformFeedback uniforms false (Some fb) parameters)])%list
      end)
  /\ (renderingToTexture t = false ->
      getFramebuffer t = None
      /\ gl_framebuffers (gl st') = gl_framebuffers (gl st)
      /\ (forall fb, Framebuffer_clear fb ∉ drop (length (gl_calls (gl st))) (gl_calls (gl st')))
      /\ (o = Ok tt ->
          exists attributes uniforms,
            gl_calls (gl st')
            = (gl_calls (gl st)
               ++ [Model_setAttributes attributes;
                   Model_transform
                     (mkTransformOpts transformFeedback uniforms true None
                        (Object_assign ∅ (RunOpts.parameters opts)))])%list))
  /\ ((exists inputs st1, _getInputs' st = (Ok inputs, st1)) ->
      is_Some (model t) ->
      (renderingToTexture t = true ->
       exists fb f, getFramebuffer t = Some fb /\ gl_framebuffers (gl st) !! fb = Some f) ->
      o = Ok tt).
Proof. exact (run_routes g0 st opts o st'). Qed.

End Running.

(** * Buffers across the two generations *)

Lemma wire_sources_other ttv fb entries tbl (s : string) :
  s ∉ entries.*1 -> get_prop (wire_sources ttv fb entries tbl) s = get_prop tbl s.
Proof.
  revert tbl. induction entries as [|[s0 d0] entries IH]; intros tbl Hs; [reflexivity |].
  rewrite fmap_cons in Hs. apply not_elem_of_cons in Hs as [Hne Hs]. simpl in Hne.
  unfold wire_sources in *. cbn [foldl]. rewrite IH by assumption.
  case_bool_decide; [| reflexivity]. now rewrite get_prop_insert_ne.
Qed.

Lemma wire_sources_lookup ttv fb entries tbl s d :
  NoDup entries.*1 -> (s, d) ∈ entries -> Some d <> ttv ->
  get_prop (wire_sources ttv fb entries tbl) s = get_prop fb d.
Proof.
  revert tbl. induction entries as [|[s0 d0] entries IH]; intros tbl Hnd Hin Hd.
  - now apply elem_of_nil in Hin.
  - rewrite fmap_cons in Hnd. apply NoDup_cons in Hnd as [Hs0 Hnd].
    apply elem_of_cons in Hin as [[= <- <-] | Hin].
    + change (wire_sources ttv fb ((s, d) :: entries) tbl)
        with (wire_sources ttv fb entries
                (if bool_decide (Some d <> ttv) then <[s := get_prop fb d]> tbl else tbl)).
      rewrite wire_sources_other by assumption.
      rewrite bool_decide_eq_true_2 by assumption. apply get_prop_insert_eq.
    + unfold wire_sources in *. cbn [foldl]. now apply IH.
Qed.

Lemma wire_feedbacks_lookup ttv sb entries tbl s d :
  (forall s', (s', d) ∈ entries -> s' = s) ->
  (s, d) ∈ entries \/ get_prop tbl d = get_prop sb s ->
  Some d <> ttv ->
  get_prop (wire_feedbacks ttv sb entries tbl) d = get_prop sb s.
Proof.
  revert tbl. induction entries as [|[s0 d0] entries IH]; intros tbl Huniq Hin Hd.
  - destruct Hin as [Hin | Hin]; [now apply elem_of_nil in Hin | exact Hin].
  - unfold wire_feedbacks in *. cbn [foldl]. apply IH.
    + intros s' Hs'. apply Huniq. now right.
    + destruct (decide (d0 = d)) as [-> | Hne].
      * right. rewrite bool_decide_eq_true_2 by assumption.
        rewrite get_prop_insert_eq. f_equal. apply Huniq. now left.
      * destruct Hin as [Hin | Hin].
        -- apply elem_of_cons in Hin as [[= _ Hc] | Hin]; [congruence | now left].
        -- right. case_bool_decide; [| exact Hin]. now rewrite get_prop_insert_ne.
    + assumption.
Qed.

Lemma set2_at2 {A} (i : nat) (a : Array2 A) : set2 i (at2 i a) a = a.
Proof. destruct a, i; reflexivity. Qed.

Lemma at2_set2 {A} (i : nat) (x : A) (a : Array2 A) : at2 i (set2 i x a) = x.
Proof. destruct a, i; reflexivity. Qed.

Lemma set2_set2 {A} (i : nat) (x y : A) (a : Array2 A) : set2 i y (set2 i x a) = set2 i y a.
Proof. destruct a, i; reflexivity. Qed.

Lemma at2_set2_flip {A} (c : nat) (x : A) (a : Array2 A) :
  c < 2 -> at2 c (set2 ((c + 1) mod 2) x a) = at2 c a.
Proof. intros H. destruct a. destruct c as [|[|c]]; [reflexivity | reflexivity | lia]. Qed.

Lemma swap_loop (c n : nat) (entries : list (string * string)) :
  c < 2 -> n = (c + 1) mod 2 ->
  forall st st',
    for_each entries (fun '(srcName, dstName) =>
        t ← get_this;
        if bool_decide (Some dstName ≠ targetTextureVarying t) then
          modify_this (fun t => set_sourceBuffers
            (set2 n (<[srcName := get_prop (at2 c (feedbackBuffers t)) dstName]>
                          (at2 n (sourceBuffers t)))
                  (sourceBuffers t)) t);;
          modify_this (fun t => set_feedbackBuffers
            (set2 n (<[dstName := get_prop (at2 c (sourceBuffers t)) srcName]>
                          (at2 n (feedbackBuffers t)))
                  (feedbackBuffers t)) t);;
          t ← get_this;
          assert (instanceof_Buffer (get_prop (at2 n (feedbackBuffers t)) dstName))
        else mret tt) st = (Ok tt, st') ->
    let t := this st in
    let ttv := targetTextureVarying t in
    sourceBuffers (this st')
    = set2 n (wire_sources ttv (at2 c (feedbackBuffers t)) entries (at2 n (sourceBuffers t)))
           (sourceBuffers t)
    /\ feedbackBuffers (this st')
       = set2 n (wire_feedbacks ttv (at2 c (sourceBuffers t)) entries
                   (at2 n (feedbackBuffers t))) (feedbackBuffers t)
    /\ currentIndex (this st') = currentIndex t
    /\ feedbackMap (this st') = feedbackMap t
    /\ targetTextureVarying (this st') = ttv
    /\ (forall s d, (s, d) ∈ entries -> Some d <> ttv ->
          instanceof_Buffer (get_prop (at2 c (sourceBuffers t)) s) = true).
Proof.
  intros Hc ->. induction entries as [|[s0 d0] entries IH]; intros st st' H.
  - injection H as <-. cbn zeta. unfold wire_sources, wire_feedbacks. cbn [foldl].
    rewrite !set2_at2. repeat split. intros s d Hin. now apply elem_of_nil in Hin.
  - cbn [for_each] in H. apply bind_Ok in H as (u & st1 & Hstep & Hrest).
    apply IH in Hrest as (Hsb & Hfb & Hci & Hfm & Httv & Hassert). clear IH.
    cbn zeta in *. unfold wire_sources, wire_feedbacks in *. cbn [foldl].
    msimpl.
    destruct (bool_decide (Some d0 ≠ targetTextureVarying (this st))) eqn:Hcond.
    + destruct (instanceof_Buffer _) eqn:Hbuf in Hstep; [| discriminate].
      injection Hstep as _ <-.
      cbn [this sourceBuffers feedbackBuffers currentIndex feedbackMap targetTextureVarying
           set_sourceBuffers set_feedbackBuffers] in *.
      rewrite ?at2_set2, ?set2_set2, ?at2_set2_flip in * by assumption.
      repeat split; try assumption.
      intros s d Hin Hd. apply elem_of_cons in Hin as [[= -> ->] | Hin].
      * revert Hbuf. now rewrite get_prop_insert_eq.
      * exact (Hassert s d Hin Hd).
    + injection Hstep as _ <-. repeat split; try assumption.
      intros s d Hin Hd. apply elem_of_cons in Hin as [[= -> ->] | Hin].
      * apply bool_decide_eq_false_1 in Hcond. contradiction.
      * exact (Hassert s d Hin Hd).
Qed.

Lemma _setupSwapBuffers_wiring st st' entries s d :
  currentIndex (this st) < 2 ->
  _setupSwapBuffers st = (Ok tt, st') ->
  feedbackMap (this st') = Some entries ->
  NoDup entries.*1 ->
  (s, d) ∈ entries ->
  Some d <> targetTextureVarying (this st') ->
  source_wired (this st') s d
  /\ ((forall s', (s', d) ∈ entries -> s' = s) -> pair_wired (this st') s d).
Proof.
  intros Hc H Hmap Hnd Hin Hd.
  unfold _setupSwapBuffers in H. msimpl.
  destruct (feedbackMap (this st)) as [entries0|] eqn:Hmap0.
  2:{ injection H as <-. congruence. }
  msimpl. eapply swap_loop in H; [| exact Hc | reflexivity].
  cbn zeta in H.
  cbn [this sourceBuffers feedbackBuffers currentIndex feedbackMap targetTextureVarying
       set_sourceBuffers set_feedbackBuffers] in H.
  rewrite ?at2_set2, ?set2_set2, ?at2_set2_flip in H by assumption.
  destruct H as (Hsb & Hfb & Hci & Hfm & Httv & Hassert).
  rewrite Hfm, Hmap0 in Hmap. injection Hmap as ->. rewrite Httv in Hd.
  specialize (Hassert s d Hin Hd).
  unfold pair_wired, source_wired. cbn zeta. rewrite Hsb, Hfb, Hci.
  rewrite !at2_set2, !at2_set2_flip by assumption.
  rewrite (wire_sources_lookup _ _ _ _ s d) by auto.
  split; [split; [reflexivity | exact Hassert] |].
  intros Huniq. rewrite (wire_feedbacks_lookup _ _ _ _ s d); auto.
Qed.

Section Wiring.

Context (updateForTextures :
           string -> table -> option string -> value -> option string * gmap string string)
        (getSizeUniforms :
           list Texture2D -> table -> option string -> value -> gmap string Uniform).

Lemma _setupBuffers_wiring props st st' entries s d :
  currentIndex (this st) < 2 ->
  _setupBuffers props st = (Ok tt, st') ->
  feedbackMap (this st') = Some entries ->
  NoDup entries.*1 ->
  (s, d) ∈ entries ->
  Some d <> targetTextureVarying (this st') ->
  source_wired (this st') s d
  /\ ((forall s', (s', d) ∈ entries -> s' = s) -> pair_wired (this st') s d).
Proof.
  intros Hc H. unfold _setupBuffers in H.
  split_bind H as H0 s0. injection H0 as <- <-.
  apply bind_Ok in H as ([[sb fb] fm] & s1 & H1 & H). cbv beta iota in H.
  split_bind H as H2 s2. split_bind H as H3 s3. split_bind H as H4 s4. split_bind H as H5 s5.
  apply (use_pres (unchanged idx)) in H1; [| pres_auto ltac:(reflexivity)].
  apply (use_pres (unchanged idx)) in H2; [| pres_auto ltac:(reflexivity)].
  apply (use_pres (unchanged idx)) in H3; [| pres_auto ltac:(reflexivity)].
  apply (use_pres (unchanged idx)) in H4; [| pres_auto ltac:(reflexivity)].
  apply (use_pres (unchanged idx)) in H5; [| pres_auto ltac:(reflexivity)].
  unfold unchanged, idx in *.
  apply _setupSwapBuffers_wiring with (st := s5); [lia | exact H].
Qed.

Lemma configuration_tail_buffer_view props :
  pres (unchanged buffer_view) (_setupTransformFeedback;; _setupTextures props)
  /\ pres (unchanged buffer_view) (_setupTextures props;; _buildModel updateForTextures props).
Proof. split; pres_auto ltac:(reflexivity). Qed.

Lemma new_Transform_Ok g0 props st' :
  new_Transform updateForTextures g0 props = (Ok tt, st') ->
  exists st1 st2 st3 st4,
    gl st1 = g0
    /\ this st1
       = (if truthy_str (Props._targetTextureVarying props)
          then set_renderingToTexture true
                 (set_targetTextureVarying (Props._targetTextureVarying props)
                    (set_varyingsArray (varyingsArray (this st1)) initial))
          else set_varyingsArray (varyingsArray (this st1)) initial)
    /\ _setupBuffers props st1 = (Ok tt, st2)
    /\ _setupTextures props st2 = (Ok tt, st3)
    /\ _buildModel updateForTextures props st3 = (Ok tt, st4)
    /\ st' = mkState (set_sealed true (this st4)) (gl st4).
Proof.
  unfold new_Transform, constructor, _initialize. intros H.
  split_bind H as H0 s0. injection H0 as <- <-.
  split_bind H as H1 s1. unfold assert in H1. destruct (webgl2 g0); [| discriminate].
  injection H1 as <-.
  split_bind H as H2 s2. injection H2 as <-.
  split_bind H as H3 s3. injection H as <-.
  split_bind H3 as H4 s4. unfold assert in H4.
  destruct (truthy_str (Props.vs props)); [| discriminate]. injection H4 as <-.
  split_bind H3 as H5 s5. injection H5 as <-.
  split_bind H3 as H6 s6. split_bind H3 as H7 s7. split_bind H3 as H8 s8.
  exists s6, s7, s8, s3. split; [| split]; [| | now eauto].
  - unfold when in H6. destruct (truthy_str (Props._targetTextureVarying props)).
    + split_bind H6 as H9 s9. injection H9 as <-. now injection H6 as <-.
    + now injection H6 as <-.
  - unfold when in H6. destruct (truthy_str (Props._targetTextureVarying props)).
    + split_bind H6 as H9 s9. injection H9 as <-. now injection H6 as <-.
    + now injection H6 as <-.
Qed.

Lemma pair_wired_view st1 st2 s d :
  buffer_view st2 = buffer_view st1 ->
  (source_wired (this st1) s d -> source_wired (this st2) s d)
  /\ (pair_wired (this st1) s d -> pair_wired (this st2) s d).
Proof.
  unfold buffer_view, pair_wired, source_wired. intros [= H1 H2 H3 H4 H5].
  now rewrite H1, H2, H3.
Qed.

Lemma configured_wiring g0 st' entries s d :
  configured updateForTextures getSizeUniforms g0 st' ->
  feedbackMap (this st') = Some entries ->
  NoDup entries.*1 ->
  (s, d) ∈ entries ->
  Some d <> targetTextureVarying (this st') ->
  source_wired (this st') s d
  /\ ((forall s', (s', d) ∈ entries -> s' = s) -> pair_wired (this st') s d).
Proof.
  intros Hconf Hmap Hnd Hin Hd.
  destruct Hconf as [props st' H | st opts st' Hreach H].
  - apply new_Transform_Ok in H as (st1 & st2 & st3 & st4 & Hg & Ht & Hb & Htex & Hm & ->).
    assert (Hv : buffer_view st4 = buffer_view st2).
    { apply (use_pres _ _ st2 (Ok tt) st4 (proj2 (configuration_tail_buffer_view props))).
      now rewrite (bind_run _ _ _ _ _ Htex). }
    assert (Hv' : buffer_view {| this := set_sealed true (this st4); gl := gl st4 |}
                  = buffer_view st2) by (rewrite <- Hv; reflexivity).
    destruct (pair_wired_view st2 _ s d Hv') as [V1 V2].
    unfold buffer_view in Hv'. cbn in Hv', Hmap, Hd. injection Hv' as _ _ _ Hfm Httv.
    rewrite Hfm in Hmap. rewrite Httv in Hd.
    destruct (_setupBuffers_wiring props st1 st2 entries s d) as [W1 W2]; auto.
    rewrite Ht. destruct (truthy_str _); cbn; lia.
  - unfold update in H. split_bind H as H1 st0. split_bind H as H2 st1.
    pose proof (reachable_binary_index _ _ _ _ Hreach) as Hi.
    apply (use_pres (unchanged idx)) in H1; [| pres_auto ltac:(reflexivity)].
    assert (Hv : buffer_view st' = buffer_view st1).
    { exact (use_pres _ _ _ _ _ (proj1 (configuration_tail_buffer_view opts)) H). }
    destruct (pair_wired_view st1 st' s d Hv) as [V1 V2].
    unfold buffer_view in Hv. injection Hv as _ _ _ Hfm Httv.
    rewrite Hfm in Hmap. rewrite Httv in Hd.
    destruct (_setupBuffers_wiring opts st0 st1 entries s d) as [W1 W2]; auto.
    unfold unchanged, binary_index, idx in *. lia.
Qed.

Lemma configured_wired g0 st' entries s d :
  configured updateForTextures getSizeUniforms g0 st' ->
  feedbackMap (this st') = Some entries ->
  NoDup entries.*1 ->
  (s, d) ∈ entries ->
  Some d <> targetTextureVarying (this st') ->
  (forall s', (s', d) ∈ entries -> s' = s) ->
  pair_wired (this st') s d.
Proof.
  intros Hconf Hmap Hnd Hin Hd Huniq.
  now apply (configured_wiring g0 st' entries s d Hconf Hmap Hnd Hin Hd).
Qed.

(** C1, as amended: after a configuration call (construction or [update]) that
    returns, for every pair [srcName -> dstName] of the feedback map whose
    destination is not the texture output, the other generation's source-buffer
    table maps [srcName] to the current generation's feedback buffer
    [dstName], and the current generation's source buffer [srcName] is a
    Buffer; if [dstName] is the destination of no other source, the other
    generation's feedback-buffer table maps [dstName] to the current
    generation's source buffer [srcName].  So after one [swap] the new current
    generation reads as source [srcName] what the previous one wrote as
    feedback [dstName], and, for such a destination, writes as feedback
    [dstName] what the previous one read as source [srcName].  (The keys of
    the feedback map, an object, are distinct.) *)
Theorem feedback_pairs_alias_across_generations g0 st entries srcName dstName :
  configured updateForTextures getSizeUniforms g0 st ->
  feedbackMap (this st) = Some entries ->
  NoDup entries.*1 ->
  (srcName, dstName) ∈ entries ->
  Some dstName <> targetTextureVarying (this st) ->
  let t := this st in
  let current := currentIndex t in
  let next := (current + 1) mod 2 in
  get_prop (at2 next (sourceBuffers t)) srcName
  = get_prop (at2 current (feedbackBuffers t)) dstName
  /\ instanceof_Buffer (get_prop (at2 current (sourceBuffers t)) srcName) = true
  /\ ((forall other, (other, dstName) ∈ entries -> other = srcName) ->
      get_prop (at2 next (feedbackBuffers t)) dstName
      = get_prop (at2 current (sourceBuffers t)) srcName)
  /\ exists st',
       swap st = (Ok tt, st')
       /\ currentIndex (this st') = next
       /\ get_prop (at2 (currentIndex (this st')) (sourceBuffers (this st'))) srcName
          = get_prop (at2 current (feedbackBuffers t)) dstName
       /\ ((forall other, (other, dstName) ∈ entries -> other = srcName) ->
           get_prop (at2 (currentIndex (this st')) (feedbackBuffers (this st'))) dstName
           = get_prop (at2 current (sourceBuffers t)) srcName).
Proof.
  intros Hconf Hmap Hnd Hin Hd t current next. subst t current next.
  destruct (configured_wiring g0 st entries srcName dstName Hconf Hmap Hnd Hin Hd)
    as [[Hs Hb] Hpair].
  split; [exact Hs |]. split; [exact Hb |].
  split; [intros Huniq; exact (proj1 (proj2 (Hpair Huniq))) |].
  eexists. split; [| split; [| split]].
  - unfold swap. msimpl. rewrite Hmap. cbn. reflexivity.
  - reflexivity.
  - exact Hs.
  - intros Huniq. exact (proj1 (proj2 (Hpair Huniq))).
Qed.

End Wiring.

(** * Textures across the two generations *)

Lemma _setupSwapTextures_wired st o st' name :
  currentIndex (this st) < 2 ->
  _setupSwapTextures st = (o, st') ->
  _swapTexture (this st) = Some name ->
  name <> "" ->
  truthy_str (targetTextureVarying (this st)) = true ->
  o = Ok tt /\ texture_wired (this st') name
  /\ currentIndex (this st') = currentIndex (this st)
  /\ _swapTexture (this st') = _swapTexture (this st)
  /\ targetTextureVarying (this st') = targetTextureVarying (this st).
Proof.
  intros Hc H Hs Hn Ht. unfold _setupSwapTextures in H. msimpl.
  rewrite Hs, Ht in H. cbn [truthy_str] in H.
  rewrite (bool_decide_eq_false_2 _ Hn) in H. cbn [negb orb default] in H.
  injection H as <- <-. split; [reflexivity |].
  unfold texture_wired.
  cbn [this sourceTextures targetTextures currentIndex _swapTexture targetTextureVarying
       set_sourceTextures set_targetTextures].
  rewrite ?at2_set2, ?set2_set2, ?at2_set2_flip by assumption.
  rewrite get_prop_insert_eq. repeat split.
Qed.

Section Textures.
Context (updateForTextures :
           string -> table -> option string -> value -> option string * gmap string string)
        (getSizeUniforms :
           list Texture2D -> table -> option string -> value -> gmap string Uniform).

Lemma texture_wired_view st1 st2 name :
  texture_view st2 = texture_view st1 ->
  texture_wired (this st1) name -> texture_wired (this st2) name.
Proof.
  unfold texture_view, texture_wired. intros [= H1 H2 H3 H4 H5]. now rewrite H1, H2, H3.
Qed.

Lemma configuration_tail_texture_view props b :
  pres (unchanged texture_view) (when b _setupFramebuffers)
  /\ pres (unchanged texture_view) (_buildModel updateForTextures props).
Proof. split; pres_auto ltac:(reflexivity). Qed.

Lemma _setupTextures_wired props st st' name :
  currentIndex (this st) < 2 ->
  _setupTextures props st = (Ok tt, st') ->
  _swapTexture (this st') = Some name ->
  name <> "" ->
  truthy_str (targetTextureVarying (this st')) = true ->
  texture_wired (this st') name /\ currentIndex (this st') = currentIndex (this st).
Proof.
  intros Hc H Hs Hn Ht. unfold _setupTextures in H.
  split_bind H as H0 s0. injection H0 as <- <-.
  split_bind H as H1 s1. split_bind H as H2 s2. split_bind H as H3 s3.
  split_bind H as H4 s4. split_bind H as H5 s5. injection H5 as <- <-.
  split_bind H as H6 s6. split_bind H as H7 s7.
  apply (use_pres (unchanged idx)) in H1; [| pres_auto ltac:(reflexivity)].
  apply (use_pres (unchanged idx)) in H2; [| pres_auto ltac:(reflexivity)].
  apply (use_pres (unchanged idx)) in H3; [| pres_auto ltac:(reflexivity)].
  apply (use_pres (unchanged idx)) in H4; [| pres_auto ltac:(reflexivity)].
  apply (use_pres (unchanged idx)) in H6; [| pres_auto ltac:(reflexivity)].
  unfold unchanged, idx in *.
  pose proof (use_pres _ _ _ _ _ (proj1 (configuration_tail_texture_view props _)) H) as Hv.
  unfold unchanged in Hv.
  assert (Hv' := Hv). unfold texture_view in Hv'. injection Hv' as _ _ Hci Hsw Httv.
  rewrite Hsw in Hs. rewrite Httv in Ht.
  assert (Hc6 : currentIndex (this s6) < 2) by lia.
  assert (Hf : pres (unchanged (fun st => (_swapTexture (this st),
                                            targetTextureVarying (this st))))
                    _setupSwapTextures) by pres_auto ltac:(reflexivity).
  apply Hf in H7 as Hf7. unfold unchanged in Hf7. injection Hf7 as Hsw7 Httv7.
  rewrite Hsw7 in Hs. rewrite Httv7 in Ht.
  destruct (_setupSwapTextures_wired s6 (Ok tt) s7 name Hc6 H7 Hs Hn Ht) as (_ & Hw & Hci7 & _).
  split; [| lia]. now apply texture_wired_view with (st1 := s7).
Qed.

Lemma run_this opts : pres (unchanged this) (run getSizeUniforms opts).
Proof. pres_auto ltac:(reflexivity). Qed.

Lemma configured_texture_wired g0 st name :
  configured updateForTextures getSizeUniforms g0 st ->
  _swapTexture (this st) = Some name ->
  name <> "" ->
  truthy_str (targetTextureVarying (this st)) = true ->
  texture_wired (this st) name.
Proof.
  intros Hconf Hs Hn Ht.
  destruct Hconf as [props st H | st0 opts st Hreach H].
  - apply new_Transform_Ok in H as (st1 & st2 & st3 & st4 & Hg & Hthis & Hb & Htex & Hm & ->).
    pose proof (use_pres _ _ _ _ _ (proj2 (configuration_tail_texture_view props true)) Hm)
      as Hv. unfold unchanged in Hv.
    assert (Hv' : texture_view {| this := set_sealed true (this st4); gl := gl st4 |}
                  = texture_view st3) by (rewrite <- Hv; reflexivity).
    apply texture_wired_view with (st1 := st3); [exact Hv' |].
    unfold texture_view in Hv'. cbn in Hv', Hs, Ht. injection Hv' as _ _ _ Hsw Httv.
    rewrite Hsw in Hs. rewrite Httv in Ht.
    apply (_setupTextures_wired props st2 st3 name); auto.
    apply (use_pres (unchanged idx)) in Hb; [| pres_auto ltac:(reflexivity)].
    unfold unchanged, idx in Hb. rewrite Hb, Hthis. destruct (truthy_str _); cbn; lia.
  - unfold update in H. split_bind H as H1 s1. split_bind H as H2 s2. split_bind H as H3 s3.
    pose proof (reachable_binary_index _ _ _ _ Hreach) as Hi.
    apply (use_pres (unchanged idx)) in H1; [| pres_auto ltac:(reflexivity)].
    apply (use_pres (unchanged idx)) in H2; [| pres_auto ltac:(reflexivity)].
    apply (use_pres (unchanged idx)) in H3; [| pres_auto ltac:(reflexivity)].
    unfold unchanged, binary_index, idx in *.
    apply (_setupTextures_wired opts s3 st name); auto. lia.
Qed.

(** After a configuration call (construction or [update]) that returns on
    an instance with a swap-texture name and a texture output, the other
    generation's source-texture table maps the name to the current generation's
    target texture, and the other generation's target texture is the current
    generation's source texture under that name; [run] leaves these tables as
    they are, so after a [run] and a [swap] the new current generation has the
    previous target as its source under the name and the previous source under
    the name as its target. *)
Lemma swap_texture_exchanges_source_and_target g0 st name :
  configured updateForTextures getSizeUniforms g0 st ->
  _swapTexture (this st) = Some name ->
  name <> "" ->
  truthy_str (targetTextureVarying (this st)) = true ->
  let t := this st in
  let current := currentIndex t in
  let next := (current + 1) mod 2 in
  get_prop (at2 next (sourceTextures t)) name = at2 current (targetTextures t)
  /\ at2 next (targetTextures t) = get_prop (at2 current (sourceTextures t)) name
  /\ forall opts o st1,
       run getSizeUniforms opts st = (o, st1) ->
       exists st2,
         swap st1 = (Ok tt, st2)
         /\ currentIndex (this st2) = next
         /\ get_prop (at2 (currentIndex (this st2)) (sourceTextures (this st2))) name
            = at2 current (targetTextures t)
         /\ at2 (currentIndex (this st2)) (targetTextures (this st2))
            = get_prop (at2 current (sourceTextures t)) name.
Proof.
  intros Hconf Hs Hn Ht t current next. subst t current next.
  destruct (configured_texture_wired g0 st name Hconf Hs Hn Ht) as (Hw1 & Hw2).
  split; [exact Hw1 |]. split; [exact Hw2 |].
  intros opts o st1 Hrun. apply run_this in Hrun. unfold unchanged in Hrun.
  eexists. split; [| split; [| split]].
  - unfold swap. msimpl. rewrite Hrun, Hs. cbn [truthy_str].
    rewrite (bool_decide_eq_false_2 _ Hn), orb_true_r. reflexivity.
  - cbn -[Nat.modulo]. now rewrite Hrun.
  - cbn -[Nat.modulo]. rewrite Hrun. exact Hw1.
  - cbn -[Nat.modulo]. rewrite Hrun. exact Hw2.
Qed.

End Textures.

(** C3: the code leaves a render target behind.  On an instance built with a
    source texture (texture 0), a target texture (texture 1) and the swap
    texture [tex], [update({_sourceTextures: {tex: texture2}})] returns and
    makes texture 2 the source texture of the current generation and, in the
    table, the target texture of the other one; but it sets up no framebuffer,
    and the framebuffer of the other generation stays attached to texture 0.
    So after [run()] and [swap()] the texture that the next run renders into is
    texture 0 and not the prior source texture, texture 2.  After the same
    [update] once more, in generation 1, the instance is configured, [run()]
    renders into framebuffer 1, that is into texture 0, and [swap()] makes
    texture 2, into which nothing was rendered, the source texture. *)
Theorem stale_render_target_after_source_update :
  update resourced_props exchange_state = (Ok tt, resourced_state)
  /\ get_prop (at2 0 (sourceTextures (this resourced_state))) "tex" = VTexture2D 2
  /\ at2 1 (targetTextures (this resourced_state)) = VTexture2D 2
  /\ (run sample_getSizeUniforms RunOpts.empty resourced_state).1 = Ok tt
  /\ swap (run sample_getSizeUniforms RunOpts.empty resourced_state).2
     = (Ok tt, resourced_swapped_state)
  /\ currentIndex (this resourced_swapped_state) = 1
  /\ _getTargetTexture resourced_swapped_state = VTexture2D 0
  /\ update resourced_props resourced_swapped_state = (Ok tt, resourced_again_state)
  /\ at2 1 (targetTextures (this resourced_again_state)) = VTexture2D 2
  /\ _getTargetTexture resourced_again_state = VTexture2D 0
  /\ (exists st attributes uniforms parameters,
        run sample_getSizeUniforms RunOpts.empty resourced_again_state = (Ok tt, st)
        /\ gl_calls (gl st)
           = (gl_calls (gl resourced_again_state)
              ++ [Framebuffer_clear 1;
                  Model_setAttributes attributes;
                  Model_transform (mkTransformOpts None uniforms false (Some 1) parameters)])%list
        /\ (color_attachment0 <$> gl_framebuffers (gl st) !! 1) = Some (VTexture2D 0)
        /\ exists st',
             swap st = (Ok tt, st')
             /\ get_prop (at2 (currentIndex (this st')) (sourceTextures (this st'))) "tex"
                = VTexture2D 2).
Proof.
  split; [vm_compute; reflexivity |]. split; [vm_compute; reflexivity |].
  split; [vm_compute; reflexivity |]. split; [vm_compute; reflexivity |].
  split; [vm_compute; reflexivity |]. split; [vm_compute; reflexivity |].
  split; [vm_compute; reflexivity |]. split; [vm_compute; reflexivity |].
  split; [vm_compute; reflexivity |]. split; [vm_compute; reflexivity |].
  eexists. eexists. eexists. eexists.
  split; [vm_compute; reflexivity |]. split; [vm_compute; reflexivity |].
  split; [vm_compute; reflexivity |].
  eexists. split; vm_compute; reflexivity.
Qed.

(** * Auto-created feedback buffers *)

Local Open Scope list_scope.

Lemma fmap_alter_same {A B} (g : A -> B) (f : A -> A) (i : nat) (xs : list A) :
  (forall x, g (f x) = g x) -> g <$> alter f i xs = g <$> xs.
Proof.
  intros Hf. revert i. induction xs as [|x xs IH]; intros [|i]; cbn; [reflexivity.. | |].
  - now rewrite Hf.
  - f_equal. apply IH.
Qed.








(** C2: the code creates a feedback buffer although one of that name exists.
    The sample instance, built from [{vs, elementCount: 4, sourceBuffers:
    {pos}, feedbackMap: {pos: 'nextPos'}}], holds after [swap()] the feedback
    buffer [nextPos] in its current generation (buffer 0, the caller's) and
    reads [pos] from buffer 2, the feedback buffer it created for itself.
    [update({})] then creates one more buffer, buffer 3, and binds it as
    [nextPos]; and it destroys buffer 2, which stays the source buffer [pos] of
    the current generation. *)
Theorem existing_feedback_buffer_recreated :
  swap sample_state = (Ok tt, swapped_state)
  /\ get_prop (at2 (currentIndex (this swapped_state)) (feedbackBuffers (this swapped_state)))
              "nextPos" = VBuffer 0
  /\ get_prop (at2 (currentIndex (this swapped_state)) (sourceBuffers (this swapped_state)))
              "pos" = VBuffer 2
  /\ ~ is_deleted (gl swapped_state) (VBuffer 2)
  /\ update Props.empty swapped_state = (Ok tt, reupdated_state)
  /\ length (gl_buffers (gl reupdated_state)) = S (length (gl_buffers (gl swapped_state)))
  /\ get_prop (at2 (currentIndex (this reupdated_state)) (feedbackBuffers (this reupdated_state)))
              "nextPos" = VBuffer 3
  /\ get_prop (at2 (currentIndex (this reupdated_state)) (sourceBuffers (this reupdated_state)))
              "pos" = VBuffer 2
  /\ is_deleted (gl reupdated_state) (VBuffer 2).
Proof.
  split; [vm_compute; reflexivity |]. split; [vm_compute; reflexivity |].
  split; [vm_compute; reflexivity |]. split.
  { intros (b & Hb & Hd). vm_compute in Hb. injection Hb as <-. discriminate Hd. }
  split; [vm_compute; reflexivity |]. split; [vm_compute; reflexivity |].
  split; [vm_compute; reflexivity |]. split; [vm_compute; reflexivity |].
  eexists. split; vm_compute; reflexivity.
Qed.

(** * Owned resources *)

Local Open Scope list_scope.

#[global] Instance stable_preorder : PreOrder stable.
Proof.
  split.
  - intros st. unfold stable. auto.
  - intros st1 st2 st3 (H1 & H2 & H3 & H4) (H5 & H6 & H7 & H8). unfold stable.
    repeat split; try congruence. auto.
Qed.

#[global] Instance tracked_preorder : PreOrder tracked.
Proof.
  split.
  - intros st J. split; [exact J | intros v Hv; exact Hv].
  - intros st1 st2 st3 H12 H23 J1. destruct (H12 J1) as [J2 K12].
    destruct (H23 J2) as [J3 K23]. split; [exact J3 |]. intros v Hv. auto.
Qed.

Lemma stable_tracked st st' : stable st st' -> tracked st st'.
Proof.
  intros (Hr & Hb & Ht & Hd) J. split.
  - intros name v Hv. rewrite Hr in Hv. specialize (J name v Hv).
    destruct v; cbn in *; try contradiction; lia.
  - intros v [Hv | Hv]; [left | right; auto]. unfold registered in *. now rewrite Hr.
Qed.

Lemma is_deleted_alter_buffers (f : Buffer -> Buffer) l g v :
  (forall b, buffer_deleted b = true -> buffer_deleted (f b) = true) ->
  is_deleted g v -> is_deleted (set_gl_buffers (alter f l (gl_buffers g)) g) v.
Proof.
  intros Hf. destruct v as [| |l'|l'| |]; cbn; auto.
  intros (b & Hb & Hd). destruct (decide (l = l')) as [-> | Hne].
  - exists (f b). rewrite list_lookup_alter_eq, Hb. auto.
  - exists b. rewrite list_lookup_alter_ne by assumption. auto.
Qed.

Lemma is_deleted_alter_textures (f : Texture2D -> Texture2D) l g v :
  (forall x, texture_deleted x = true -> texture_deleted (f x) = true) ->
  is_deleted g v -> is_deleted (set_gl_textures (alter f l (gl_textures g)) g) v.
Proof.
  intros Hf. destruct v as [| |l'|l'| |]; cbn; auto.
  intros (b & Hb & Hd). destruct (decide (l = l')) as [-> | Hne].
  - exists (f b). rewrite list_lookup_alter_eq, Hb. auto.
  - exists b. rewrite list_lookup_alter_ne by assumption. auto.
Qed.

(** The updates of the store that keep it [stable]. *)
Ltac stable_tac :=
  unfold stable; cbn [this gl gl_buffers gl_textures set_gl_buffers set_gl_textures
                      set_gl_framebuffers set_gl_transformFeedbacks set_gl_calls];
  repeat split;
  first [ reflexivity
        | apply length_alter
        | intros ? ?;
          first [ assumption
                | apply is_deleted_alter_buffers; [intros ? ?; assumption || reflexivity | assumption]
                | apply is_deleted_alter_textures; [intros ? ?; assumption || reflexivity | assumption] ] ].

Lemma Resource_delete_stable v : pres stable (Resource_delete v).
Proof. pres_auto stable_tac. Qed.

Lemma Buffer_setData_stable v d : pres stable (Buffer_setData v d).
Proof. pres_auto stable_tac. Qed.

Lemma Texture2D_setParameters_stable v ps : pres stable (Texture2D_setParameters v ps).
Proof. pres_auto stable_tac. Qed.

Lemma texture_size_stable v : pres stable (texture_size v).
Proof. pres_auto stable_tac. Qed.

Lemma new_Framebuffer_stable w h v : pres stable (new_Framebuffer w h v).
Proof. pres_auto stable_tac. Qed.

Lemma Framebuffer_update_resize_stable fb w h v :
  pres stable (Framebuffer_update_resize fb w h v).
Proof. pres_auto stable_tac. Qed.

Lemma new_TransformFeedback_stable b : pres stable (new_TransformFeedback b).
Proof. pres_auto stable_tac. Qed.

Lemma TransformFeedback_setBuffers_stable tf b : pres stable (TransformFeedback_setBuffers tf b).
Proof. pres_auto stable_tac. Qed.

Lemma call_stable c : pres stable (call c).
Proof. pres_auto stable_tac. Qed.

Lemma in_store_truthy g v : in_store g v -> truthy v = true.
Proof. destruct v; cbn; tauto. Qed.

Lemma Resource_delete_in_store st v :
  in_store (gl st) v ->
  exists st_del,
    Resource_delete v st = (Ok tt, st_del)
    /\ this st_del = this st
    /\ stable st st_del
    /\ is_deleted (gl st_del) v.
Proof.
  intros Hin. destruct v as [| |l|l| |]; cbn in Hin; try contradiction.
  - eexists. split; [reflexivity |]. split; [reflexivity |]. split; [stable_tac |].
    cbn. destruct (lookup_lt_is_Some_2 _ _ Hin) as [b Hb].
    exists (mark_buffer_deleted b). now rewrite list_lookup_alter_eq, Hb.
  - eexists. split; [reflexivity |]. split; [reflexivity |]. split; [stable_tac |].
    cbn. destruct (lookup_lt_is_Some_2 _ _ Hin) as [b Hb].
    exists (mark_texture_deleted b). now rewrite list_lookup_alter_eq, Hb.
Qed.

(** Registering a resource of the store: what was registered under the name is
    destroyed while it is still registered, and then replaced. *)
Lemma register_fresh name v st :
  registry_ok st ->
  in_store (gl st) v ->
  registry_name (this st) name ->
  exists st_del,
    (match resources (this st) !! name with
     | Some prior =>
         Resource_delete prior st = (Ok tt, st_del)
         /\ is_deleted (gl st_del) prior
     | None => st_del = st
     end)
    /\ resources (this st_del) = resources (this st)
    /\ register name v st
       = (Ok tt, mkState (set_resources (<[name := v]> (resources (this st_del))) (this st_del))
                         (gl st_del))
    /\ tracked st (mkState (set_resources (<[name := v]> (resources (this st_del)))
                                          (this st_del)) (gl st_del)).
Proof.
  intros J1 Hv Hname.
  assert (Hstep : exists st_del,
    (match resources (this st) !! name with
     | Some prior =>
         Resource_delete prior st = (Ok tt, st_del) /\ is_deleted (gl st_del) prior
     | None => st_del = st
     end)
    /\ this st_del = this st /\ stable st st_del
    /\ when (truthy (get_prop (resources (this st)) name))
            (Resource_delete (get_prop (resources (this st)) name)) st = (Ok tt, st_del)).
  { destruct (resources (this st) !! name) as [prior|] eqn:Hp.
    - rewrite (get_prop_Some _ _ _ Hp). specialize (J1 _ _ Hp).
      rewrite (in_store_truthy _ _ J1). cbn [when].
      destruct (Resource_delete_in_store st prior J1) as (st_del & H1 & H2 & H3 & H4).
      exists st_del. auto.
    - assert (Hn : name ∉ Object_prototype_names).
      { destruct Hname as [Hs | Hn]; [| exact Hn]. rewrite Hp in Hs. now destruct Hs. }
      rewrite (get_prop_None _ _ Hp), (Object_prototype_other _ Hn). exists st.
      split; [reflexivity |]. split; [reflexivity |]. split; reflexivity. }
  destruct Hstep as (st_del & Hprior & Hthis & Hstable & Hwhen).
  exists st_del. split; [exact Hprior |]. split; [now rewrite Hthis |]. split.
  - unfold register, mbind, M_bind, get_this, modify_this. cbn [this gl fst snd].
    rewrite Hwhen. reflexivity.
  - intros _. destruct (stable_tracked _ _ Hstable J1) as [K1 K2].
    destruct Hstable as (Hr & Hb & Ht & Hd).
    unfold registry_ok, kept, registered in *. cbn [this gl resources set_resources].
    split.
    + intros name' v' Hl. destruct (decide (name = name')) as [<- | Hne].
      * rewrite lookup_insert_eq in Hl. injection Hl as <-.
        destruct v; cbn in *; try contradiction; lia.
      * rewrite lookup_insert_ne in Hl by assumption. exact (K1 _ _ Hl).
    + intros v' Hv'. destruct (K2 v' Hv') as [(name' & Hn) | H]; [| now right].
      destruct (decide (name = name')) as [<- | Hne].
      * right. rewrite Hr in Hn. rewrite Hn in Hprior. tauto.
      * left. exists name'. now rewrite lookup_insert_ne.
Qed.

(** Under a name that is no key of the registry but a member of
    [Object.prototype], [this.resources[name]] is the inherited member, which
    has no [delete]: the registration throws and changes nothing. *)
Lemma register_inherited name v st :
  resources (this st) !! name = None ->
  name ∈ Object_prototype_names ->
  register name v st = (Throw TypeError, st).
Proof.
  intros Hp Hn. unfold register, mbind, M_bind, get_this. cbn [this gl fst snd].
  now rewrite (get_prop_None _ _ Hp), (Object_prototype_member _ Hn).
Qed.

Lemma is_deleted_app_buffers g v more :
  is_deleted g v -> is_deleted (set_gl_buffers (gl_buffers g ++ more) g) v.
Proof.
  destruct v; cbn; auto. intros (b & Hb & Hd). exists b. split; [| exact Hd].
  now apply lookup_app_l_Some.
Qed.

Lemma is_deleted_app_textures g v more :
  is_deleted g v -> is_deleted (set_gl_textures (gl_textures g ++ more) g) v.
Proof.
  destruct v; cbn; auto. intros (b & Hb & Hd). exists b. split; [| exact Hd].
  now apply lookup_app_l_Some.
Qed.

Lemma tracked_new_buffer st b :
  tracked st (mkState (this st) (set_gl_buffers (gl_buffers (gl st) ++ [b]) (gl st))).
Proof.
  intros J. split.
  - intros name v Hv. specialize (J _ _ Hv).
    destruct v; cbn in *; try contradiction; try rewrite length_app; try lia; assumption.
  - intros v [Hv | Hv]; [now left | right]. now apply is_deleted_app_buffers.
Qed.

Lemma tracked_new_texture st x :
  tracked st (mkState (this st) (set_gl_textures (gl_textures (gl st) ++ [x]) (gl st))).
Proof.
  intros J. split.
  - intros name v Hv. specialize (J _ _ Hv).
    destruct v; cbn in *; try contradiction; try rewrite length_app; try lia; assumption.
  - intros v [Hv | Hv]; [now left | right]. now apply is_deleted_app_textures.
Qed.

Lemma _createNewBuffer_register name opts st :
  _createNewBuffer name opts st
  = (buffer ← new_Buffer opts; register name buffer;; mret buffer) st.
Proof.
  unfold _createNewBuffer, register, new_Buffer, mbind, M_bind, get_gl, get_this, modify_gl,
    modify_this, mret, M_ret. cbn [this gl fst snd].
  destruct (when _ _ _) as [[[]|e] s]; reflexivity.
Qed.

(** The buffer that [_createNewBuffer] installs is new, and what was registered
    under its name has been destroyed first. *)
Lemma _createNewBuffer_owned name opts st :
  registry_ok st ->
  registry_name (this st) name ->
  exists st_new st_del,
    let buffer := VBuffer (length (gl_buffers (gl st))) in
    new_Buffer opts st = (Ok buffer, st_new)
    /\ (match resources (this st) !! name with
        | Some prior =>
            Resource_delete prior st_new = (Ok tt, st_del) /\ is_deleted (gl st_del) prior
        | None => st_del = st_new
        end)
    /\ resources (this st_del) = resources (this st)
    /\ _createNewBuffer name opts st
       = (Ok buffer,
          mkState (set_resources (<[name := buffer]> (resources (this st_del))) (this st_del))
                  (gl st_del))
    /\ tracked st
         (mkState (set_resources (<[name := buffer]> (resources (this st_del))) (this st_del))
                  (gl st_del)).
Proof.
  intros J Hname. cbv zeta.
  set (b := mkBuffer (opt_byteLength opts) (opt_usage opts) (opt_accessor opts)
                     (opt_data opts) false).
  pose proof (tracked_new_buffer st b) as T0. destruct (T0 J) as [J' _].
  eexists. destruct (register_fresh name (VBuffer (length (gl_buffers (gl st)))) _ J')
    as (st_del & H1 & H2 & H3 & H4).
  { cbn. rewrite length_app. cbn. lia. }
  { exact Hname. }
  exists st_del. split; [reflexivity |]. split; [exact H1 |]. split; [exact H2 |].
  split; [| etransitivity; [exact T0 | exact H4]].
  rewrite _createNewBuffer_register. unfold mbind at 1, M_bind at 1.
  unfold new_Buffer, mbind, M_bind, get_gl, modify_gl, mret, M_ret. cbn [this gl fst snd].
  unfold mbind, M_bind in H3. fold b. rewrite H3. reflexivity.
Qed.

(** Under a name that [Object.prototype] has and the registry has not,
    [_createNewBuffer] creates the buffer and then throws: the buffer is in no
    table and is not destroyed. *)
Lemma _createNewBuffer_inherited name opts st :
  resources (this st) !! name = None ->
  name ∈ Object_prototype_names ->
  _createNewBuffer name opts st
  = (Throw TypeError,
     mkState (this st)
       (set_gl_buffers
          (gl_buffers (gl st)
           ++ [mkBuffer (opt_byteLength opts) (opt_usage opts) (opt_accessor opts)
                        (opt_data opts) false]) (gl st))).
Proof.
  intros Hp Hn. rewrite _createNewBuffer_register. unfold mbind at 1, M_bind at 1.
  unfold new_Buffer, mbind, M_bind, get_gl, modify_gl, mret, M_ret. cbn [this gl fst snd].
  rewrite register_inherited; [reflexivity | exact Hp | exact Hn].
Qed.

Lemma tracked_this st f :
  resources (f (this st)) = resources (this st) -> tracked st (mkState (f (this st)) (gl st)).
Proof.
  intros Hr. apply stable_tracked. split; [exact Hr |]. cbn. auto.
Qed.

Lemma _buildTargetTexture_register name index st :
  _buildTargetTexture (TAttribute name) index st
  = (t ← get_this;
     let refTexture := get_prop (at2 index (sourceTextures t)) name in
     assert (truthy refTexture);;
     modify_this (set_targetRefTexName (Some name));;
     texture ← cloneTextureFrom refTexture
                 {[ GL.TEXTURE_MIN_FILTER := GL.NEAREST;
                    GL.TEXTURE_MAG_FILTER := GL.NEAREST;
                    GL.TEXTURE_WRAP_S := GL.CLAMP_TO_EDGE;
                    GL.TEXTURE_WRAP_T := GL.CLAMP_TO_EDGE ]}
                 {[ GL.UNPACK_FLIP_Y_WEBGL := false ]};
     register ("target-texture-" +:+ pretty index) texture;;
     mret texture) st.
Proof.
  unfold _buildTargetTexture, register. cbv zeta.
  unfold mbind, M_bind, get_this, modify_this, assert, mret, M_ret. cbn [this gl fst snd].
  destruct (truthy _); [| reflexivity].
  destruct (cloneTextureFrom _ _ _ _) as [[texture|e] s]; [| reflexivity].
  destruct (when _ _ _) as [[[]|e] s']; reflexivity.
Qed.

(** The names the class itself registers under are no members of
    [Object.prototype]. *)
Lemma target_texture_name (index : nat) t :
  registry_name t ("target-texture-" +:+ pretty index).
Proof.
  right. unfold Object_prototype_names. cbn [String.app].
  rewrite !elem_of_cons, elem_of_nil. intros H.
  repeat (destruct H as [H | H]; [discriminate H |]). exact H.
Qed.

Lemma elementIDBuffer_name t : registry_name t "elementIDBuffer".
Proof.
  right. intros H. apply (bool_decide_eq_true_2 _) in H. vm_compute in H. discriminate H.
Qed.

(** The texture that [_buildTargetTexture] clones is new, and what was
    registered under its name has been destroyed first. *)
Lemma _buildTargetTexture_owned name index st out st' :
  registry_ok st ->
  _buildTargetTexture (TAttribute name) index st = (Ok out, st') ->
  exists st_new st_del,
    let resourceName := "target-texture-" +:+ pretty index in
    let texture := VTexture2D (length (gl_textures (gl st))) in
    out = texture
    /\ in_store (gl st_new) texture
    /\ (match resources (this st) !! resourceName with
        | Some prior =>
            Resource_delete prior st_new = (Ok tt, st_del) /\ is_deleted (gl st_del) prior
        | None => st_del = st_new
        end)
    /\ resources (this st_del) = resources (this st)
    /\ st' = mkState (set_resources (<[resourceName := texture]> (resources (this st_del)))
                                    (this st_del)) (gl st_del)
    /\ tracked st st'.
Proof.
  intros J H. cbv zeta. rewrite _buildTargetTexture_register in H. cbv zeta in H.
  unfold cloneTextureFrom in H.
  unfold mbind, M_bind, get_this, modify_this, assert, get_gl, modify_gl, throw, mret, M_ret
    in H.
  cbn [this gl fst snd] in H.
  destruct (truthy _); [| discriminate].
  destruct (get_prop (at2 index (sourceTextures (this st))) name) as [| | |l| |];
    try discriminate.
  cbn [this gl fst snd] in H.
  destruct (gl_textures (gl st) !! l) as [x|]; [| discriminate].
  cbn [this gl fst snd] in H.
  pose proof (tracked_this st (set_targetRefTexName (Some name)) eq_refl) as T0.
  destruct (T0 J) as [J0 _].
  match type of H with
  | context [set_gl_textures (_ ++ [?x']) _] =>
      pose proof (tracked_new_texture
                    (mkState (set_targetRefTexName (Some name) (this st)) (gl st)) x') as T1
  end.
  destruct (T1 J0) as [J' _]. cbn [this gl] in J', T1.
  destruct (register_fresh ("target-texture-" +:+ pretty index)
              (VTexture2D (length (gl_textures (gl st)))) _ J')
    as (st_del & H1 & H2 & H3 & H4).
  { cbn. rewrite length_app. cbn. lia. }
  { apply target_texture_name. }
  rewrite H3 in H. injection H as <- <-.
  eexists. exists st_del.
  split; [reflexivity |].
  split; [| split; [exact H1 | split; [exact H2 | split; [reflexivity |]]]].
  - cbn. rewrite length_app. cbn. lia.
  - etransitivity; [exact T0 |]. etransitivity; [exact T1 | exact H4].
Qed.

Ltac tracked_tac := apply tracked_this; reflexivity.

Lemma stable_keeps {A} (m : M A) : pres stable m -> pres tracked m.
Proof. intros H st o st' Hm. apply stable_tracked. eapply H. exact Hm. Qed.

Lemma _createNewBuffer_keeps name opts : pres tracked (_createNewBuffer name opts).
Proof.
  intros st o st' H J.
  assert (Hc : registry_name (this st) name
               \/ resources (this st) !! name = None /\ name ∈ Object_prototype_names).
  { destruct (resources (this st) !! name) as [prior|] eqn:Hp; [left; left; eauto |].
    destruct (decide (name ∈ Object_prototype_names)); [right; auto | left; now right]. }
  destruct Hc as [Hname | [Hp Hn]].
  - destruct (_createNewBuffer_owned name opts st J Hname)
      as (st_new & st_del & _ & _ & _ & H4 & H5).
    rewrite H4 in H. injection H as <- <-. exact (H5 J).
  - rewrite (_createNewBuffer_inherited name opts st Hp Hn) in H. injection H as <- <-.
    exact (tracked_new_buffer st _ J).
Qed.

Lemma _buildTargetTexture_keeps textureOrAttribute index :
  pres tracked (_buildTargetTexture textureOrAttribute index).
Proof.
  destruct textureOrAttribute as [l | name].
  - pres_auto tracked_tac.
  - intros st o st' H J. destruct o as [out | e].
    + destruct (_buildTargetTexture_owned name index st out st' J H)
        as (? & ? & _ & _ & _ & _ & _ & T). exact (T J).
    + rewrite _buildTargetTexture_register in H. cbv zeta in H.
      unfold cloneTextureFrom in H.
      unfold mbind, M_bind, get_this, modify_this, assert, get_gl, modify_gl, throw, mret,
        M_ret in H.
      cbn [this gl fst snd] in H.
      pose proof (tracked_this st (set_targetRefTexName (Some name)) eq_refl) as T0.
      destruct (T0 J) as [J0 K0].
      destruct (truthy _); [| injection H as <- <-; exact (@PreOrder_Reflexive _ tracked _ st J)].
      destruct (get_prop (at2 index (sourceTextures (this st))) name) as [| | |l| |];
        cbn [this gl fst snd] in H; try (injection H as <- <-; exact (T0 J)).
      destruct (gl_textures (gl st) !! l) as [x|];
        cbn [this gl fst snd] in H; [| injection H as <- <-; exact (T0 J)].
      match type of H with
      | context [set_gl_textures (_ ++ [?x']) _] =>
          pose proof (tracked_new_texture
                        (mkState (set_targetRefTexName (Some name) (this st)) (gl st)) x') as T1
      end.
      destruct (T1 J0) as [J' _]. cbn [this gl] in J'.
      destruct (register_fresh ("target-texture-" +:+ pretty index)
                  (VTexture2D (length (gl_textures (gl st)))) _ J')
        as (st_del & H1 & H2 & H3 & H4).
      { cbn. rewrite length_app. cbn. lia. }
      { apply target_texture_name. }
      rewrite H3 in H. discriminate.
Qed.

#[export] Hint Resolve stable_keeps Resource_delete_stable Buffer_setData_stable
  Texture2D_setParameters_stable texture_size_stable new_Framebuffer_stable
  Framebuffer_update_resize_stable new_TransformFeedback_stable
  TransformFeedback_setBuffers_stable call_stable
  _createNewBuffer_keeps _buildTargetTexture_keeps : pres.

Section Ownership.

Context (updateForTextures :
           string -> table -> option string -> value -> option string * gmap string string)
        (getSizeUniforms :
           list Texture2D -> table -> option string -> value -> gmap string Uniform).

Local Abbreviation reachable' := (reachable updateForTextures getSizeUniforms).

Lemma _initialize_tracked props : pres tracked (_initialize updateForTextures props).
Proof. pres_auto tracked_tac. Qed.

Lemma exec_tracked op : pres tracked (exec getSizeUniforms op).
Proof. destruct op; cbn [exec]; unfold swap; pres_auto tracked_tac. Qed.

Lemma initial_registry g0 : registry_ok (mkState initial g0).
Proof. intros name v. cbn. rewrite lookup_empty. discriminate. Qed.

(** In every state of an instance, what is registered lives in the store. *)
Lemma reachable_registry g0 st : reachable' g0 st -> registry_ok st.
Proof.
  induction 1 as [props st H | st op o st' _ IH H].
  - unfold new_Transform, constructor in H.
    split_bind H as Hg st1. injection Hg as <- <-.
    split_bind H as Ha st2. unfold assert in Ha. destruct (webgl2 _); [| discriminate].
    injection Ha as <-.
    split_bind H as Hi st3. injection Hi as <-.
    split_bind H as Hi st4. injection H as <-.
    apply (tracked_this st4 (set_sealed true) eq_refl).
    exact (proj1 (_initialize_tracked _ _ _ _ Hi (initial_registry g0))).
  - exact (proj1 (exec_tracked _ _ _ _ H IH)).
Qed.

(** X17: a registered resource is destroyed before its replacement is
    installed.  On every instance, under a name that is a key of the registry
    or that [Object.prototype] does not have, as [elementIDBuffer] and
    [target-texture-<index>] are, [_createNewBuffer] returns a new buffer: it
    creates the buffer, destroys what was registered under the name, and only
    then installs the new buffer under it.  [_buildTargetTexture], when it
    returns for the name of a source texture, has done the same with the clone
    under [target-texture-<index>].  And no method drops a registered
    resource: after [update], [run], [swap], [_updateTargetTexture] or
    [delete], returning or throwing, what is registered lives on the device,
    and what was registered or destroyed is registered or destroyed. *)
Theorem replaced_resource_destroyed_before_installed g0 st :
  reachable' g0 st ->
  (forall name opts,
      registry_name (this st) name ->
      exists st_new st_del,
        let buffer := VBuffer (length (gl_buffers (gl st))) in
        new_Buffer opts st = (Ok buffer, st_new)
        /\ (match resources (this st) !! name with
            | Some prior =>
                Resource_delete prior st_new = (Ok tt, st_del) /\ is_deleted (gl st_del) prior
            | None => st_del = st_new
            end)
        /\ resources (this st_del) = resources (this st)
        /\ _createNewBuffer name opts st
           = (Ok buffer,
              mkState (set_resources (<[name := buffer]> (resources (this st_del)))
                                     (this st_del)) (gl st_del)))
  /\ (forall name index out st',
        _buildTargetTexture (TAttribute name) index st = (Ok out, st') ->
        exists st_new st_del,
          let resourceName := "target-texture-" +:+ pretty index in
          let texture := VTexture2D (length (gl_textures (gl st))) in
          out = texture
          /\ in_store (gl st_new) texture
          /\ (match resources (this st) !! resourceName with
              | Some prior =>
                  Resource_delete prior st_new = (Ok tt, st_del)
                  /\ is_deleted (gl st_del) prior
              | None => st_del = st_new
              end)
          /\ resources (this st_del) = resources (this st)
          /\ st' = mkState (set_resources (<[resourceName := texture]> (resources (this st_del)))
                                          (this st_del)) (gl st_del))
  /\ registry_name (this st) "elementIDBuffer"
  /\ (forall index : nat, registry_name (this st) ("target-texture-" +:+ pretty index))
  /\ (forall op o st',
        exec getSizeUniforms op st = (o, st') -> registry_ok st' /\ kept st st').
Proof.
  intros Hr. pose proof (reachable_registry g0 st Hr) as J.
  split; [| split; [| split; [| split]]].
  - intros name opts Hname.
    destruct (_createNewBuffer_owned name opts st J Hname)
      as (st_new & st_del & H1 & H2 & H3 & H4 & _).
    exists st_new, st_del. cbv zeta. auto.
  - intros name index out st' H.
    destruct (_buildTargetTexture_owned name index st out st' J H)
      as (st_new & st_del & H1 & H2 & H3 & H4 & H5 & _).
    exists st_new, st_del. cbv zeta. auto.
  - apply elementIDBuffer_name.
  - intros index. apply target_texture_name.
  - intros op o st' H. exact (exec_tracked op st o st' H J).
Qed.

End Ownership.


(** * The element count and the element-index buffer *)

Local Open Scope list_scope.

(** ** Numbers *)


Lemma number_ltb_true x y : number_ltb x y = true <-> (x < y)%Q.
Proof.
  unfold number_ltb. rewrite negb_true_iff. split.
  - intros H. apply Qnot_le_lt. intros Hle. apply Qle_bool_iff in Hle. congruence.
  - intros H. destruct (Qle_bool y x) eqn:E; [| reflexivity].
    apply Qle_bool_iff in E. lra.
Qed.

Lemma number_ltb_false x y : number_ltb x y = false <-> (y <= x)%Q.
Proof.
  unfold number_ltb. rewrite negb_false_iff. apply Qle_bool_iff.
Qed.







(** ** The model stays built *)

Ltac model_tac :=
  unfold keeps, model_built; cbn; intros; first [ assumption | discriminate ].


(** ** The element-index buffer *)




Ltac index_tac := let J := fresh "J" in intros J; exact J.

Lemma _setupSwapTextures_index : pres (keeps index_buffer_ok) _setupSwapTextures.
Proof.
  intros st o st' H J. unfold _setupSwapTextures in H. msimpl.
  destruct (negb (truthy_str (_swapTexture (this st)))
            || negb (truthy_str (targetTextureVarying (this st)))) eqn:Hg.
  - injection H as <- <-. exact J.
  - apply orb_false_iff in Hg as [_ Ht]. apply negb_false_iff in Ht.
    injection H as <- <-. destruct J as [J1 J2]. split.
    + unfold textures_enabled, textures_configured. cbn. rewrite Ht. tauto.
    + destruct J2 as [J2 | [He J2]]; [left; exact J2 | right].
      split; [right; exact Ht | exact J2].
Qed.

(** What [delete()] of a resource leaves of the buffers: everything but the
    mark. *)
Lemma Resource_delete_data v st o st' :
  Resource_delete v st = (o, st') ->
  this st' = this st
  /\ length (gl_buffers (gl st')) = length (gl_buffers (gl st))
  /\ forall l b, gl_buffers (gl st) !! l = Some b ->
                 exists b', gl_buffers (gl st') !! l = Some b' /\ data b' = data b.
Proof.
  destruct v as [| |l'|l'| |]; cbn; intros [= <- <-]; cbn;
    try (split; [reflexivity | split; [reflexivity | eauto]]).
  split; [reflexivity |]. split; [apply length_alter |]. intros l b Hb.
  destruct (decide (l' = l)) as [-> | Hne].
  - rewrite list_lookup_alter_eq, Hb. cbn. eexists. split; reflexivity.
  - rewrite list_lookup_alter_ne by exact Hne. eauto.
Qed.

Lemma Resource_delete_index v : pres (keeps index_buffer_ok) (Resource_delete v).
Proof.
  intros st o st' H [J1 J2]. destruct (Resource_delete_data _ _ _ _ H) as (Ht & _ & Hd).
  unfold index_buffer_ok. rewrite Ht. split; [exact J1 |].
  destruct J2 as [J2 | [Hb (l & b & n & E1 & E2 & E3 & E4)]]; [now left | right].
  split; [exact Hb |]. destruct (Hd l b E2) as (b' & E5 & E6).
  exists l, b', n. rewrite E6. auto.
Qed.

Lemma new_Buffer_index opts : pres (keeps index_buffer_ok) (new_Buffer opts).
Proof.
  intros st o st' H [J1 J2]. unfold new_Buffer, mbind, M_bind, get_gl, modify_gl in H.
  cbn in H. injection H as <- <-. split; [exact J1 |].
  destruct J2 as [J2 | [Hb (l & b & n & E1 & E2 & E3 & E4)]]; [now left | right].
  split; [exact Hb |]. exists l, b, n. cbn. split; [exact E1 |].
  split; [now apply lookup_app_l_Some | auto].
Qed.

#[export] Hint Resolve Resource_delete_index new_Buffer_index _setupSwapTextures_index : pres.

Lemma _createNewBuffer_view name opts : pres (unchanged index_view) (_createNewBuffer name opts).
Proof. pres_auto ltac:(reflexivity). Qed.

(** What [_createNewBuffer] does to the buffers of the store. *)
Lemma _createNewBuffer_data name opts st o st' :
  _createNewBuffer name opts st = (o, st') ->
  (forall l b, gl_buffers (gl st) !! l = Some b ->
               exists b', gl_buffers (gl st') !! l = Some b' /\ data b' = data b)
  /\ (forall v, o = Ok v ->
                v = VBuffer (length (gl_buffers (gl st)))
                /\ exists b', gl_buffers (gl st') !! length (gl_buffers (gl st)) = Some b'
                              /\ data b' = opt_data opts).
Proof.
  rewrite _createNewBuffer_register.
  unfold new_Buffer, register, mbind, M_bind, get_gl, get_this, modify_gl, modify_this, mret,
    M_ret.
  cbn [this gl fst snd].
  set (b0 := mkBuffer _ _ _ _ _).
  set (st0 := mkState (this st) (set_gl_buffers (gl_buffers (gl st) ++ [b0]) (gl st))).
  assert (H0 : forall l b, gl_buffers (gl st) !! l = Some b -> gl_buffers (gl st0) !! l = Some b)
    by (intros l b Hb; cbn; now apply lookup_app_l_Some).
  assert (H1 : gl_buffers (gl st0) !! length (gl_buffers (gl st)) = Some b0)
    by (cbn; now rewrite lookup_app_r, Nat.sub_diag by lia).
  unfold when. destruct (truthy _).
  - destruct (Resource_delete _ st0) as [[[]|e] s] eqn:Hd; intros [= <- <-];
      destruct (Resource_delete_data _ _ _ _ Hd) as (_ & _ & Hk); cbn [this gl].
    + split; [intros l b Hb; apply Hk, H0, Hb |].
      intros v [= <-]. split; [reflexivity |].
      destruct (Hk _ _ H1) as (b' & E1 & E2). exists b'. split; [exact E1 | now rewrite E2].
    + split; [intros l b Hb; apply Hk, H0, Hb | discriminate].
  - intros [= <- <-]. cbn [this gl]. split; [intros l b Hb; eauto |].
    intros v [= <-]. split; [reflexivity |]. exists b0. split; [exact H1 | reflexivity].
Qed.

Lemma index_buffer_ok_view st st' :
  index_view st' = index_view st ->
  (textures_enabled (this st') <-> textures_configured (this st'))
  <-> (textures_enabled (this st) <-> textures_configured (this st)).
Proof.
  unfold index_view, textures_enabled, textures_configured.
  intros [= _ _ H1 H2 H3 _]. cbn [at2] in *. now rewrite H1, H2, H3.
Qed.

Lemma new_Float32Array_cases E st :
  (ToIntegerOrInfinity E < 0 \/ MAX_SAFE_INTEGER < ToIntegerOrInfinity E)%Z
  /\ new_Float32Array E st = (Throw RangeError, st)
  \/ (0 <= ToIntegerOrInfinity E <= MAX_SAFE_INTEGER)%Z
     /\ new_Float32Array E st
        = (Ok (replicate (Z.to_nat (ToIntegerOrInfinity E)) 0%Z), st).
Proof.
  unfold new_Float32Array.
  destruct (ToIntegerOrInfinity E <? 0)%Z eqn:E1; [left; split; [lia | reflexivity] |].
  destruct (MAX_SAFE_INTEGER <? ToIntegerOrInfinity E)%Z eqn:E2;
    [left; split; [lia | reflexivity] | right; split; [lia | reflexivity]].
Qed.

(** What [_updateElementIDBuffer] leaves behind, however it ends. *)
Lemma _updateElementIDBuffer_index E st o st' :
  _updateElementIDBuffer E st = (o, st') ->
  index_buffer_ok st ->
  match o with
  | Ok _ =>
      (textures_enabled (this st) -> index_built E st')
      /\ (~ textures_enabled (this st) -> st' = st)
      /\ (forall l, elementIDBuffer (this st) = VBuffer l ->
                    elementIDBuffer (this st') = VBuffer l)
  | Throw _ => index_buffer_ok st'
  end
  /\ (elementCount (this st') = elementCount (this st)
      /\ hasSourceTextures (this st') = hasSourceTextures (this st)
      /\ targetTextureVarying (this st') = targetTextureVarying (this st)
      /\ at2 0 (sourceTextures (this st')) = at2 0 (sourceTextures (this st))
      /\ model (this st') = model (this st)).
Proof.
  intros H [J1 J2]. unfold _updateElementIDBuffer in H.
  unfold mbind at 1, M_bind at 1, get_this in H. cbn [this gl fst snd] in H.
  destruct (negb (hasSourceTextures (this st))
            && negb (truthy_str (targetTextureVarying (this st)))) eqn:Hb.
  - injection H as <- <-. apply andb_true_iff in Hb as [Hs Ht].
    apply negb_true_iff in Hs, Ht. split; [| repeat split; reflexivity].
    assert (~ textures_enabled (this st)) as Hn by (intros [? | ?]; congruence).
    split; [tauto |]. split; [reflexivity | auto].
  - assert (Htb : textures_enabled (this st)).
    { apply andb_false_iff in Hb as [Hb | Hb]; apply negb_false_iff in Hb; [now left | now right]. }
    unfold mbind at 1, M_bind at 1 in H.
    destruct (new_Float32Array_cases E st) as [[_ Hf] | [_ Hf]]; rewrite Hf in H.
    { injection H as <- <-. split; [split; assumption | repeat split; reflexivity]. }
    fold (element_ids E) in H.
    destruct J2 as [J2 | [_ (l & b & n & E1 & E2 & E3 & E4)]].
    + rewrite J2 in H. cbn [truthy negb] in H. unfold mbind, M_bind, modify_this in H.
      destruct (_createNewBuffer _ _ st) as [[buffer|e] s1] eqn:Hc;
        pose proof (_createNewBuffer_view _ _ _ _ _ Hc) as Hv;
        destruct (_createNewBuffer_data _ _ _ _ _ Hc) as (Hk & Hnew);
        injection H as <- <-; cbn [this gl];
        pose proof (index_buffer_ok_view _ _ Hv) as Hiff;
        unfold unchanged, index_view in Hv; injection Hv as V1 V2 V3 V4 V5 V6.
      * split; [| cbn; repeat split; assumption].
        split; [| split; [tauto | intros l; rewrite J2; discriminate]].
        intros _. destruct (Hnew _ eq_refl) as (-> & b' & E5 & E6).
        split; [unfold textures_enabled in *; cbn; rewrite V3, V4; exact Htb |].
        exists (length (gl_buffers (gl st))), b'. cbn. auto.
      * split; [| cbn; repeat split; assumption].
        split; [apply Hiff; exact J1 | left; congruence].
    + rewrite E1 in H. cbn in H. injection H as <- <-. split; [| repeat split; reflexivity].
      split; [| split; [tauto | intros l0 E0; cbn; congruence]].
      intros _. split; [exact Htb |]. cbn.
      eexists l, _. split; [exact E1 |]. rewrite list_lookup_alter_eq, E2. cbn. auto.
Qed.

Lemma textures_enabled_dec t : {textures_enabled t} + {~ textures_enabled t}.
Proof.
  unfold textures_enabled.
  destruct (hasSourceTextures t); [left; now left |].
  destruct (truthy_str (targetTextureVarying t)); [left; now right | right].
  intros [? | ?]; discriminate.
Qed.

Lemma _setElementCount_index opts : pres (keeps index_buffer_ok) (_setElementCount opts).
Proof.
  intros st o st' H J. unfold _setElementCount in H.
  destruct (Props.elementCount opts) as [[E|]|]; [| injection H as <- <-; exact J ..].
  unfold mbind at 1, M_bind at 1, get_this in H. cbn [this gl fst snd] in H.
  destruct (number_eqb (elementCount (this st)) E) eqn:He; [injection H as <- <-; exact J |].
  unfold mbind at 1, M_bind at 1 in H.
  destruct (when _ _ st) as [[[]|e] s1] eqn:Hw.
  - assert (K : index_buffer_ok s1
                /\ index_buffer_ok (mkState (set_elementCount E (this s1)) (gl s1))).
    { unfold when in Hw. destruct (number_ltb (elementCount (this st)) E) eqn:Hlt.
      - apply number_ltb_true in Hlt.
        destruct (_updateElementIDBuffer_index _ _ _ _ Hw J)
          as [(Hb & Hn & _) (F1 & F2 & F3 & F4 & F5)].
        assert (J1' : textures_enabled (this s1) <-> textures_configured (this s1)).
        { destruct J as [J1 _]. unfold textures_enabled, textures_configured in *.
          rewrite F2, F3, F4. exact J1. }
        destruct (textures_enabled_dec (this st)) as [Ht | Ht].
        + destruct (Hb Ht) as (Ht' & l & b & E1 & E2 & E3).
          split; (split; [exact J1' | right; split; [exact Ht' |]]); exists l, b, E; cbn.
          * rewrite F1. repeat split; auto. lra.
          * repeat split; auto. lra.
        + rewrite (Hn Ht). split; [exact J |]. destruct J as [J1 [J2 | [J2 _]]]; [| tauto].
          split; [exact J1 | now left].
      - apply number_ltb_false in Hlt. injection Hw as <-. split; [exact J |].
        destruct J as [J1 [J2 | [J2 (l & b & n & E1 & E2 & E3 & E4)]]];
          (split; [exact J1 |]); [now left | right].
        split; [exact J2 |]. exists l, b, n. cbn. repeat split; auto. lra. }
    unfold with_model in H. unfold mbind, M_bind, get_this, modify_this, throw in H.
    cbn [this gl fst snd] in H.
    destruct (model (this s1)) as [m|]; cbn in H; injection H as <- <-;
      [exact (proj2 K) | exact (proj1 K)].
  - injection H as <- <-. unfold when in Hw.
    destruct (number_ltb (elementCount (this st)) E); [| discriminate].
    exact (proj1 (_updateElementIDBuffer_index _ _ _ _ Hw J)).
Qed.

#[export] Hint Resolve _setElementCount_index : pres.



Section Counting.

Context (updateForTextures :
           string -> table -> option string -> value -> option string * gmap string string)
        (getSizeUniforms :
           list Texture2D -> table -> option string -> value -> gmap string Uniform).

Local Abbreviation reachable' := (reachable updateForTextures getSizeUniforms).






Lemma exec_model op : pres (keeps model_built) (exec getSizeUniforms op).
Proof. destruct op; cbn [exec]; unfold swap; pres_auto model_tac. Qed.

Lemma reachable_model g0 st : reachable' g0 st -> model_built st.
Proof.
  induction 1 as [props st H | st op o st' _ IH H].
  - destruct (new_Transform_Ok _ _ _ _ H) as (st1 & st2 & st3 & st4 & _ & _ & _ & _ & H4 & ->).
    unfold _buildModel in H4.
    split_bind H4 as H5 s5. split_bind H4 as H6 s6. injection H6 as <-.
    assert (K : pres (keeps model_built)
                  (modify_this (set_samplerTextureMap a);; _setupTransformFeedback;;
                   _setElementCount props)) by pres_auto model_tac.
    apply (K _ _ _ H4). discriminate.
  - eapply exec_model; eauto.
Qed.






End Counting.

(** * The theorems at sample instances *)

Lemma sample_state_reachable :
  reachable sample_updateForTextures sample_getSizeUniforms sample_gl sample_state.
Proof. apply reachable_new with (props := sample_props). vm_compute. reflexivity. Qed.

Lemma swap_flips_generation_witness :
  exists st1,
    swap sample_state = (Ok tt, st1)
    /\ st1 = mkState (set_currentIndex ((currentIndex (this sample_state) + 1) mod 2)
                                       (this sample_state)) (gl sample_state)
    /\ currentIndex (this st1) <> currentIndex (this sample_state)
    /\ swap st1 = (Ok tt, sample_state)
    /\ currentIndex (this st1) < 2.
Proof.
  apply (swap_flips_generation sample_updateForTextures sample_getSizeUniforms sample_gl).
  - apply reachable_new with (props := sample_props). vm_compute. reflexivity.
  - left. vm_compute. eauto.
Defined.

Lemma swap_unconfigured_is_fatal_witness :
  swap bare_state = (Throw AssertionError, bare_state)
  /\ forall o st', swap bare_state = (o, st') ->
                   currentIndex (this st') = currentIndex (this bare_state).
Proof. apply swap_unconfigured_is_fatal; vm_compute; reflexivity. Defined.

Lemma getBuffer_returns_buffer_or_null_witness :
  getBuffer (Some "nextPos") (this wrapper_state) = VBuffer 1
  /\ getBuffer (Some "other") (this wrapper_state) = VNull.
Proof.
  destruct (getBuffer_returns_buffer_or_null (this wrapper_state)) as (_ & _ & Hu & Hw & _).
  split.
  - apply Hw; [discriminate | vm_compute; reflexivity].
  - apply Hu; [vm_compute; reflexivity |].
    intros Hn. apply (bool_decide_eq_true_2 _) in Hn. vm_compute in Hn. discriminate Hn.
Defined.

(** C6, as stated, fails for the empty name: with a buffer bound under it, the
    result is the pixels of the render target, not the contents of the
    buffer. *)
Lemma getData_empty_name_counterexample :
  ~ (forall (st : State) (name : string) (l : loc) (packed : bool),
       get_prop (at2 (currentIndex (this st)) (feedbackBuffers (this st))) name = VBuffer l ->
       getData sample_typeToChannelCount sample_readPixels sample_Buffer_getData 0%Z
               (Some name) packed st
       = (Ok (sample_Buffer_getData (gl st) l), st)).
Proof.
  intros H. specialize (H unnamed_texture_state "" 0 false).
  assert (E : (getData sample_typeToChannelCount sample_readPixels sample_Buffer_getData 0%Z
                       (Some "") false unnamed_texture_state).1
              = Ok (sample_Buffer_getData (gl unnamed_texture_state) 0)).
  { rewrite H; [reflexivity | vm_compute; reflexivity]. }
  vm_compute in E. discriminate E.
Qed.

Lemma getData_reads_buffer_or_pixels_witness :
  getData sample_typeToChannelCount sample_readPixels sample_Buffer_getData 0%Z
          (Some "nextPos") false wrapper_state
  = (Ok (sample_Buffer_getData (gl wrapper_state) 1), wrapper_state)
  /\ exists packedPixels,
       getData sample_typeToChannelCount sample_readPixels sample_Buffer_getData 0%Z
               None true texture_state
       = (Ok packedPixels, texture_state)
       /\ length packedPixels
          = length (readPixelsToArray sample_readPixels (gl texture_state) 0) * 2 / 4
       /\ packedPixels
          = concat ((fun p => take 2 (channels p)) <$> sample_readPixels (gl texture_state) 0).
Proof.
  split.
  - destruct (getData_reads_buffer_or_pixels sample_typeToChannelCount sample_readPixels
                sample_Buffer_getData 0%Z wrapper_state (Some "nextPos") false) as [Hb _].
    apply (Hb "nextPos" 1); [reflexivity | discriminate | right; vm_compute; reflexivity].
  - destruct (getData_reads_buffer_or_pixels sample_typeToChannelCount sample_readPixels
                sample_Buffer_getData 0%Z texture_state None true) as [_ Hp].
    destruct (Hp I) as [_ Hpix].
    destruct (Hpix (or_introl eq_refl) 0) as [_ Hpacked]; [vm_compute; reflexivity |].
    apply Hpacked; [reflexivity | vm_compute; reflexivity | lia].
Defined.

Lemma sample_state_configured :
  configured sample_updateForTextures sample_getSizeUniforms sample_gl sample_state.
Proof. apply configured_new with (props := sample_props). vm_compute. reflexivity. Qed.

(** C1, as stated, fails when two sources are mapped to one destination: the
    other generation's feedback buffer [c] is the source buffer [b], not the
    source buffer [a], although [a -> c] is a pair of the feedback map. *)
Lemma fanin_feedback_map_counterexample :
  ~ (forall (st : State) (entries : list (string * string)) (srcName dstName : string),
       configured sample_updateForTextures sample_getSizeUniforms sample_gl st ->
       feedbackMap (this st) = Some entries ->
       (srcName, dstName) ∈ entries ->
       Some dstName <> targetTextureVarying (this st) ->
       get_prop (at2 ((currentIndex (this st) + 1) mod 2) (feedbackBuffers (this st))) dstName
       = get_prop (at2 (currentIndex (this st)) (sourceBuffers (this st))) srcName).
Proof.
  intros H.
  specialize (H fanin_state [("a", "c"); ("b", "c")] "a" "c").
  assert (E : get_prop (at2 ((currentIndex (this fanin_state) + 1) mod 2)
                            (feedbackBuffers (this fanin_state))) "c"
              = get_prop (at2 (currentIndex (this fanin_state))
                              (sourceBuffers (this fanin_state))) "a").
  { apply H.
    - apply configured_new with (props := fanin_props). vm_compute. reflexivity.
    - vm_compute. reflexivity.
    - left.
    - vm_compute. discriminate. }
  vm_compute in E. discriminate E.
Qed.

Lemma feedback_pairs_alias_across_generations_witness :
  let t := this sample_state in
  get_prop (at2 1 (sourceBuffers t)) "pos" = get_prop (at2 0 (feedbackBuffers t)) "nextPos"
  /\ instanceof_Buffer (get_prop (at2 0 (sourceBuffers t)) "pos") = true
  /\ get_prop (at2 1 (feedbackBuffers t)) "nextPos" = get_prop (at2 0 (sourceBuffers t)) "pos"
  /\ exists st',
       swap sample_state = (Ok tt, st')
       /\ currentIndex (this st') = 1
       /\ get_prop (at2 (currentIndex (this st')) (sourceBuffers (this st'))) "pos"
          = get_prop (at2 0 (feedbackBuffers t)) "nextPos"
       /\ get_prop (at2 (currentIndex (this st')) (feedbackBuffers (this st'))) "nextPos"
          = get_prop (at2 0 (sourceBuffers t)) "pos".
Proof.
  assert (Hone : forall other, (other, "nextPos") ∈ [("pos", "nextPos")] -> other = "pos").
  { intros other Hin. apply list_elem_of_singleton in Hin. congruence. }
  destruct (feedback_pairs_alias_across_generations sample_updateForTextures
              sample_getSizeUniforms sample_gl sample_state [("pos", "nextPos")] "pos" "nextPos")
    as (H1 & H2 & H3 & st' & H4 & H5 & H6 & H7).
  - apply configured_new with (props := sample_props). vm_compute. reflexivity.
  - vm_compute. reflexivity.
  - apply NoDup_cons. split; [apply not_elem_of_nil | apply NoDup_nil_2].
  - left.
  - vm_compute. discriminate.
  - cbv zeta. split; [exact H1 |]. split; [exact H2 |]. split; [exact (H3 Hone) |].
    exists st'. split; [exact H4 |]. split; [exact H5 |]. split; [exact H6 | exact (H7 Hone)].
Defined.

Lemma texture_state_reachable :
  reachable sample_updateForTextures sample_getSizeUniforms sample_gl texture_state.
Proof. apply reachable_new with (props := texture_props). vm_compute. reflexivity. Qed.

Lemma run_routes_output_witness :
  exists f attributes uniforms parameters,
    gl_framebuffers (gl texture_state) !! 0 = Some f
    /\ parameters !! "viewport" = Some [0; 0; fb_width f; fb_height f]
    /\ gl_calls (gl (run sample_getSizeUniforms RunOpts.empty texture_state).2)
       = (gl_calls (gl texture_state)
          ++ [Framebuffer_clear 0]
          ++ [Model_setAttributes attributes;
              Model_transform
                (mkTransformOpts
                   (at2 (currentIndex (this texture_state))
                        (transformFeedbacks (this texture_state)))
                   uniforms false (Some 0) parameters)])%list.
Proof.
  destruct (run_routes_output sample_updateForTextures sample_getSizeUniforms sample_gl
              texture_state RunOpts.empty
              (run sample_getSizeUniforms RunOpts.empty texture_state).1
              (run sample_getSizeUniforms RunOpts.empty texture_state).2)
    as (_ & Hrender & _).
  - apply reachable_new with (props := texture_props). vm_compute. reflexivity.
  - apply surjective_pairing.
  - assert (Hr : renderingToTexture (this texture_state) = true) by (vm_compute; reflexivity).
    specialize (Hrender Hr).
    assert (Hfb : getFramebuffer (this texture_state) = Some 0) by (vm_compute; reflexivity).
    rewrite Hfb in Hrender. apply Hrender. vm_compute. reflexivity.
Defined.

Lemma swap_texture_exchanges_source_and_target_witness :
  let t := this pingpong_state in
  get_prop (at2 1 (sourceTextures t)) "tex" = at2 0 (targetTextures t)
  /\ at2 1 (targetTextures t) = get_prop (at2 0 (sourceTextures t)) "tex"
  /\ forall opts o st1,
       run sample_getSizeUniforms opts pingpong_state = (o, st1) ->
       exists st2,
         swap st1 = (Ok tt, st2)
         /\ currentIndex (this st2) = 1
         /\ get_prop (at2 (currentIndex (this st2)) (sourceTextures (this st2))) "tex"
            = at2 0 (targetTextures t)
         /\ at2 (currentIndex (this st2)) (targetTextures (this st2))
            = get_prop (at2 0 (sourceTextures t)) "tex".
Proof.
  apply (swap_texture_exchanges_source_and_target sample_updateForTextures
           sample_getSizeUniforms sample_gl pingpong_state "tex").
  - apply configured_new with (props := pingpong_props). vm_compute. reflexivity.
  - vm_compute. reflexivity.
  - discriminate.
  - vm_compute. reflexivity.
Defined.










(** * Construction and validation *)

(** A loop of checks that leave the state alone returns if every check does and
    otherwise throws what the first failing check throws, in the state it
    started from. *)
Lemma for_each_checks {A} (xs : list A) (check : A -> M unit) (ok : A -> bool) st :
  (forall x st, ok x = true -> check x st = (Ok tt, st)) ->
  (forall x st, ok x = false -> exists e, check x st = (Throw e, st)) ->
  if forallb ok xs then for_each xs check st = (Ok tt, st)
  else exists e, for_each xs check st = (Throw e, st).
Proof.
  intros Hok Hbad. induction xs as [|x xs IH]; [reflexivity |].
  cbn [forallb for_each]. unfold mbind, M_bind. destruct (ok x) eqn:E.
  - rewrite (Hok x st E). exact IH.
  - destruct (Hbad x st E) as [e ->]. cbn. eauto.
Qed.

Lemma forallb_false_elem {A} (ok : A -> bool) xs x :
  x ∈ xs -> ok x = false -> forallb ok xs = false.
Proof.
  intros Hx Hb. destruct (forallb ok xs) eqn:E; [| reflexivity].
  rewrite forallb_forall in E. rewrite (E x) in Hb; [discriminate |]. now apply list_elem_of_In.
Qed.

Lemma check_feedbackBuffer_accepts x st :
  accepted_feedbackBuffer x = true -> check_feedbackBuffer x st = (Ok tt, st).
Proof. destruct x as [| | | |[]|]; cbn; intros H; try discriminate; reflexivity. Qed.

Lemma check_feedbackBuffer_rejects x st :
  accepted_feedbackBuffer x = false -> exists e, check_feedbackBuffer x st = (Throw e, st).
Proof. destruct x as [| | | |[]|]; cbn; intros H; try discriminate; eauto. Qed.

Section Construction.

Context (updateForTextures :
           string -> table -> option string -> value -> option string * gmap string string)
        (getSizeUniforms :
           list Texture2D -> table -> option string -> value -> gmap string Uniform).

Local Abbreviation reachable' := (reachable updateForTextures getSizeUniforms).
Local Abbreviation new_Transform' := (new_Transform updateForTextures).

(** X1: an instance is built only on a supported (WebGL2) device and with a
    vertex shader: without either, [new Transform] throws an assertion error
    and nothing has been created on the device; when it returns, the instance
    is sealed. *)
Theorem constructor_requires_support_and_shader g props :
  (isSupported g = false \/ truthy_str (Props.vs props) = false ->
   new_Transform' g props = (Throw AssertionError, mkState initial g))
  /\ (forall st, new_Transform' g props = (Ok tt, st) ->
                 isSupported g = true /\ truthy_str (Props.vs props) = true
                 /\ sealed (this st) = true).
Proof.
  unfold isSupported, new_Transform, constructor, _initialize. split.
  - unfold mbind, M_bind, get_gl, assert, modify_this, throw, mret, M_ret. cbn [this gl].
    intros [H | H].
    + now rewrite H.
    + destruct (webgl2 g); [| reflexivity]. now rewrite H.
  - intros st H.
    split_bind H as H0 s0. injection H0 as <- <-.
    split_bind H as H1 s1. unfold assert in H1. destruct (webgl2 g); [| discriminate].
    injection H1 as <-.
    split_bind H as H2 s2. injection H2 as <-.
    split_bind H as H3 s3. injection H as <-.
    split_bind H3 as H4 s4. unfold assert in H4.
    destruct (truthy_str (Props.vs props)); [| discriminate]. auto.
Qed.

(** ** Validation of the given buffers *)

Lemma _deduceBufferProps_run props st :
  if forallb (fun '(name, x) => accepted_feedbackBuffer x)
             (map_to_list (default ∅ (given_feedbackBuffers props)))
  then _deduceBufferProps props st
       = (Ok (Props.sourceBuffers props, given_feedbackBuffers props,
              or_else (Props.feedbackMap props) (Props.sourceDestinationMap props)), st)
  else exists e, _deduceBufferProps props st = (Throw e, st).
Proof.
  unfold _deduceBufferProps.
  replace (match Props.destinationBuffers props with
           | Some _ => or_else (Props.feedbackBuffers props) (Props.destinationBuffers props)
           | None => Props.feedbackBuffers props
           end) with (given_feedbackBuffers props)
    by (unfold given_feedbackBuffers, or_else;
        destruct (Props.destinationBuffers props), (Props.feedbackBuffers props); reflexivity).
  replace (match Props.sourceDestinationMap props with
           | Some _ => or_else (Props.feedbackMap props) (Props.sourceDestinationMap props)
           | None => Props.feedbackMap props
           end) with (or_else (Props.feedbackMap props) (Props.sourceDestinationMap props))
    by (unfold or_else;
        destruct (Props.sourceDestinationMap props), (Props.feedbackMap props); reflexivity).
  pose proof (for_each_checks (map_to_list (default ∅ (given_feedbackBuffers props)))
                (fun '(bufferName, x) => check_feedbackBuffer x)
                (fun '(name, x) => accepted_feedbackBuffer x) st) as H.
  unfold mbind at 1, M_bind at 1.
  destruct (for_each _ _ st) as [o s] eqn:E.
  destruct (forallb _ _).
  - assert (X : (o, s) = (Ok tt, st)).
    { apply H.
      - intros [n x] s'. apply check_feedbackBuffer_accepts.
      - intros [n x] s'. apply check_feedbackBuffer_rejects. }
    injection X as -> ->. reflexivity.
  - assert (X : exists e, (o, s) = (Throw e, st)).
    { apply H.
      - intros [n x] s'. apply check_feedbackBuffer_accepts.
      - intros [n x] s'. apply check_feedbackBuffer_rejects. }
    destruct X as [e [= -> ->]]. exists e. unfold mbind, M_bind. now rewrite E.
Qed.

(** X2: the feedback buffers given to a configuration call are checked before
    anything is bound.  If one of them is neither a buffer nor an object whose
    [buffer] is one, [_setupBuffers] throws and leaves the instance and the
    device exactly as they were, and so does [update] when it is given no
    element count. *)
Theorem invalid_feedback_buffer_rejected_before_binding props given name x st :
  given_feedbackBuffers props = Some given ->
  given !! name = Some x ->
  accepted_feedbackBuffer x = false ->
  (exists e, _setupBuffers props st = (Throw e, st))
  /\ (Props.elementCount props = None -> exists e, update props st = (Throw e, st)).
Proof.
  intros Hg Hx Hbad.
  assert (H : exists e, _setupBuffers props st = (Throw e, st)).
  { pose proof (_deduceBufferProps_run props st) as H. rewrite Hg in H. cbn [default] in H.
    rewrite (forallb_false_elem _ _ (name, x)) in H;
      [| now apply elem_of_map_to_list | exact Hbad].
    destruct H as [e H]. exists e.
    unfold _setupBuffers. unfold mbind at 1, M_bind at 1, get_this. cbn [this gl fst snd].
    unfold mbind at 1, M_bind at 1. now rewrite H. }
  split; [exact H |]. intros Hc. destruct H as [e H]. exists e.
  unfold update, _setElementCount. rewrite Hc.
  unfold mbind at 1, M_bind at 1, mret at 1, M_ret at 1.
  unfold mbind at 1, M_bind at 1. now rewrite H.
Qed.

(** ** Validation of the given textures *)

Lemma for_each_asserts (given : table) st :
  if forallb (fun '(name, x) => instanceof_Texture2D x) (map_to_list given)
  then for_each (map_to_list given) (fun '(textureName, x) => assert (instanceof_Texture2D x)) st
       = (Ok tt, st)
  else for_each (map_to_list given) (fun '(textureName, x) => assert (instanceof_Texture2D x)) st
       = (Throw AssertionError, st).
Proof.
  induction (map_to_list given) as [|[n x] xs IH]; [reflexivity |].
  cbn [forallb for_each]. unfold mbind, M_bind, assert.
  destruct (instanceof_Texture2D x); cbn; [exact IH | reflexivity].
Qed.

(** X3: the source textures given to a configuration call are checked before
    any of them is bound.  If one of them is not a 2D texture, [_setupTextures]
    throws and has bound no texture, created nothing and left the device as it
    was: at most the swap-texture name has been stored; the error is the failed
    assertion, unless storing the swap-texture name on a sealed instance that
    has none was refused first. *)
Theorem invalid_source_texture_rejected_before_binding props given name x st :
  Props._sourceTextures props = Some given ->
  given !! name = Some x ->
  instanceof_Texture2D x = false ->
  _setupTextures props st
  = if truthy_str (Props._swapTexture props)
    then if sealed (this st) && bool_decide (_swapTexture (this st) = None)
         then (Throw TypeError, st)
         else (Throw AssertionError,
               mkState (set_swapTexture (Props._swapTexture props) (this st)) (gl st))
    else (Throw AssertionError, st).
Proof.
  intros Hg Hx Hbad. unfold _setupTextures. rewrite Hg. cbn [default].
  unfold mbind at 1, M_bind at 1, get_this. cbn [this gl fst snd].
  unfold mbind at 1, M_bind at 1.
  pose proof (for_each_asserts given) as H.
  rewrite (forallb_false_elem _ _ (name, x)) in H; [| now apply elem_of_map_to_list | exact Hbad].
  unfold when. destruct (truthy_str (Props._swapTexture props)).
  - destruct (sealed (this st) && bool_decide (_swapTexture (this st) = None)).
    + reflexivity.
    + unfold modify_this at 1. unfold mbind at 1, M_bind at 1. now rewrite H.
  - unfold mret at 1, M_ret at 1. unfold mbind at 1, M_bind at 1. now rewrite H.
Qed.

(** ** The deprecated names *)

Lemma _deduceBufferProps_current_names props :
  _deduceBufferProps (current_names props) = _deduceBufferProps props.
Proof.
  unfold _deduceBufferProps, current_names, or_else. cbn.
  destruct (Props.destinationBuffers props), (Props.sourceDestinationMap props),
    (Props.feedbackBuffers props), (Props.feedbackMap props); reflexivity.
Qed.

(** X4: in [_setupBuffers] and in [update], [destinationBuffers] and
    [sourceDestinationMap] are other names of [feedbackBuffers] and
    [feedbackMap]: a call that gives them behaves as the call that gives the
    same values under the current names, and where both names are given the
    current one is used. *)
Theorem deprecated_names_are_aliases props st :
  _setupBuffers props st = _setupBuffers (current_names props) st
  /\ update props st = update (current_names props) st.
Proof.
  assert (H : _setupBuffers props = _setupBuffers (current_names props))
    by (unfold _setupBuffers; now rewrite _deduceBufferProps_current_names).
  split; [now rewrite H |]. unfold update. now rewrite H.
Qed.

(** ** What is fixed when the instance is built *)

Lemma exec_construction_view op :
  pres (unchanged construction_view) (exec getSizeUniforms op).
Proof. destruct op; cbn [exec]; unfold swap; pres_auto ltac:(reflexivity). Qed.

(** X5: no method changes what the construction has decided: the
    texture-output varying, whether the instance renders to a texture, the
    varyings, the sampler of each source texture, the type of the texture
    output, and that the instance is sealed. *)
Theorem construction_settings_never_change op st o st' :
  exec getSizeUniforms op st = (o, st') ->
  construction_view st' = construction_view st.
Proof. apply exec_construction_view. Qed.

Lemma reachable_sealed g0 st : reachable' g0 st -> sealed (this st) = true.
Proof.
  induction 1 as [props st H | st op o st' _ IH H].
  - destruct (new_Transform_Ok _ _ _ _ H) as (s1 & s2 & s3 & s4 & _ & _ & _ & _ & _ & ->).
    reflexivity.
  - pose proof (exec_construction_view _ _ _ _ H) as E. unfold unchanged, construction_view in E.
    injection E as _ _ _ _ _ E. congruence.
Qed.

Lemma sealed_without_swapTexture_kept {A} (m : M A) st o st' :
  m st = (o, st') ->
  pres (unchanged (fun st => (sealed (this st), _swapTexture (this st)))) m ->
  sealed_without_swapTexture st -> sealed_without_swapTexture st'.
Proof.
  intros H K [J1 J2]. specialize (K _ _ _ H). unfold unchanged in K.
  injection K as K1 K2. split; congruence.
Qed.

Lemma _setupTextures_refuses_swapTexture opts st :
  sealed (this st) = true -> _swapTexture (this st) = None ->
  truthy_str (Props._swapTexture opts) = true ->
  _setupTextures opts st = (Throw TypeError, st).
Proof.
  intros Hs Hn Ht. unfold _setupTextures.
  unfold mbind at 1, M_bind at 1, get_this. cbn [this gl fst snd].
  unfold mbind at 1, M_bind at 1. rewrite Ht, Hs, Hn. reflexivity.
Qed.

(** X6: the swap texture can be named only when the instance is built.  On an
    instance built without one, a configuration call that names a swap texture
    is refused with a type error, because the instance is sealed:
    [_setupTextures] throws it without changing anything, and [update] never
    returns and leaves the instance without a swap texture. *)
Theorem swap_texture_only_at_construction g0 st opts :
  reachable' g0 st ->
  _swapTexture (this st) = None ->
  truthy_str (Props._swapTexture opts) = true ->
  _setupTextures opts st = (Throw TypeError, st)
  /\ forall o st', update opts st = (o, st') ->
                   (exists e, o = Throw e) /\ _swapTexture (this st') = None.
Proof.
  intros Hr Hn Ht. pose proof (reachable_sealed _ _ Hr) as Hs.
  split; [now apply _setupTextures_refuses_swapTexture |].
  intros o st' H. unfold update in H.
  assert (K0 : sealed_without_swapTexture st) by (split; assumption).
  destruct (_setElementCount opts st) as [[[]|e1] s1] eqn:E1;
    unfold mbind at 1, M_bind at 1 in H; rewrite E1 in H;
    apply (sealed_without_swapTexture_kept _ _ _ _ E1) in K0; [| pres_auto ltac:(reflexivity) ..].
  2:{ injection H as <- <-. split; [eauto | apply K0]. }
  destruct (_setupBuffers opts s1) as [[[]|e2] s2] eqn:E2;
    unfold mbind at 1, M_bind at 1 in H; rewrite E2 in H;
    apply (sealed_without_swapTexture_kept _ _ _ _ E2) in K0; [| pres_auto ltac:(reflexivity) ..].
  2:{ injection H as <- <-. split; [eauto | apply K0]. }
  destruct (_setupTransformFeedback s2) as [[[]|e3] s3] eqn:E3;
    unfold mbind at 1, M_bind at 1 in H; rewrite E3 in H;
    apply (sealed_without_swapTexture_kept _ _ _ _ E3) in K0; [| pres_auto ltac:(reflexivity) ..].
  2:{ injection H as <- <-. split; [eauto | apply K0]. }
  destruct K0 as [K K'].
  rewrite (_setupTextures_refuses_swapTexture opts s3 K K' Ht) in H.
  injection H as <- <-. split; [eauto | exact K'].
Qed.

End Construction.

(** * Disposal *)

Lemma for_each_fmap {A B} (f : A -> B) (xs : list A) (body : B -> M unit) :
  for_each (f <$> xs) body = for_each xs (fun x => body (f x)).
Proof. induction xs as [|x xs IH]; [reflexivity |]. rewrite fmap_cons. cbn. now rewrite IH. Qed.

Lemma mark_buffer_deleted_twice b :
  mark_buffer_deleted (mark_buffer_deleted b) = mark_buffer_deleted b.
Proof. reflexivity. Qed.

(** What the loop of [delete] does to the device: it marks the buffers and
    textures of the list and leaves everything else. *)
Lemma delete_loop (vs : list value) st :
  (forall v, v ∈ vs -> in_store (gl st) v) ->
  exists g',
    for_each vs Resource_delete st = (Ok tt, mkState (this st) g')
    /\ (forall l, gl_buffers g' !! l
                  = if decide (VBuffer l ∈ vs)
                    then mark_buffer_deleted <$> gl_buffers (gl st) !! l
                    else gl_buffers (gl st) !! l)
    /\ (forall l, gl_textures g' !! l
                  = if decide (VTexture2D l ∈ vs)
                    then mark_texture_deleted <$> gl_textures (gl st) !! l
                    else gl_textures (gl st) !! l)
    /\ (webgl2 g', gl_framebuffers g', gl_transformFeedbacks g', gl_calls g')
       = (webgl2 (gl st), gl_framebuffers (gl st), gl_transformFeedbacks (gl st),
          gl_calls (gl st)).
Proof.
  revert st. induction vs as [|v vs IH]; intros st Hin.
  - exists (gl st). cbn. destruct st. repeat split; intros l; now rewrite decide_False by set_solver.
  - assert (Hv : in_store (gl st) v) by (apply Hin; left).
    cbn [for_each]. unfold mbind, M_bind.
    destruct v as [| |l0|l0| |]; try contradiction; cbn [Resource_delete modify_gl this gl].
    + destruct (IH (mkState (this st)
                      (set_gl_buffers (alter mark_buffer_deleted l0 (gl_buffers (gl st))) (gl st))))
        as (g' & Hrun & Hb & Ht & Hf).
      { intros v Hv'. specialize (Hin v (list_elem_of_further _ _ _ Hv')).
        destruct v; cbn in *; try contradiction; [now rewrite length_alter | exact Hin]. }
      exists g'. cbn [this gl] in *. split; [exact Hrun |]. split; [| split; [| exact Hf]].
      * intros l. rewrite Hb. cbn [gl_buffers set_gl_buffers].
        destruct (decide (l0 = l)) as [-> | Hne].
        -- rewrite list_lookup_alter_eq. rewrite (decide_True (P := VBuffer l ∈ VBuffer l :: vs))
             by (left).
           destruct (decide (VBuffer l ∈ vs)); [| reflexivity].
           now destruct (gl_buffers (gl st) !! l).
        -- rewrite list_lookup_alter_ne by exact Hne.
           destruct (decide (VBuffer l ∈ vs)) as [Hl | Hl].
           ++ now rewrite decide_True by (now right).
           ++ rewrite decide_False; [reflexivity |].
              intros [E | E]%elem_of_cons; [congruence | contradiction].
      * intros l. rewrite Ht. cbn [gl_textures set_gl_buffers].
        destruct (decide (VTexture2D l ∈ vs)) as [Hl | Hl].
        -- now rewrite decide_True by (now right).
        -- rewrite decide_False; [reflexivity |].
           intros [E | E]%elem_of_cons; [discriminate | contradiction].
    + destruct (IH (mkState (this st)
                      (set_gl_textures (alter mark_texture_deleted l0 (gl_textures (gl st)))
                                       (gl st))))
        as (g' & Hrun & Hb & Ht & Hf).
      { intros v Hv'. specialize (Hin v (list_elem_of_further _ _ _ Hv')).
        destruct v; cbn in *; try contradiction; [exact Hin | now rewrite length_alter]. }
      exists g'. cbn [this gl] in *. split; [exact Hrun |]. split; [| split; [| exact Hf]].
      * intros l. rewrite Hb. cbn [gl_buffers set_gl_textures].
        destruct (decide (VBuffer l ∈ vs)) as [Hl | Hl].
        -- now rewrite decide_True by (now right).
        -- rewrite decide_False; [reflexivity |].
           intros [E | E]%elem_of_cons; [discriminate | contradiction].
      * intros l. rewrite Ht. cbn [gl_textures set_gl_textures].
        destruct (decide (l0 = l)) as [-> | Hne].
        -- rewrite list_lookup_alter_eq.
           rewrite (decide_True (P := VTexture2D l ∈ VTexture2D l :: vs)) by (left).
           destruct (decide (VTexture2D l ∈ vs)); [| reflexivity].
           now destruct (gl_textures (gl st) !! l).
        -- rewrite list_lookup_alter_ne by exact Hne.
           destruct (decide (VTexture2D l ∈ vs)) as [Hl | Hl].
           ++ now rewrite decide_True by (now right).
           ++ rewrite decide_False; [reflexivity |].
              intros [E | E]%elem_of_cons; [congruence | contradiction].
Qed.

Lemma for_each_ext {A} (xs : list A) (f g : A -> M unit) :
  (forall x, f x = g x) -> for_each xs f = for_each xs g.
Proof. intros H. induction xs as [|x xs IH]; [reflexivity |]. cbn. now rewrite H, IH. Qed.

Lemma elem_of_registry (t : Transform) v :
  v ∈ (map_to_list (resources t)).*2 <-> registered t v.
Proof.
  unfold registered. rewrite list_elem_of_fmap. split.
  - intros ([name v'] & -> & H). exists name. now apply elem_of_map_to_list in H.
  - intros (name & H). exists (name, v). split; [reflexivity |]. now apply elem_of_map_to_list.
Qed.

Section Disposal.

Context (updateForTextures :
           string -> table -> option string -> value -> option string * gmap string string)
        (getSizeUniforms :
           list Texture2D -> table -> option string -> value -> gmap string Uniform).

Local Abbreviation reachable' := (reachable updateForTextures getSizeUniforms).

(** X7: on every instance, [delete] returns; it destroys every buffer and
    texture of the resource registry and the model, and nothing else: the
    buffers and textures that are not in the registry, the framebuffers and the
    transform-feedback objects are as they were, and of the instance only the
    model has changed. *)
Theorem delete_destroys_what_is_registered g0 st :
  reachable' g0 st ->
  exists st' m,
    delete st = (Ok tt, st')
    /\ model (this st) = Some m
    /\ this st' = set_model (Some (mkModel (vertexCount m) true)) (this st)
    /\ (forall name v, resources (this st) !! name = Some v -> is_deleted (gl st') v)
    /\ (forall l, ~ registered (this st) (VBuffer l) ->
                  gl_buffers (gl st') !! l = gl_buffers (gl st) !! l)
    /\ (forall l, ~ registered (this st) (VTexture2D l) ->
                  gl_textures (gl st') !! l = gl_textures (gl st) !! l)
    /\ gl_framebuffers (gl st') = gl_framebuffers (gl st)
    /\ gl_transformFeedbacks (gl st') = gl_transformFeedbacks (gl st)
    /\ gl_calls (gl st') = gl_calls (gl st).
Proof.
  intros Hr.
  pose proof (reachable_registry _ _ _ _ Hr) as J1.
  pose proof (reachable_model _ _ _ _ Hr) as Jm. unfold model_built in Jm.
  destruct (model (this st)) as [m|] eqn:Hm; [clear Jm | contradiction].
  destruct (delete_loop (map_to_list (resources (this st))).*2 st)
    as (g' & Hrun & Hb & Ht & Hf).
  { intros v Hv. apply elem_of_registry in Hv as (name & Hv). exact (J1 _ _ Hv). }
  rewrite for_each_fmap in Hrun.
  rewrite (for_each_ext _ _ (fun '(name, resource) => Resource_delete resource)) in Hrun
    by (intros [n r]; reflexivity).
  exists (mkState (set_model (Some (mkModel (vertexCount m) true)) (this st)) g'), m.
  injection Hf as _ Hf1 Hf2 Hf3.
  split; [| split; [reflexivity | split; [reflexivity | cbn [this gl]]]].
  - unfold delete. unfold mbind at 1, M_bind at 1, get_this. cbn [this gl fst snd].
    unfold mbind at 1, M_bind at 1. rewrite Hrun.
    unfold with_model. unfold mbind, M_bind, get_this, modify_this. cbn [this gl fst snd].
    now rewrite Hm.
  - split; [| split; [| split; [| auto]]].
    + intros name v Hv. pose proof (J1 _ _ Hv) as Hin.
      assert (Hreg : v ∈ (map_to_list (resources (this st))).*2)
        by (apply elem_of_registry; now exists name).
      destruct v as [| |l|l| |]; cbn in Hin; try contradiction; cbn.
      * rewrite Hb, decide_True by exact Hreg.
        destruct (lookup_lt_is_Some_2 _ _ Hin) as [b ->]. cbn. eauto.
      * rewrite Ht, decide_True by exact Hreg.
        destruct (lookup_lt_is_Some_2 _ _ Hin) as [x ->]. cbn. eauto.
    + intros l Hl. rewrite Hb, decide_False; [reflexivity |]. now rewrite elem_of_registry.
    + intros l Hl. rewrite Ht, decide_False; [reflexivity |]. now rewrite elem_of_registry.
Qed.

End Disposal.

(** * Borrowed resources *)

Lemma same_but_filtering_refl x : same_but_filtering x x.
Proof. unfold same_but_filtering. auto. Qed.

Lemma same_but_filtering_trans x y z :
  same_but_filtering x y -> same_but_filtering y z -> same_but_filtering x z.
Proof.
  unfold same_but_filtering. intros (A1 & A2 & A3 & A4 & A5) (B1 & B2 & B3 & B4 & B5).
  repeat split; try congruence. intros k Hk. now rewrite B5, A5.
Qed.

Lemma borrowed_length g0 st :
  borrowed_ok g0 st ->
  length (gl_buffers g0) <= length (gl_buffers (gl st))
  /\ length (gl_textures g0) <= length (gl_textures (gl st)).
Proof.
  intros (_ & _ & Hb & Ht). split.
  - destruct (decide (length (gl_buffers g0) <= length (gl_buffers (gl st)))) as [|Hn]; [auto |].
    destruct (lookup_lt_is_Some_2 (gl_buffers g0) (length (gl_buffers (gl st)))) as [b Hl];
      [lia |].
    apply Hb, lookup_lt_Some in Hl. lia.
  - destruct (decide (length (gl_textures g0) <= length (gl_textures (gl st)))) as [|Hn]; [auto |].
    destruct (lookup_lt_is_Some_2 (gl_textures g0) (length (gl_textures (gl st)))) as [b Hl];
      [lia |].
    apply Ht in Hl as (x' & Hl & _). apply lookup_lt_Some in Hl. lia.
Qed.

(** The state of the instance stays, the device changes. *)
Lemma borrowed_ok_gl g0 st g' :
  borrowed_ok g0 st ->
  (forall l b, gl_buffers g0 !! l = Some b -> gl_buffers (gl st) !! l = Some b ->
               gl_buffers g' !! l = Some b) ->
  (forall l x, l < length (gl_textures g0) -> gl_textures (gl st) !! l = Some x ->
               exists x', gl_textures g' !! l = Some x' /\ same_but_filtering x x') ->
  borrowed_ok g0 (mkState (this st) g').
Proof.
  intros (J1 & J2 & J3 & J4) Hb Ht. split; [exact J1 |]. split; [exact J2 |]. split.
  - intros l b Hl. cbn. eauto.
  - intros l x Hl. destruct (J4 l x Hl) as (x1 & H1 & H2).
    destruct (Ht l x1 (lookup_lt_Some _ _ _ Hl) H1) as (x2 & H3 & H4).
    exists x2. split; [exact H3 |]. eapply same_but_filtering_trans; eauto.
Qed.

Lemma Resource_delete_borrowed g0 v st o st' :
  created_since g0 v -> borrowed_ok g0 st ->
  Resource_delete v st = (o, st') -> borrowed_ok g0 st'.
Proof.
  intros Hc J H. destruct v as [| |l0|l0| |]; cbn in Hc; try contradiction;
    cbn in H; injection H as <- <-; apply borrowed_ok_gl; try exact J; cbn.
  - intros l b Hl Hl'. rewrite list_lookup_alter_ne; [exact Hl' |].
    apply lookup_lt_Some in Hl. lia.
  - intros l x _ Hl. eauto using same_but_filtering_refl.
  - intros l b _ Hl. exact Hl.
  - intros l x Hl Hl'. rewrite list_lookup_alter_ne by lia. eauto using same_but_filtering_refl.
Qed.

Lemma Buffer_setData_borrowed g0 v d st o st' :
  v = VNull \/ created_since g0 v -> borrowed_ok g0 st ->
  Buffer_setData v d st = (o, st') -> borrowed_ok g0 st'.
Proof.
  intros Hc J H. destruct v as [| |l0|l0| |]; cbn in H; injection H as <- <-; try exact J.
  destruct Hc as [Hc | Hc]; [discriminate |]. cbn in Hc.
  apply borrowed_ok_gl; try exact J; cbn.
  - intros l b Hl Hl'. rewrite list_lookup_alter_ne; [exact Hl' |].
    apply lookup_lt_Some in Hl. lia.
  - intros l x _ Hl. eauto using same_but_filtering_refl.
Qed.

Lemma new_Buffer_borrowed g0 opts : pres (keeps (borrowed_ok g0)) (new_Buffer opts).
Proof.
  intros st o st' H J. unfold new_Buffer, mbind, M_bind, get_gl, modify_gl in H. cbn in H.
  injection H as <- <-. apply borrowed_ok_gl; try exact J; cbn.
  - intros l b _ Hl. now apply lookup_app_l_Some.
  - intros l x _ Hl. eauto using same_but_filtering_refl.
Qed.

Lemma cloneTextureFrom_borrowed g0 v ps store :
  pres (keeps (borrowed_ok g0)) (cloneTextureFrom v ps store).
Proof.
  intros st o st' H J. unfold cloneTextureFrom in H.
  destruct v as [| |l0|l0| |]; try (injection H as <- <-; exact J).
  unfold mbind, M_bind, get_gl, modify_gl in H. cbn in H.
  destruct (gl_textures (gl st) !! l0); cbn in H; injection H as <- <-; [| exact J].
  apply borrowed_ok_gl; try exact J; cbn.
  - intros l b _ Hl. exact Hl.
  - intros l x _ Hl. exists x. split; [now apply lookup_app_l_Some | apply same_but_filtering_refl].
Qed.

Lemma Texture2D_setParameters_borrowed g0 v :
  pres (keeps (borrowed_ok g0)) (Texture2D_setParameters v SRC_TEX_PARAMETER_OVERRIDES).
Proof.
  intros st o st' H J. destruct v as [| |l0|l0| |]; cbn in H; injection H as <- <-; try exact J.
  apply borrowed_ok_gl; try exact J; cbn.
  - intros l b _ Hl. exact Hl.
  - intros l x _ Hl. destruct (decide (l0 = l)) as [-> | Hne].
    + rewrite list_lookup_alter_eq, Hl. cbn. eexists. split; [reflexivity |].
      unfold same_but_filtering. cbn. repeat split.
      intros k Hk. rewrite lookup_union_r by exact Hk. reflexivity.
    + rewrite list_lookup_alter_ne by exact Hne. eauto using same_but_filtering_refl.
Qed.

Lemma borrowed_ok_this g0 st f :
  resources (f (this st)) = resources (this st) ->
  elementIDBuffer (f (this st)) = elementIDBuffer (this st) ->
  borrowed_ok g0 st -> borrowed_ok g0 (mkState (f (this st)) (gl st)).
Proof.
  intros Hr He (J1 & J2 & J3 & J4). unfold borrowed_ok. cbn [this gl]. rewrite Hr, He. auto.
Qed.

Lemma register_borrowed g0 name v st o st' :
  created_since g0 v -> borrowed_ok g0 st ->
  register name v st = (o, st') -> borrowed_ok g0 st'.
Proof.
  intros Hc J H. unfold register in H.
  unfold mbind at 1, M_bind at 1, get_this in H. cbn [this gl fst snd] in H.
  unfold mbind, M_bind, modify_this in H.
  assert (K : forall s, when (truthy (get_prop (resources (this st)) name))
                          (Resource_delete (get_prop (resources (this st)) name)) st = s ->
                        borrowed_ok g0 s.2 /\ resources (this s.2) = resources (this st)
                        /\ elementIDBuffer (this s.2) = elementIDBuffer (this st)).
  { intros s <-. unfold when. destruct (truthy _) eqn:Ht; [| now cbn].
    destruct (Resource_delete _ st) as [o1 s1] eqn:Hd. cbn.
    destruct (get_prop_cases (resources (this st)) name) as [Hp | [_ [Hp | Hp]]].
    - destruct J as (J1 & J'). pose proof (J1 _ _ Hp) as Hc'.
      split; [eapply Resource_delete_borrowed; eauto; split; assumption |].
      destruct (Resource_delete_data _ _ _ _ Hd) as (-> & _). auto.
    - rewrite Hp in Ht. discriminate Ht.
    - rewrite Hp in Hd. cbn in Hd. injection Hd as <- <-. auto. }
  destruct (when _ _ st) as [[[]|e] s1] eqn:Hw; specialize (K _ eq_refl); cbn in K;
    destruct K as (K1 & K2 & K3); injection H as <- <-; [| exact K1].
  destruct K1 as (J1 & J2 & J3 & J4). split; [| split; [| split; assumption]].
  - cbn. intros n v' Hl. destruct (decide (name = n)) as [<- | Hne].
    + rewrite lookup_insert_eq in Hl. now injection Hl as <-.
    + rewrite lookup_insert_ne in Hl by exact Hne. eauto.
  - exact J2.
Qed.

Lemma _createNewBuffer_borrowed g0 name opts :
  pres (keeps (borrowed_ok g0)) (_createNewBuffer name opts).
Proof.
  intros st o st' H J. rewrite _createNewBuffer_register in H.
  unfold mbind at 1, M_bind at 1 in H.
  destruct (new_Buffer opts st) as [[buffer|e] s1] eqn:Hn.
  - pose proof (new_Buffer_borrowed g0 opts _ _ _ Hn J) as J1.
    assert (Hc : created_since g0 buffer).
    { unfold new_Buffer, mbind, M_bind, get_gl, modify_gl in Hn. cbn in Hn.
      injection Hn as <- _. cbn. now apply borrowed_length in J. }
    unfold mbind, M_bind in H.
    destruct (register name buffer s1) as [[[]|e] s2] eqn:Hr; injection H as <- <-;
      eapply register_borrowed; eauto.
  - injection H as <- <-. exact (new_Buffer_borrowed g0 opts _ _ _ Hn J).
Qed.

Ltac borrowed_tac :=
  let J := fresh "J" in
  intros J; first [ exact J | apply borrowed_ok_this; [reflexivity | reflexivity | exact J] ].

Lemma _buildTargetTexture_borrowed g0 textureOrAttribute index :
  pres (keeps (borrowed_ok g0)) (_buildTargetTexture textureOrAttribute index).
Proof.
  destruct textureOrAttribute as [l | name]; [pres_auto borrowed_tac |].
  intros st o st' H J. rewrite _buildTargetTexture_register in H. cbv zeta in H.
  unfold mbind at 1, M_bind at 1, get_this in H. cbn [this gl fst snd] in H.
  unfold mbind at 1, M_bind at 1, assert in H.
  destruct (truthy _); [| injection H as <- <-; exact J].
  unfold mret at 1, M_ret at 1 in H. unfold mbind at 1, M_bind at 1, modify_this in H.
  cbn [this gl fst snd] in H.
  assert (J0 : borrowed_ok g0 (mkState (set_targetRefTexName (Some name) (this st)) (gl st)))
    by (apply borrowed_ok_this; [reflexivity | reflexivity | exact J]).
  unfold mbind at 1, M_bind at 1 in H.
  destruct (cloneTextureFrom _ _ _ _) as [[texture|e] s1] eqn:Hn.
  - pose proof (cloneTextureFrom_borrowed g0 _ _ _ _ _ _ Hn J0) as J1.
    assert (Hc : created_since g0 texture).
    { unfold cloneTextureFrom in Hn.
      destruct (get_prop _ name) as [| | |l0| |]; try discriminate.
      unfold mbind, M_bind, get_gl, modify_gl in Hn. cbn in Hn.
      destruct (gl_textures (gl st) !! l0); cbn in Hn; [| discriminate].
      injection Hn as <- _. cbn. now apply borrowed_length in J. }
    unfold mbind, M_bind in H.
    destruct (register _ texture s1) as [[[]|e] s2] eqn:Hr; injection H as <- <-;
      eapply register_borrowed; eauto.
  - injection H as <- <-. exact (cloneTextureFrom_borrowed g0 _ _ _ _ _ _ Hn J0).
Qed.

Lemma _updateElementIDBuffer_borrowed g0 E :
  pres (keeps (borrowed_ok g0)) (_updateElementIDBuffer E).
Proof.
  intros st o st' H J. unfold _updateElementIDBuffer in H.
  unfold mbind at 1, M_bind at 1, get_this in H. cbn [this gl fst snd] in H.
  destruct (_ && _); [injection H as <- <-; exact J |].
  unfold mbind at 1, M_bind at 1 in H.
  destruct (new_Float32Array_cases E st) as [[_ Ha] | [_ Ha]]; rewrite Ha in H;
    [injection H as <- <-; exact J |].
  cbv zeta in H.
  destruct (negb (truthy (elementIDBuffer (this st)))).
  - unfold mbind, M_bind, modify_this in H.
    destruct (_createNewBuffer _ _ st) as [[buffer|e] s1] eqn:Hc;
      pose proof (_createNewBuffer_borrowed g0 _ _ _ _ _ Hc J) as J1;
      injection H as <- <-; [| exact J1].
    destruct (_createNewBuffer_data _ _ _ _ _ Hc) as (_ & Hnew).
    destruct (Hnew _ eq_refl) as (-> & _).
    destruct J1 as (K1 & K2 & K3 & K4). split; [exact K1 |]. split; [| split; assumption].
    right. cbn. now apply borrowed_length in J.
  - destruct J as (J1 & J2 & J3 & J4).
    eapply Buffer_setData_borrowed; [exact J2 | repeat split; eassumption | exact H].
Qed.

Lemma for_each_keeps {A} (I : State -> Prop) (xs : list A) (body : A -> M unit) st o st' :
  (forall s, I s -> forall x, x ∈ xs -> forall o' s', body x s = (o', s') -> I s') ->
  for_each xs body st = (o, st') -> I st -> I st'.
Proof.
  revert st. induction xs as [|x xs IH]; intros st Hb H J.
  - now injection H as <- <-.
  - cbn in H. unfold mbind, M_bind in H.
    destruct (body x st) as [[[]|e] s1] eqn:E.
    + eapply IH; [| exact H |].
      * intros s Hs y Hy. apply Hb; [exact Hs | now right].
      * eapply Hb; [exact J | left | exact E].
    + injection H as <- <-. eapply Hb; [exact J | left | exact E].
Qed.

Lemma delete_borrowed g0 : pres (keeps (borrowed_ok g0)) delete.
Proof.
  intros st o st' H J. unfold delete in H.
  unfold mbind at 1, M_bind at 1, get_this in H. cbn [this gl fst snd] in H.
  unfold mbind at 1, M_bind at 1 in H.
  destruct (for_each _ _ st) as [o1 s1] eqn:Hl.
  assert (J1 : borrowed_ok g0 s1 /\ forall n v, resources (this st) !! n = Some v ->
                                                 created_since g0 v).
  { refine (for_each_keeps
              (fun s => borrowed_ok g0 s
                        /\ forall n v, resources (this st) !! n = Some v -> created_since g0 v)
              _ _ _ _ _ _ Hl _).
    - intros s [Hs Hres] [n v] Hx o' s' Hd. split; [| exact Hres].
      apply elem_of_map_to_list in Hx. eapply Resource_delete_borrowed; eauto.
    - split; [exact J | apply J]. }
  destruct J1 as [J1 _]. destruct o1 as [[]|e]; [| injection H as <- <-; exact J1].
  assert (K : pres (keeps (borrowed_ok g0)) (with_model (fun m => mkModel (vertexCount m) true)))
    by pres_auto borrowed_tac.
  exact (K _ _ _ H J1).
Qed.

#[export] Hint Resolve new_Buffer_borrowed cloneTextureFrom_borrowed
  Texture2D_setParameters_borrowed _createNewBuffer_borrowed _buildTargetTexture_borrowed
  _updateElementIDBuffer_borrowed delete_borrowed : pres.

Section Borrowed.

Context (updateForTextures :
           string -> table -> option string -> value -> option string * gmap string string)
        (getSizeUniforms :
           list Texture2D -> table -> option string -> value -> gmap string Uniform).

Local Abbreviation reachable' := (reachable updateForTextures getSizeUniforms).

Lemma _initialize_borrowed g0 props :
  pres (keeps (borrowed_ok g0)) (_initialize updateForTextures props).
Proof. pres_auto borrowed_tac. Qed.

Lemma exec_borrowed g0 op : pres (keeps (borrowed_ok g0)) (exec getSizeUniforms op).
Proof. destruct op; cbn [exec]; unfold swap; pres_auto borrowed_tac. Qed.

Lemma initial_borrowed g0 : borrowed_ok g0 (mkState initial g0).
Proof.
  split; [intros n v; cbn; rewrite lookup_empty; discriminate |].
  split; [now left |]. split; [auto |].
  intros l x Hl. exists x. split; [exact Hl | apply same_but_filtering_refl].
Qed.

Lemma reachable_borrowed g0 st : reachable' g0 st -> borrowed_ok g0 st.
Proof.
  induction 1 as [props st H | st op o st' _ IH H].
  - unfold new_Transform, constructor in H.
    split_bind H as Hg st1. injection Hg as <- <-.
    split_bind H as Ha st2. unfold assert in Ha. destruct (webgl2 _); [| discriminate].
    injection Ha as <-.
    split_bind H as Hi st3. injection Hi as <-.
    split_bind H as Hi st4. injection H as <-.
    apply (borrowed_ok_this g0 st4 (set_sealed true) eq_refl eq_refl).
    eapply _initialize_borrowed; [exact Hi | apply initial_borrowed].
  - eapply exec_borrowed; eauto.
Qed.

(** X8: the methods of an instance never destroy, reallocate or fill from the
    CPU what the instance did not create.  In every state an instance built on
    the device [g0] can be in, after any sequence of [update], [run], [swap],
    [_updateTargetTexture] and [delete], returning or throwing, every buffer of
    [g0] has its byte length, usage, accessor, last upload from the CPU and
    deletion mark as they were, and every texture of [g0] has its size,
    pixel-store settings and deletion mark as they were: only the four
    filtering and wrapping parameters that [run] sets on its source textures
    can differ.  What the draws of [run] write on the device is not part of
    this: the wiring of [_setupSwapBuffers] makes a source buffer of the caller
    the capture target of the other generation. *)
Theorem borrowed_resources_survive g0 st :
  reachable' g0 st ->
  (forall l b, gl_buffers g0 !! l = Some b -> gl_buffers (gl st) !! l = Some b)
  /\ (forall l x, gl_textures g0 !! l = Some x ->
        exists x', gl_textures (gl st) !! l = Some x' /\ same_but_filtering x x').
Proof. intros Hr. apply reachable_borrowed in Hr as (_ & _ & Hb & Ht). auto. Qed.

End Borrowed.

(** * Framebuffers and transform-feedback objects *)

Lemma slots_ok_fill n0 len p i :
  slots_ok n0 len p -> at2 i p = None -> slots_ok n0 (S len) (set2 i (Some len) p).
Proof.
  intros (H1 & H2 & H3) Hn. destruct p as [a b].
  unfold slots_ok, slot_count in *. cbn in *.
  destruct i as [|i]; cbn in *; subst.
  - split; [destruct b; lia |]. split.
    + intros [|j] l; cbn; intros Hl.
      * injection Hl as <-. destruct b; lia.
      * specialize (H2 1 l Hl). lia.
    + intros l l' [= <-] Hb. specialize (H2 1 l' Hb). lia.
  - split; [destruct a; lia |]. split.
    + intros [|j] l; cbn; intros Hl.
      * specialize (H2 0 l Hl). lia.
      * injection Hl as <-. destruct a; lia.
    + intros l l' Ha [= <-]. specialize (H2 0 l Ha). lia.
Qed.

Lemma slots_ok_keep {A} (p : Array2 (option A)) i l :
  at2 i p = Some l -> set2 i (Some l) p = p.
Proof. destruct p as [a b], i; cbn; now intros ->. Qed.

Lemma slots_ok_other n0 len p i j l l' :
  slots_ok n0 len p -> at2 i p = Some l -> at2 j p = Some l' ->
  (i = 0 <-> j <> 0) -> l <> l'.
Proof.
  intros (_ & _ & H3) Hi Hj Hij. destruct p as [a b]. cbn in *.
  destruct i as [|i], j as [|j]; cbn in *; try (exfalso; lia || tauto).
  - eauto.
  - intros <-. eapply H3; eauto.
Qed.

(** ** One framebuffer slot *)

Lemma _setupFramebuffer_slot g0 index texture st o st' :
  (fb ← _setupFramebuffer (at2 index (framebuffers (this st))) texture index;
   modify_this (fun t => set_framebuffers (set2 index fb (framebuffers t)) t)) st = (o, st') ->
  device_objects_ok g0 st ->
  device_objects_ok g0 st'
  /\ but_framebuffers (gl st') = but_framebuffers (gl st)
  /\ match o with
     | Ok _ =>
         exists fb l x,
           texture = VTexture2D l
           /\ gl_textures (gl st) !! l = Some x
           /\ this st' = set_framebuffers (set2 index (Some fb) (framebuffers (this st))) (this st)
           /\ gl_framebuffers (gl st') !! fb
              = Some (mkFramebuffer (width x) (height x) texture)
           /\ (forall fb', fb' <> fb ->
                 gl_framebuffers (gl st') !! fb' = gl_framebuffers (gl st) !! fb')
           /\ (at2 index (framebuffers (this st)) = Some fb
               /\ length (gl_framebuffers (gl st')) = length (gl_framebuffers (gl st))
               \/ at2 index (framebuffers (this st)) = None
                  /\ fb = length (gl_framebuffers (gl st)))
     | Throw _ => st' = st
     end.
Proof.
  intros H J. unfold _setupFramebuffer, texture_size in H.
  destruct texture as [| | |l| |];
    try (cbn in H; injection H as <- <-; split; [exact J | split; reflexivity]).
  unfold mbind, M_bind, get_gl, modify_this, mret, M_ret, throw in H. cbn [this gl fst snd] in H.
  destruct (gl_textures (gl st) !! l) as [x|] eqn:Hx;
    [| injection H as <- <-; split; [exact J | split; reflexivity]].
  destruct J as [Jf Jt].
  destruct (at2 index (framebuffers (this st))) as [fb|] eqn:Hfb.
  - cbn in H. injection H as <- <-. cbn [this gl].
    pose proof (proj1 (proj2 Jf) _ _ Hfb) as Hlt.
    split; [| split; [reflexivity |]].
    + split; [| exact Jt]. cbn. rewrite length_alter, (slots_ok_keep _ _ _ Hfb). exact Jf.
    + exists fb, l, x. split; [reflexivity |]. split; [exact Hx |]. split; [reflexivity |].
      cbn. split; [| split].
      * rewrite list_lookup_alter_eq.
        destruct (lookup_lt_is_Some_2 (gl_framebuffers (gl st)) fb) as [f ->]; [lia | reflexivity].
      * intros fb' Hne. now rewrite list_lookup_alter_ne by congruence.
      * left. split; [reflexivity | apply length_alter].
  - cbn in H. injection H as <- <-. cbn [this gl].
    split; [| split; [reflexivity |]].
    + split; [| exact Jt]. cbn. rewrite length_app. cbn. rewrite Nat.add_1_r.
      now apply slots_ok_fill.
    + exists (length (gl_framebuffers (gl st))), l, x.
      split; [reflexivity |]. split; [exact Hx |]. split; [reflexivity |].
      cbn. split; [| split].
      * rewrite lookup_app_r, Nat.sub_diag by lia. reflexivity.
      * intros fb' Hne. destruct (decide (fb' < length (gl_framebuffers (gl st)))).
        -- now rewrite lookup_app_l by lia.
        -- rewrite !lookup_ge_None_2; [reflexivity | lia | rewrite length_app; cbn; lia].
      * right. split; reflexivity.
Qed.

Lemma but_framebuffers_textures g g' :
  but_framebuffers g' = but_framebuffers g -> gl_textures g' = gl_textures g.
Proof. unfold but_framebuffers. now intros [= _ _ -> _ _]. Qed.

Lemma next_slot_differs c : c < 2 -> (c = 0 <-> (c + 1) mod 2 <> 0).
Proof. intros H. destruct c as [|[|c]]; cbn; lia. Qed.

(** ** [_setupFramebuffers] *)

Lemma _setupFramebuffers_spec g0 st o st' :
  _setupFramebuffers st = (o, st') ->
  device_objects_ok g0 st ->
  currentIndex (this st) < 2 ->
  device_objects_ok g0 st'
  /\ but_framebuffers (gl st') = but_framebuffers (gl st)
  /\ this st' = set_framebuffers (framebuffers (this st')) (this st)
  /\ (renderingToTexture (this st) = true -> o = Ok tt ->
      renders_into (currentIndex (this st)) st'
      /\ (truthy_str (_swapTexture (this st)) = true ->
          renders_into ((currentIndex (this st) + 1) mod 2) st')).
Proof.
  intros H J Hc. unfold _setupFramebuffers in H.
  unfold mbind at 1, M_bind at 1, get_this in H. cbn [this gl fst snd] in H.
  destruct (renderingToTexture (this st)) eqn:Hr; cbn [negb] in H.
  2:{ injection H as <- <-. split; [exact J |]. split; [reflexivity |].
      split; [now destruct st as [[] ?] | discriminate]. }
  set (c := currentIndex (this st)) in *.
  change (@mbind M _ _ _ ?k (?m ≫= ?k')) with (m ≫= k';; k) in H.
  match type of H with
  | (?m ≫= ?k) st = _ =>
      assert (Hsplit : (m ≫= k) st
                = ((fb ← _setupFramebuffer (at2 c (framebuffers (this st)))
                           (at2 c (targetTextures (this st))) c;
                    modify_this (fun t => set_framebuffers (set2 c fb (framebuffers t)) t))
                   ≫= fun _ => t ← get_this;
                     when (truthy_str (_swapTexture t))
                       (fb ← _setupFramebuffer (at2 ((c + 1) mod 2) (framebuffers t))
                              (at2 ((c + 1) mod 2) (targetTextures t)) ((c + 1) mod 2);
                        modify_this (fun t => set_framebuffers
                                       (set2 ((c + 1) mod 2) fb (framebuffers t)) t))) st)
  end.
  { unfold mbind, M_bind.
    destruct (_setupFramebuffer _ _ c st) as [[fb|e] s]; [| reflexivity].
    reflexivity. }
  rewrite Hsplit in H. clear Hsplit.
  unfold mbind at 1, M_bind at 1 in H.
  match type of H with
  | (let (_, _) := ?m st in _) = _ => destruct (m st) as [[[]|e] s1] eqn:H1
  end.
  2:{ injection H as <- <-.
      destruct (_setupFramebuffer_slot g0 _ _ _ _ _ H1 J) as (J1 & G1 & ->).
      split; [exact J |]. split; [reflexivity |].
      split; [now destruct st as [[] ?] | discriminate]. }
  destruct (_setupFramebuffer_slot g0 _ _ _ _ _ H1 J)
    as (J1 & G1 & fb & l & x & Ht & Hx & Hthis & Hfb & Hothers & Hwhich).
  assert (R1 : renders_into c s1).
  { exists fb, l, x. rewrite Hthis. cbn. rewrite at2_set2.
    split; [reflexivity |]. split; [exact Ht |].
    split; [| rewrite <- Ht; exact Hfb]. now rewrite (but_framebuffers_textures _ _ G1). }
  unfold mbind at 1, M_bind at 1, get_this in H. cbn [this gl fst snd] in H.
  unfold when in H.
  assert (Hsw : _swapTexture (this s1) = _swapTexture (this st)) by now rewrite Hthis.
  rewrite Hsw in H.
  destruct (truthy_str (_swapTexture (this st))) eqn:Hswap.
  2:{ injection H as <- <-. split; [exact J1 |]. split; [exact G1 |].
      split; [rewrite Hthis; reflexivity |]. intros _ _. split; [exact R1 | discriminate]. }
  match type of H with
  | ?m s1 = _ => pose proof (_setupFramebuffer_slot g0 ((c + 1) mod 2) _ s1 o st' H J1) as K
  end.
  destruct K as (J2 & G2 & K).
  split; [exact J2 |]. split; [now rewrite G2 |].
  destruct o as [[]|e].
  - destruct K as (fb' & l' & x' & Ht' & Hx' & Hthis' & Hfb' & Hothers' & Hwhich').
    split; [rewrite Hthis', Hthis; reflexivity |]. intros _ _.
    assert (Hne : fb <> fb').
    { destruct Hwhich' as [[Hold _] | [Hnone ->]].
      - apply (slots_ok_other _ _ _ c ((c + 1) mod 2) fb fb' (proj1 J1)); auto.
        + rewrite Hthis. cbn. now rewrite at2_set2.
        + now apply next_slot_differs.
      - destruct R1 as (fb1 & _ & _ & Hs & _).
        rewrite Hthis in Hs. cbn in Hs. rewrite at2_set2 in Hs. injection Hs as <-.
        pose proof (proj1 (proj2 (proj1 J1)) c fb) as Hb.
        rewrite Hthis in Hb. cbn in Hb. rewrite at2_set2 in Hb. specialize (Hb eq_refl). lia. }
    split.
    + exists fb, l, x. rewrite Hthis', Hthis. cbn.
      rewrite at2_set2_flip, at2_set2 by exact Hc.
      split; [reflexivity |]. split; [exact Ht |].
      split; [now rewrite (but_framebuffers_textures _ _ G2), (but_framebuffers_textures _ _ G1) |].
      rewrite Hothers' by exact Hne. rewrite <- Ht. exact Hfb.
    + intros _. exists fb', l', x'. rewrite Hthis'. cbn. rewrite at2_set2.
      split; [reflexivity |]. split; [rewrite <- Ht', Hthis; reflexivity |].
      split; [now rewrite (but_framebuffers_textures _ _ G2) | rewrite <- Ht'; exact Hfb'].
  - subst st'. split; [rewrite Hthis; reflexivity | discriminate].
Qed.

(** ** One transform-feedback slot *)

Lemma _setupTransformFeedback_at_spec g0 index st o st' :
  _setupTransformFeedback_at index st = (o, st') ->
  device_objects_ok g0 st ->
  device_objects_ok g0 st'
  /\ but_transformFeedbacks (gl st') = but_transformFeedbacks (gl st)
  /\ match o with
     | Ok _ =>
         exists tf,
           this st' = set_transformFeedbacks
                        (set2 index (Some tf) (transformFeedbacks (this st))) (this st)
           /\ gl_transformFeedbacks (gl st') !! tf
              = Some (mkTransformFeedback (at2 index (feedbackBuffers (this st))))
           /\ (forall tf', tf' <> tf ->
                 gl_transformFeedbacks (gl st') !! tf' = gl_transformFeedbacks (gl st) !! tf')
           /\ (at2 index (transformFeedbacks (this st)) = Some tf
               \/ at2 index (transformFeedbacks (this st)) = None
                  /\ tf = length (gl_transformFeedbacks (gl st)))
     | Throw _ =>
         st' = st /\ model (this st) = None
         /\ at2 index (transformFeedbacks (this st)) = None
     end.
Proof.
  intros H [Jf Jt]. unfold _setupTransformFeedback_at in H.
  unfold mbind at 1, M_bind at 1, get_this in H. cbn [this gl fst snd] in H.
  destruct (at2 index (transformFeedbacks (this st))) as [tf|] eqn:Htf.
  - cbn in H. injection H as <- <-. cbn [this gl].
    pose proof (proj1 (proj2 Jt) _ _ Htf) as Hlt.
    split; [| split; [reflexivity |]].
    + split; [exact Jf |]. cbn. now rewrite length_alter.
    + exists tf. split; [rewrite (slots_ok_keep _ _ _ Htf); now destruct st as [[] ?] |].
      cbn. split; [| split; [| now left]].
      * rewrite list_lookup_alter_eq.
        destruct (lookup_lt_is_Some_2 (gl_transformFeedbacks (gl st)) tf) as [f ->];
          [lia | reflexivity].
      * intros tf' Hne. now rewrite list_lookup_alter_ne by congruence.
  - destruct (model (this st)) as [m|] eqn:Hm.
    + unfold new_TransformFeedback, mbind, M_bind, get_gl, modify_gl, modify_this, mret, M_ret
        in H.
      cbn [this gl fst snd] in H. injection H as <- <-. cbn [this gl].
      split; [| split; [reflexivity |]].
      * split; [exact Jf |]. cbn. rewrite length_app. cbn. rewrite Nat.add_1_r.
        now apply slots_ok_fill.
      * exists (length (gl_transformFeedbacks (gl st))). split; [reflexivity |].
        cbn. split; [| split; [| now right]].
        -- rewrite lookup_app_r, Nat.sub_diag by lia. reflexivity.
        -- intros tf' Hne. destruct (decide (tf' < length (gl_transformFeedbacks (gl st)))).
           ++ now rewrite lookup_app_l by lia.
           ++ rewrite !lookup_ge_None_2; [reflexivity | lia | rewrite length_app; cbn; lia].
    + injection H as <- <-. split; [split; assumption |]. split; [reflexivity | auto].
Qed.

(** ** [_setupTransformFeedback] *)

Lemma _setupTransformFeedback_spec g0 st o st' :
  _setupTransformFeedback st = (o, st') ->
  device_objects_ok g0 st ->
  currentIndex (this st) < 2 ->
  device_objects_ok g0 st'
  /\ but_transformFeedbacks (gl st') = but_transformFeedbacks (gl st)
  /\ this st' = set_transformFeedbacks (transformFeedbacks (this st')) (this st)
  /\ (at2 (currentIndex (this st)) (feedbackBuffers (this st)) = ∅ -> o = Ok tt /\ st' = st)
  /\ (at2 (currentIndex (this st)) (feedbackBuffers (this st)) <> ∅ ->
      model (this st) <> None ->
      o = Ok tt
      /\ captures_into (currentIndex (this st)) st'
      /\ (is_Some (feedbackMap (this st)) ->
          captures_into ((currentIndex (this st) + 1) mod 2) st')).
Proof.
  intros H J Hc. unfold _setupTransformFeedback in H.
  unfold mbind at 1, M_bind at 1, get_this in H. cbn [this gl fst snd] in H.
  set (c := currentIndex (this st)) in *.
  destruct (bool_decide (at2 c (feedbackBuffers (this st)) = ∅)) eqn:He.
  - injection H as <- <-. apply bool_decide_eq_true in He.
    split; [exact J |]. split; [reflexivity |]. split; [now destruct st as [[] ?] |].
    split; [auto | contradiction].
  - apply bool_decide_eq_false in He.
    unfold mbind at 1, M_bind at 1 in H.
    destruct (_setupTransformFeedback_at c st) as [[[]|e] s1] eqn:H1;
      destruct (_setupTransformFeedback_at_spec g0 _ _ _ _ H1 J) as (J1 & G1 & K1).
    2:{ injection H as <- <-. destruct K1 as (-> & Hm & _).
        split; [exact J |]. split; [reflexivity |]. split; [now destruct st as [[] ?] |].
        split; [contradiction | intros _ Hm'; contradiction]. }
    destruct K1 as (tf & Hthis & Htf & Hothers & Hwhich).
    assert (C1 : captures_into c s1).
    { exists tf. rewrite Hthis. cbn. rewrite at2_set2. auto. }
    unfold when in H.
    destruct (bool_decide (is_Some (feedbackMap (this st)))) eqn:Hmap.
    2:{ injection H as <- <-. apply bool_decide_eq_false in Hmap.
        split; [exact J1 |]. split; [exact G1 |]. split; [rewrite Hthis; reflexivity |].
        split; [contradiction |]. intros _ _. split; [reflexivity |].
        split; [exact C1 | contradiction]. }
    destruct (_setupTransformFeedback_at_spec g0 _ _ _ _ H J1) as (J2 & G2 & K2).
    split; [exact J2 |]. split; [now rewrite G2 |].
    destruct o as [[]|e].
    + destruct K2 as (tf' & Hthis' & Htf' & Hothers' & Hwhich').
      split; [rewrite Hthis', Hthis; reflexivity |]. split; [contradiction |].
      intros _ _. split; [reflexivity |].
      assert (Hne : tf <> tf').
      { destruct Hwhich' as [Hold | [Hnone ->]].
        - apply (slots_ok_other _ _ _ c ((c + 1) mod 2) tf tf' (proj2 J1)); auto.
          + rewrite Hthis. cbn. now rewrite at2_set2.
          + now apply next_slot_differs.
        - pose proof (proj1 (proj2 (proj2 J1)) c tf) as Hb.
          rewrite Hthis in Hb. cbn in Hb. rewrite at2_set2 in Hb. specialize (Hb eq_refl). lia. }
      split.
      * exists tf. rewrite Hthis', Hthis. cbn.
        rewrite at2_set2_flip, at2_set2 by exact Hc.
        split; [reflexivity |]. rewrite Hothers' by exact Hne. exact Htf.
      * intros _. exists tf'. rewrite Hthis'. cbn. rewrite at2_set2.
        split; [reflexivity |]. rewrite Htf', Hthis. reflexivity.
    + destruct K2 as (-> & Hm & _). rewrite Hthis in Hm. cbn in Hm.
      split; [rewrite Hthis; reflexivity |]. split; [contradiction |].
      intros _ Hm'. contradiction.
Qed.

(** ** The objects of an instance *)

Lemma _setupFramebuffers_objects g0 : pres (keeps (objects_ok g0)) _setupFramebuffers.
Proof.
  intros st o st' H [J Hc].
  destruct (_setupFramebuffers_spec g0 _ _ _ H J Hc) as (J' & _ & Hthis & _).
  split; [exact J' |]. rewrite Hthis. exact Hc.
Qed.

Lemma _setupTransformFeedback_objects g0 : pres (keeps (objects_ok g0)) _setupTransformFeedback.
Proof.
  intros st o st' H [J Hc].
  destruct (_setupTransformFeedback_spec g0 _ _ _ H J Hc) as (J' & _ & Hthis & _).
  split; [exact J' |]. rewrite Hthis. exact Hc.
Qed.

Lemma Framebuffer_update_resize_objects g0 fb w h v :
  pres (keeps (objects_ok g0)) (Framebuffer_update_resize fb w h v).
Proof.
  intros st o st' [= <- <-] [[Jf Jt] Hc]. split; [split |]; cbn; [| exact Jt | exact Hc].
  now rewrite length_alter.
Qed.

#[export] Hint Resolve _setupFramebuffers_objects _setupTransformFeedback_objects
  Framebuffer_update_resize_objects : pres.

Ltac objects_tac :=
  let J := fresh "J" in
  intros J;
  first [ exact J
        | let A := fresh in
          let B := fresh in
          destruct J as [A B];
          split; [exact A | exact (Nat.mod_upper_bound _ 2 ltac:(lia))] ].

Lemma renders_into_view index st st' :
  render_view st' = render_view st -> renders_into index st -> renders_into index st'.
Proof.
  unfold render_view, renders_into. intros [= Hf Ht _ _ Hg Hs] (fb & l & x & E1 & E2 & E3 & E4).
  assert (Hx : texture_sizes (gl st) !! l = Some (width x, height x))
    by (unfold texture_sizes; now rewrite list_lookup_fmap, E3).
  rewrite <- Hs in Hx. unfold texture_sizes in Hx. rewrite list_lookup_fmap in Hx.
  destruct (gl_textures (gl st') !! l) as [x'|] eqn:E3'; [| discriminate].
  injection Hx as Hw Hh. exists fb, l, x'. rewrite Hf, Ht, Hg, Hw, Hh. auto.
Qed.

Lemma Resource_delete_render_view v : pres (unchanged render_view) (Resource_delete v).
Proof.
  intros st o st' H. destruct v; cbn in H; injection H as <- <-; try reflexivity.
  unfold unchanged, render_view, texture_sizes. cbn.
  now rewrite fmap_alter_same by reflexivity.
Qed.

#[export] Hint Resolve Resource_delete_render_view : pres.

Section Objects.

Context (updateForTextures :
           string -> table -> option string -> value -> option string * gmap string string)
        (getSizeUniforms :
           list Texture2D -> table -> option string -> value -> gmap string Uniform).

Local Abbreviation reachable' := (reachable updateForTextures getSizeUniforms).

Lemma _initialize_objects g0 props :
  pres (keeps (objects_ok g0)) (_initialize updateForTextures props).
Proof. pres_auto objects_tac. Qed.

Lemma exec_objects g0 op : pres (keeps (objects_ok g0)) (exec getSizeUniforms op).
Proof. destruct op; cbn [exec]; unfold swap; pres_auto objects_tac. Qed.

Lemma initial_objects g0 : objects_ok g0 (mkState initial g0).
Proof.
  split; [| cbn; lia].
  split; (split; [cbn; lia |]; split; [intros [|i] l; discriminate | discriminate]).
Qed.

Lemma reachable_objects g0 st : reachable' g0 st -> objects_ok g0 st.
Proof.
  induction 1 as [props st H | st op o st' _ IH H].
  - unfold new_Transform, constructor in H.
    split_bind H as Hg st1. injection Hg as <- <-.
    split_bind H as Ha st2. unfold assert in Ha. destruct (webgl2 _); [| discriminate].
    injection Ha as <-.
    split_bind H as Hi st3. injection Hi as <-.
    split_bind H as Hi st4. injection H as <-.
    apply (_initialize_objects g0 props _ _ _ Hi (initial_objects g0)).
  - eapply exec_objects; eauto.
Qed.

(** X9: an instance creates at most two framebuffers and two transform-feedback
    objects, however often it is reconfigured: in every state it can be in,
    the framebuffers created since it was built are exactly those of
    [this.framebuffers] and the transform-feedback objects exactly those of
    [this.transformFeedbacks], one for each generation at most, all distinct;
    a later configuration updates them in place.  An instance that does not
    render to a texture has created no framebuffer. *)
Theorem at_most_one_framebuffer_and_capture_per_generation g0 st :
  reachable' g0 st ->
  length (gl_framebuffers (gl st))
  = length (gl_framebuffers g0) + slot_count (framebuffers (this st))
  /\ length (gl_transformFeedbacks (gl st))
     = length (gl_transformFeedbacks g0) + slot_count (transformFeedbacks (this st))
  /\ length (gl_framebuffers (gl st)) <= length (gl_framebuffers g0) + 2
  /\ length (gl_transformFeedbacks (gl st)) <= length (gl_transformFeedbacks g0) + 2
  /\ (forall fb fb', framebuffers (this st) = (Some fb, Some fb') -> fb <> fb')
  /\ (forall tf tf', transformFeedbacks (this st) = (Some tf, Some tf') -> tf <> tf')
  /\ (renderingToTexture (this st) = false ->
      length (gl_framebuffers (gl st)) = length (gl_framebuffers g0)).
Proof.
  intros Hr. pose proof (reachable_objects _ _ Hr) as [[(F1 & F2 & F3) (T1 & T2 & T3)] _].
  pose proof (reachable_no_render_target _ _ _ _ Hr) as Hn.
  assert (B : forall p, slot_count p <= 2)
    by (intros [[] []]; cbn; lia).
  split; [exact F1 |]. split; [exact T1 |].
  split; [pose proof (B (framebuffers (this st))); lia |].
  split; [pose proof (B (transformFeedbacks (this st))); lia |].
  split; [intros fb fb' E; apply F3; now rewrite E |].
  split; [intros tf tf' E; apply T3; now rewrite E |].
  intros Hf. rewrite F1, (Hn Hf). cbn. lia.
Qed.

(** ** Capture after a configuration call *)

Lemma captures_into_view index st st' :
  capture_view st' = capture_view st -> captures_into index st -> captures_into index st'.
Proof.
  unfold capture_view, captures_into. intros [= -> -> _ _ ->]. auto.
Qed.

Lemma objects_ok_start g0 st :
  gl st = g0 ->
  framebuffers (this st) = (None, None) -> transformFeedbacks (this st) = (None, None) ->
  currentIndex (this st) = 0 ->
  objects_ok g0 st.
Proof.
  intros <- Hf Ht Hc. split; [| lia]. unfold device_objects_ok. rewrite Hf, Ht.
  split; (split; [cbn; lia |]; split; [intros [|i] l; discriminate | discriminate]).
Qed.

Lemma new_Transform_start g0 props st' :
  new_Transform updateForTextures g0 props = (Ok tt, st') ->
  exists st1 st2 st3 st4,
    objects_ok g0 st1
    /\ elementIDBuffer (this st1) = VNull /\ resources (this st1) = ∅
    /\ _setupBuffers props st1 = (Ok tt, st2)
    /\ _setupTextures props st2 = (Ok tt, st3)
    /\ _buildModel updateForTextures props st3 = (Ok tt, st4)
    /\ st' = mkState (set_sealed true (this st4)) (gl st4).
Proof.
  intros H. destruct (new_Transform_Ok _ _ _ _ H) as (s1 & s2 & s3 & s4 & Hg & Ht & H').
  exists s1, s2, s3, s4.
  assert (K : objects_ok g0 s1 /\ elementIDBuffer (this s1) = VNull /\ resources (this s1) = ∅).
  { split; [apply objects_ok_start; [exact Hg | ..] |];
      rewrite Ht; destruct (truthy_str _); cbn; auto. }
  tauto.
Qed.

Lemma configured_captures g0 st :
  configured updateForTextures getSizeUniforms g0 st ->
  at2 (currentIndex (this st)) (feedbackBuffers (this st)) <> ∅ ->
  captures_into (currentIndex (this st)) st
  /\ (is_Some (feedbackMap (this st)) ->
      captures_into ((currentIndex (this st) + 1) mod 2) st
      /\ at2 (currentIndex (this st)) (transformFeedbacks (this st))
         <> at2 ((currentIndex (this st) + 1) mod 2) (transformFeedbacks (this st))).
Proof.
  intros Hconf Hne.
  assert (G : forall s2 s3 : State,
             objects_ok g0 s2 -> model_built s2 ->
             _setupTransformFeedback s2 = (Ok tt, s3) ->
             capture_view st = capture_view s3 ->
             objects_ok g0 st ->
             captures_into (currentIndex (this st)) st
             /\ (is_Some (feedbackMap (this st)) ->
                 captures_into ((currentIndex (this st) + 1) mod 2) st
                 /\ at2 (currentIndex (this st)) (transformFeedbacks (this st))
                    <> at2 ((currentIndex (this st) + 1) mod 2) (transformFeedbacks (this st)))).
  { intros s2 s3 [J2 Hc2] Hm H3 Hv Jst.
    destruct (_setupTransformFeedback_spec g0 _ _ _ H3 J2 Hc2) as (_ & _ & Hthis & _ & Hcap).
    assert (Hv' := Hv). unfold capture_view in Hv'. rewrite Hthis in Hv'. cbn in Hv'.
    injection Hv' as Htfs Hfb Hci Hmap _.
    rewrite Hfb, Hci in Hne. destruct (Hcap Hne Hm) as (_ & C1 & C2).
    rewrite <- Hci in C1, C2. rewrite <- Hmap in C2.
    pose proof (captures_into_view _ s3 st Hv C1) as C1'.
    split; [exact C1' |]. intros Hsome.
    pose proof (captures_into_view _ s3 st Hv (C2 Hsome)) as C2'.
    split; [exact C2' |].
    destruct C1' as (tf & E1 & _). destruct C2' as (tf' & E2 & _).
    rewrite E1, E2. intros [= <-].
    destruct Jst as [[_ Jt] Hc].
    now apply (slots_ok_other _ _ _ _ _ tf tf Jt E1 E2 (next_slot_differs _ Hc)). }
  destruct Hconf as [props st H | st0 opts st Hreach H].
  - pose proof (reachable_objects g0 st (reachable_new _ _ _ _ _ H)) as Jst.
    apply new_Transform_start in H
      as (st1 & st2 & st3 & st4 & J1 & _ & _ & Hb & Htex & Hm & ->).
    assert (J3 : objects_ok g0 st3).
    { eapply (use_pres (keeps (objects_ok g0))); [| exact Htex |]; [pres_auto objects_tac |].
      eapply (use_pres (keeps (objects_ok g0))); [| exact Hb | exact J1]. pres_auto objects_tac. }
    unfold _buildModel in Hm.
    split_bind Hm as H5 s5. split_bind Hm as H6 s6. injection H6 as <-.
    split_bind Hm as H7 s7. injection H7 as <-.
    split_bind Hm as H8 s8.
    apply (G _ s8) with (3 := H8).
    + eapply (use_pres (keeps (objects_ok g0))) in H5; [| pres_auto objects_tac].
      exact (H5 J3).
    + unfold model_built. cbn. discriminate.
    + apply (use_pres (unchanged capture_view)) in Hm; [| pres_auto ltac:(reflexivity)].
      unfold unchanged in Hm. rewrite <- Hm. reflexivity.
    + exact Jst.
  - pose proof (reachable_objects g0 st0 Hreach) as J0.
    pose proof (reachable_model _ _ _ _ Hreach) as M0.
    assert (Jst : objects_ok g0 st)
      by (eapply (exec_objects g0 (Update opts)); [exact H | exact J0]).
    unfold update in H.
    split_bind H as H1 s1. split_bind H as H2 s2. split_bind H as H3 s3.
    apply (G s2 s3) with (3 := H3).
    + eapply (use_pres (keeps (objects_ok g0))); [| exact H2 |]; [pres_auto objects_tac |].
      eapply (use_pres (keeps (objects_ok g0))); [| exact H1 | exact J0]. pres_auto objects_tac.
    + eapply (use_pres (keeps model_built)); [| exact H2 |]; [pres_auto model_tac |].
      eapply (use_pres (keeps model_built)); [| exact H1 | exact M0]. pres_auto model_tac.
    + apply (use_pres (unchanged capture_view)) in H; [| pres_auto ltac:(reflexivity)].
      exact H.
    + exact Jst.
Qed.

(** X10: after a configuration call that returns, the construction of an
    instance or an [update] of one, the transform-feedback object of the
    current generation captures into the feedback buffers of the current
    generation, if it has any; with a feedback map, the transform-feedback
    object of the other generation is a different object and captures into the
    feedback buffers of the other generation. *)
Theorem configured_instance_captures_into_feedback_buffers g0 st :
  configured updateForTextures getSizeUniforms g0 st ->
  at2 (currentIndex (this st)) (feedbackBuffers (this st)) <> ∅ ->
  captures_into (currentIndex (this st)) st
  /\ (is_Some (feedbackMap (this st)) ->
      captures_into ((currentIndex (this st) + 1) mod 2) st
      /\ at2 (currentIndex (this st)) (transformFeedbacks (this st))
         <> at2 ((currentIndex (this st) + 1) mod 2) (transformFeedbacks (this st))).
Proof.
  apply configured_captures.
Qed.

(** ** The render target after a configuration call *)

Lemma _setupTextures_renders g0 props st st' :
  objects_ok g0 st ->
  renderingToTexture (this st) = true ->
  truthy_target (Props._targetTexture props) = true ->
  _setupTextures props st = (Ok tt, st') ->
  renders_into (currentIndex (this st')) st'
  /\ (truthy_str (_swapTexture (this st')) = true ->
      renders_into ((currentIndex (this st') + 1) mod 2) st').
Proof.
  intros J Hr Ht H. unfold _setupTextures in H.
  split_bind H as H0 s0. injection H0 as <- <-.
  split_bind H as H1 s1. split_bind H as H2 s2. split_bind H as H3 s3.
  split_bind H as H4 s4. split_bind H as H5 s5. injection H5 as <- <-.
  split_bind H as H6 s6. split_bind H as H7 s7.
  assert (Ha : a = Props._targetTexture props).
  { rewrite Ht in H6. cbn [negb andb] in H6.
    destruct (truthy_str (targetTextureVarying (this s4))); [| now injection H6 as <- _].
    split_bind H6 as H6a s6a. injection H6a as <- <-.
    destruct (Props._targetTexture props) as [target|]; [| discriminate].
    rewrite Ht in H6. split_bind H6 as H6b s6b. split_bind H6 as H6c s6c.
    now injection H6 as <- _. }
  subst a. rewrite Ht in H. cbn [when] in H.
  assert (K : objects_ok g0 s7 /\ renderingToTexture (this s7) = true).
  { assert (F : forall {A} (m : M A) s o s',
               m s = (o, s') ->
               pres (keeps (objects_ok g0)) m ->
               pres (unchanged (fun st => renderingToTexture (this st))) m ->
               objects_ok g0 s /\ renderingToTexture (this s) = true ->
               objects_ok g0 s' /\ renderingToTexture (this s') = true).
    { intros A m s o s' Hm P1 P2 [Q1 Q2]. split; [exact (P1 _ _ _ Hm Q1) |].
      specialize (P2 _ _ _ Hm). unfold unchanged in P2. congruence. }
    eapply F; [exact H7 | pres_auto objects_tac | pres_auto ltac:(reflexivity) |].
    eapply F; [exact H6 | pres_auto objects_tac | pres_auto ltac:(reflexivity) |].
    eapply F; [exact H4 | pres_auto objects_tac | pres_auto ltac:(reflexivity) |].
    eapply F; [exact H3 | pres_auto objects_tac | pres_auto ltac:(reflexivity) |].
    eapply F; [exact H2 | pres_auto objects_tac | pres_auto ltac:(reflexivity) |].
    eapply F; [exact H1 | pres_auto objects_tac | pres_auto ltac:(reflexivity) |].
    split; assumption. }
  destruct K as [[J7 Hc7] Hr7].
  destruct (_setupFramebuffers_spec g0 _ _ _ H J7 Hc7) as (_ & _ & Hthis & Hren).
  destruct (Hren Hr7 eq_refl) as [R1 R2].
  rewrite Hthis. cbn. auto.
Qed.

(** The render targets after a configuration call that names a target
    texture. *)
Lemma configured_renders g0 props st st' :
  new_Transform updateForTextures g0 props = (Ok tt, st')
  \/ reachable' g0 st /\ update props st = (Ok tt, st') ->
  truthy_target (Props._targetTexture props) = true ->
  renderingToTexture (this st') = true ->
  renders_into (currentIndex (this st')) st'
  /\ (truthy_str (_swapTexture (this st')) = true ->
      renders_into ((currentIndex (this st') + 1) mod 2) st').
Proof.
  intros [H | [Hreach H]] Ht Hr.
  - apply new_Transform_start in H
      as (st1 & st2 & st3 & st4 & J1 & _ & _ & Hb & Htex & Hm & ->).
    assert (J2 : objects_ok g0 st2)
      by (eapply (use_pres (keeps (objects_ok g0))); [| exact Hb | exact J1];
          pres_auto objects_tac).
    assert (Hv : render_view (mkState (set_sealed true (this st4)) (gl st4)) = render_view st3).
    { apply (use_pres (unchanged render_view)) in Hm; [| pres_auto ltac:(reflexivity)].
      unfold unchanged in Hm. rewrite <- Hm. reflexivity. }
    assert (Hr2 : renderingToTexture (this st2) = true).
    { assert (P : pres (unchanged (fun st => renderingToTexture (this st)))
                    (_setupTextures props;; _buildModel updateForTextures props))
        by pres_auto ltac:(reflexivity).
      assert (E : (_setupTextures props;; _buildModel updateForTextures props) st2
                  = (Ok tt, st4)) by (unfold mbind, M_bind; now rewrite Htex).
      specialize (P _ _ _ E). unfold unchanged in P. cbn in Hr. congruence. }
    destruct (_setupTextures_renders g0 props st2 st3 J2 Hr2 Ht Htex) as [R1 R2].
    assert (Hv' := Hv). unfold render_view in Hv'. cbn in Hv'. injection Hv' as _ _ Hci Hsw _ _.
    cbn [this currentIndex _swapTexture set_sealed]. cbn in Hci, Hsw. rewrite Hci, Hsw.
    split; [exact (renders_into_view _ _ _ Hv R1) |].
    intros Hs. exact (renders_into_view _ _ _ Hv (R2 Hs)).
  - pose proof (reachable_objects g0 st Hreach) as J0.
    unfold update in H.
    split_bind H as H1 s1. split_bind H as H2 s2. split_bind H as H3 s3.
    apply (_setupTextures_renders g0 props s3 st'); [| | exact Ht | exact H].
    + eapply (use_pres (keeps (objects_ok g0))); [| exact H3 |]; [pres_auto objects_tac |].
      eapply (use_pres (keeps (objects_ok g0))); [| exact H2 |]; [pres_auto objects_tac |].
      eapply (use_pres (keeps (objects_ok g0))); [| exact H1 | exact J0]. pres_auto objects_tac.
    + apply (use_pres (unchanged (fun st => renderingToTexture (this st)))) in H;
        [| pres_auto ltac:(reflexivity)].
      unfold unchanged in H. congruence.
Qed.

(** X11: a configuration call that names a target texture sets up the render
    target.  After [new Transform] or [update] has returned with a
    [_targetTexture] on an instance that renders to a texture, the framebuffer
    of the current generation exists, is attached to the target texture of the
    current generation and has its width and height; with a swap texture, the
    same holds of the other generation. *)
Theorem configured_render_target_matches_target_texture g0 props st st' :
  new_Transform updateForTextures g0 props = (Ok tt, st')
  \/ reachable' g0 st /\ update props st = (Ok tt, st') ->
  truthy_target (Props._targetTexture props) = true ->
  renderingToTexture (this st') = true ->
  renders_into (currentIndex (this st')) st'
  /\ (truthy_str (_swapTexture (this st')) = true ->
      renders_into ((currentIndex (this st') + 1) mod 2) st').
Proof. exact (configured_renders g0 props st st'). Qed.

End Objects.

(** * The target texture and its reference *)


Lemma Resource_delete_follow_view v : pres (unchanged follow_view) (Resource_delete v).
Proof.
  intros st o st' H. destruct v; cbn in H; injection H as <- <-; try reflexivity.
  unfold unchanged, follow_view, texture_sizes. cbn.
  now rewrite fmap_alter_same by reflexivity.
Qed.

#[export] Hint Resolve Resource_delete_follow_view : pres.

Lemma update_head_follow_view opts :
  pres (unchanged follow_view)
       (_setElementCount opts;; _setupBuffers opts;; _setupTransformFeedback).
Proof. pres_auto ltac:(reflexivity). Qed.

Lemma _setupTextures_without_reference st opts name :
  truthy_str (targetTextureVarying (this st)) = true ->
  _targetRefTexName (this st) = Some name -> name <> "" ->
  truthy_target (Props._targetTexture opts) = false ->
  Props._sourceTextures opts = None ->
  exists st',
    _setupTextures opts st = (Throw TypeError, st')
    /\ gl st' = gl st
    /\ sourceTextures (this st') = sourceTextures (this st)
    /\ targetTextures (this st') = targetTextures (this st)
    /\ resources (this st') = resources (this st).
Proof.
  intros Hv Hn Hne Ht Hs. unfold _setupTextures. rewrite Hs, Ht. cbn [default negb andb].
  rewrite map_to_list_empty. cbn [for_each].
  unfold mbind at 1, M_bind at 1, get_this. cbn [this gl fst snd].
  unfold mbind at 1, M_bind at 1. unfold when.
  assert (Hn' : truthy_str (Some name) = true)
    by (cbn; now rewrite bool_decide_eq_false_2).
  destruct (truthy_str (Props._swapTexture opts)).
  - destruct (sealed (this st) && bool_decide (_swapTexture (this st) = None)).
    + eexists. split; [reflexivity | auto].
    + unfold mbind, M_bind, modify_this, get_this, mret, M_ret. cbn [this gl fst snd].
      cbn. rewrite Hv, Hn, Hn'. cbn. eexists. split; [reflexivity |].
      cbn. rewrite set2_at2. auto.
  - unfold mbind, M_bind, modify_this, get_this, mret, M_ret. cbn [this gl fst snd].
    cbn. rewrite Hv, Hn, Hn'. cbn. eexists. split; [reflexivity |].
    cbn. rewrite set2_at2. auto.
Qed.

(** X12: an instance whose target texture was cloned from a source texture
    remembers the name of that source texture, and every later configuration
    call has to give the source textures again or name a target texture: a call
    that gives neither reads the remembered name in the absent [_sourceTextures]
    and throws a type error.  [_setupTextures] then has bound no texture and
    changed nothing on the device, and [update] never returns. *)
Theorem update_needs_source_textures_of_reference st opts name :
  truthy_str (targetTextureVarying (this st)) = true ->
  _targetRefTexName (this st) = Some name -> name <> "" ->
  truthy_target (Props._targetTexture opts) = false ->
  Props._sourceTextures opts = None ->
  (exists st',
      _setupTextures opts st = (Throw TypeError, st')
      /\ gl st' = gl st
      /\ sourceTextures (this st') = sourceTextures (this st)
      /\ targetTextures (this st') = targetTextures (this st)
      /\ resources (this st') = resources (this st))
  /\ forall o st', update opts st = (o, st') -> exists e, o = Throw e.
Proof.
  intros Hv Hn Hne Ht Hs. split; [now apply (_setupTextures_without_reference st opts name) |].
  intros o st' H. unfold update in H.
  pose proof (update_head_follow_view opts) as P.
  destruct ((_setElementCount opts;; _setupBuffers opts;; _setupTransformFeedback) st)
    as [[[]|e] s3] eqn:E.
  - specialize (P _ _ _ E). unfold unchanged, follow_view in P. injection P as _ P1 P2 _ _.
    rewrite <- P1 in Hv. rewrite <- P2 in Hn.
    destruct (_setupTextures_without_reference s3 opts name Hv Hn Hne Ht Hs) as (s4 & H4 & _).
    unfold mbind, M_bind in E, H.
    destruct (_setElementCount opts st) as [[[]|e1] s1]; [| discriminate].
    destruct (_setupBuffers opts s1) as [[[]|e2] s2]; [| discriminate].
    rewrite E, H4 in H. injection H as <- _. eauto.
  - unfold mbind, M_bind in E, H.
    destruct (_setElementCount opts st) as [[[]|e1] s1]; [| injection H as <- _; eauto].
    destruct (_setupBuffers opts s1) as [[[]|e2] s2]; [| injection H as <- _; eauto].
    rewrite E in H. injection H as <- _. eauto.
Qed.

(** ** Re-cloning the target texture *)

Lemma register_Ok name v st st' :
  register name v st = (Ok tt, st') ->
  this st' = set_resources (<[name := v]> (resources (this st))) (this st)
  /\ gl_framebuffers (gl st') = gl_framebuffers (gl st)
  /\ gl_transformFeedbacks (gl st') = gl_transformFeedbacks (gl st)
  /\ length (gl_textures (gl st')) = length (gl_textures (gl st))
  /\ texture_sizes (gl st') = texture_sizes (gl st).
Proof.
  intros H. unfold register in H.
  unfold mbind at 1, M_bind at 1, get_this in H. cbn [this gl fst snd] in H.
  unfold mbind, M_bind, modify_this, when in H.
  destruct (truthy _).
  - destruct (Resource_delete _ st) as [[[]|e] s1] eqn:Hd; [| discriminate].
    injection H as <-. cbn [this gl].
    destruct (Resource_delete_data _ _ _ _ Hd) as (Hthis & _).
    pose proof (Resource_delete_render_view _ _ _ _ Hd) as Hv.
    pose proof (Resource_delete_stable _ _ _ _ Hd) as (_ & _ & Hlen & _).
    unfold unchanged, render_view in Hv. injection Hv as _ _ _ _ Hf Hs.
    rewrite Hthis. split; [reflexivity |]. split; [exact Hf |]. split; [| split; assumption].
    destruct (get_prop (resources (this st)) name); cbn in Hd; try discriminate;
      injection Hd as <-; reflexivity.
  - injection H as <-. cbn. auto.
Qed.

Lemma lookup_texture_size g g' l x :
  texture_sizes g' = texture_sizes g -> gl_textures g !! l = Some x ->
  exists x', gl_textures g' !! l = Some x' /\ width x' = width x /\ height x' = height x.
Proof.
  intros Hs Hx.
  assert (H : texture_sizes g !! l = Some (width x, height x))
    by (unfold texture_sizes; now rewrite list_lookup_fmap, Hx).
  rewrite <- Hs in H. unfold texture_sizes in H. rewrite list_lookup_fmap in H.
  destruct (gl_textures g' !! l) as [x'|]; [| discriminate]. injection H as Hw Hh. eauto.
Qed.

Lemma _buildTargetTexture_clone name index st out st' l x :
  get_prop (at2 index (sourceTextures (this st))) name = VTexture2D l ->
  gl_textures (gl st) !! l = Some x ->
  _buildTargetTexture (TAttribute name) index st = (Ok out, st') ->
  out = VTexture2D (length (gl_textures (gl st)))
  /\ this st'
     = set_resources (<["target-texture-" +:+ pretty index := out]> (resources (this st)))
                     (set_targetRefTexName (Some name) (this st))
  /\ gl_framebuffers (gl st') = gl_framebuffers (gl st)
  /\ gl_transformFeedbacks (gl st') = gl_transformFeedbacks (gl st)
  /\ (exists x', gl_textures (gl st') !! length (gl_textures (gl st)) = Some x'
                 /\ width x' = width x /\ height x' = height x)
  /\ (forall l' y, gl_textures (gl st) !! l' = Some y ->
        exists y', gl_textures (gl st') !! l' = Some y'
                   /\ width y' = width y /\ height y' = height y).
Proof.
  intros Hr Hx H. rewrite _buildTargetTexture_register in H. cbv zeta in H.
  unfold mbind at 1, M_bind at 1, get_this in H. cbn [this gl fst snd] in H.
  rewrite Hr in H. cbn [truthy assert] in H.
  unfold mbind at 1, M_bind at 1, mret at 1, M_ret at 1 in H.
  unfold mbind at 1, M_bind at 1, modify_this in H. cbn [this gl fst snd] in H.
  unfold cloneTextureFrom in H.
  unfold mbind at 1, M_bind at 1 in H.
  unfold mbind at 1, M_bind at 1, get_gl in H. cbn [this gl fst snd] in H.
  rewrite Hx in H.
  unfold mbind at 1, M_bind at 1, modify_gl in H. cbn [this gl fst snd] in H.
  unfold mret at 1, M_ret at 1 in H.
  unfold mbind, M_bind in H.
  match type of H with
  | context [register ?n ?v ?s] => destruct (register n v s) as [[[]|e] s1] eqn:Hreg
  end; [| discriminate].
  injection H as <- <-.
  destruct (register_Ok _ _ _ _ Hreg) as (Hthis & Hf & Htf & Hlen & Hs).
  cbn [this gl gl_framebuffers gl_transformFeedbacks set_gl_textures] in *.
  split; [reflexivity |]. split; [exact Hthis |]. split; [exact Hf |]. split; [exact Htf |].
  split.
  - match type of Hs with
    | _ = texture_sizes (set_gl_textures (_ ++ [?clone]) _) =>
        destruct (lookup_texture_size _ _ (length (gl_textures (gl st))) clone Hs)
          as (x' & E & Ew & Eh)
    end.
    { cbn. rewrite lookup_app_r, Nat.sub_diag by lia. reflexivity. }
    exists x'. cbn in Ew, Eh. auto.
  - intros l' y Hy. eapply (lookup_texture_size _ _ _ _ Hs). cbn.
    now apply lookup_app_l_Some.
Qed.

Lemma set_swapTexture_same (t : Transform) : set_swapTexture (_swapTexture t) t = t.
Proof. now destruct t. Qed.

Lemma _setupTextures_follows g0 st opts name given l x st' :
  objects_ok g0 st ->
  renderingToTexture (this st) = true ->
  truthy_str (targetTextureVarying (this st)) = true ->
  _targetRefTexName (this st) = Some name -> name <> "" ->
  truthy_target (Props._targetTexture opts) = false ->
  Props._sourceTextures opts = Some given ->
  given !! name = Some (VTexture2D l) ->
  gl_textures (gl st) !! l = Some x ->
  _setupTextures opts st = (Ok tt, st') ->
  let c := currentIndex (this st) in
  let new := length (gl_textures (gl st)) in
  currentIndex (this st') = c
  /\ at2 c (targetTextures (this st')) = VTexture2D new
  /\ (exists x', gl_textures (gl st') !! new = Some x'
                 /\ width x' = width x /\ height x' = height x)
  /\ resources (this st') !! ("target-texture-" +:+ pretty c) = Some (VTexture2D new)
  /\ _targetRefTexName (this st') = Some name
  /\ renders_into c st'.
Proof.
  intros [J Hc] Hr Hv Hn Hne Ht Hs Hg Hx H. cbv zeta.
  assert (Hn' : truthy_str (Some name) = true) by (cbn; now rewrite bool_decide_eq_false_2).
  unfold _setupTextures in H. rewrite Hs, Ht in H. cbn [default negb andb] in H.
  split_bind H as H0 s0. injection H0 as <- <-.
  split_bind H as H1 s1.
  assert (E1 : exists w, s1 = mkState (set_swapTexture w (this st)) (gl st)).
  { unfold when in H1. destruct (truthy_str (Props._swapTexture opts)).
    - destruct (sealed (this st) && _); [unfold throw in H1; discriminate |]. injection H1 as <-. eauto.
    - injection H1 as <-. exists (_swapTexture (this st)). rewrite set_swapTexture_same.
      now destruct st. }
  destruct E1 as [w ->]. clear H1.
  split_bind H as H2 s2.
  apply (use_pres (unchanged (fun s => s))) in H2; [| pres_auto ltac:(reflexivity)].
  unfold unchanged in H2. subst s2.
  split_bind H as H3 s3. injection H3 as <-.
  split_bind H as H4 s4. injection H4 as <-.
  split_bind H as H5 s5. injection H5 as <- <-.
  cbn [this gl] in H.
  match type of H with
  | _ {| this := ?t4; gl := _ |} = _ => set (T4 := t4) in *
  end.
  assert (Hv4 : targetTextureVarying T4 = targetTextureVarying (this st)) by reflexivity.
  assert (Hn4 : _targetRefTexName T4 = _targetRefTexName (this st)) by reflexivity.
  assert (Hr4 : renderingToTexture T4 = true) by exact Hr.
  assert (Hc4 : currentIndex T4 = currentIndex (this st)) by reflexivity.
  assert (Hres4 : resources T4 = resources (this st)) by reflexivity.
  assert (Hf4 : framebuffers T4 = framebuffers (this st)) by reflexivity.
  assert (Htf4 : transformFeedbacks T4 = transformFeedbacks (this st)) by reflexivity.
  assert (Hsrc4 : get_prop (at2 (currentIndex (this st)) (sourceTextures T4)) name
                  = VTexture2D l).
  { subst T4. cbn [sourceTextures set_hasSourceTextures set_sourceTextures].
    rewrite at2_set2. unfold Object_assign.
    apply get_prop_Some. exact (lookup_union_Some_l _ _ _ _ Hg). }
  clearbody T4.
  split_bind H as H6 s6.
  rewrite Hv4, Hv, Hn4, Hn in H6. cbn [truthy_str] in H6.
  rewrite (bool_decide_eq_false_2 _ Hne) in H6. cbn [negb andb default] in H6.
  split_bind H6 as H6a s6a.
  unfold id in H6a. rewrite (get_prop_Some _ _ _ Hg) in H6a. cbn [truthy fmap option_fmap option_map] in H6a.
  injection H6a as <- <-.
  cbn [truthy_target] in H6. rewrite Hn' in H6.
  split_bind H6 as H6b s6b. split_bind H6 as H6c s6c. injection H6c as <-.
  injection H6 as <- <-.
  destruct (_buildTargetTexture_clone name (currentIndex (this st)) (mkState T4 (gl st))
              _ _ l x Hsrc4 Hx H6b)
    as (-> & Hthis & Hfb & Htfs & (x' & Hx' & Hw & Hh) & _).
  cbn [this gl] in *.
  split_bind H as H7 s7. cbn [truthy_target] in H. rewrite Hn' in H. cbn [when] in H.
  set (S6 := mkState _ (gl s6b)) in *.
  assert (Hpre : pres (unchanged (fun s => (gl s, currentIndex (this s), resources (this s),
                                             _targetRefTexName (this s),
                                             renderingToTexture (this s),
                                             framebuffers (this s),
                                             transformFeedbacks (this s))))
                   _setupSwapTextures) by pres_auto ltac:(reflexivity).
  specialize (Hpre _ _ _ H7). unfold unchanged in Hpre.
  injection Hpre as G7 C7 R7 N7 RT7 F7 TF7.
  assert (Htgt7 : at2 (currentIndex (this st)) (targetTextures (this s7))
                  = VTexture2D (length (gl_textures (gl st)))).
  { unfold _setupSwapTextures in H7.
    unfold mbind at 1, M_bind at 1, get_this in H7. cbn [this gl fst snd] in H7.
    destruct (_ || _).
    - injection H7 as <-. subst S6. cbn. rewrite Hthis. cbn. now rewrite at2_set2.
    - unfold mbind, M_bind, modify_this in H7. cbn [this gl fst snd] in H7.
      injection H7 as <-. subst S6. cbn. rewrite Hthis. cbn.
      rewrite Hc4. rewrite at2_set2_flip by exact Hc. now rewrite at2_set2. }
  assert (J7 : device_objects_ok g0 s7).
  { destruct J as [Jf Jt]. unfold device_objects_ok. rewrite G7, F7, TF7. subst S6. cbn.
    rewrite Hthis, Hfb, Htfs. cbn. rewrite Hf4, Htf4. split; assumption. }
  assert (Hc7 : currentIndex (this s7) < 2).
  { rewrite C7. subst S6. cbn. rewrite Hthis. cbn. now rewrite Hc4. }
  assert (Hci7 : currentIndex (this s7) = currentIndex (this st)).
  { rewrite C7. subst S6. cbn. rewrite Hthis. cbn. exact Hc4. }
  destruct (_setupFramebuffers_spec g0 _ _ _ H J7 Hc7) as (_ & G & Hthis' & Hren).
  assert (Hrt7 : renderingToTexture (this s7) = true).
  { rewrite RT7. subst S6. cbn. rewrite Hthis. cbn. exact Hr4. }
  destruct (Hren Hrt7 eq_refl) as [R _]. rewrite Hci7 in R.
  rewrite Hthis'. cbn [this currentIndex targetTextures resources _targetRefTexName
                       set_framebuffers].
  split; [exact Hci7 |]. split; [exact Htgt7 |].
  split.
  { exists x'. rewrite (but_framebuffers_textures _ _ G), G7. subst S6. cbn. auto. }
  split.
  { rewrite R7. subst S6. cbn [this resources set_targetTextures]. rewrite Hthis.
    cbn [resources set_resources]. apply lookup_insert_eq. }
  split; [| exact R].
  rewrite N7. subst S6. cbn. rewrite Hthis. reflexivity.
Qed.

Section Following.

Context (updateForTextures :
           string -> table -> option string -> value -> option string * gmap string string)
        (getSizeUniforms :
           list Texture2D -> table -> option string -> value -> gmap string Uniform).

Local Abbreviation reachable' := (reachable updateForTextures getSizeUniforms).

(** X13: the target texture follows the source texture it was cloned from.  On
    an instance that renders to a texture cloned from the source texture
    [name], an [update] that gives that source texture again, and no target
    texture, and returns has cloned it again: the target texture of the current
    generation is a new texture with the width and height of the texture
    given, it is registered as [target-texture-<index>], and the framebuffer of
    the current generation is attached to it and has its size. *)
Theorem target_texture_follows_its_reference g0 st opts name given l x st' :
  reachable' g0 st ->
  renderingToTexture (this st) = true ->
  truthy_str (targetTextureVarying (this st)) = true ->
  _targetRefTexName (this st) = Some name -> name <> "" ->
  truthy_target (Props._targetTexture opts) = false ->
  Props._sourceTextures opts = Some given ->
  given !! name = Some (VTexture2D l) ->
  gl_textures (gl st) !! l = Some x ->
  update opts st = (Ok tt, st') ->
  let c := currentIndex (this st) in
  let new := length (gl_textures (gl st)) in
  currentIndex (this st') = c
  /\ at2 c (targetTextures (this st')) = VTexture2D new
  /\ (exists x', gl_textures (gl st') !! new = Some x'
                 /\ width x' = width x /\ height x' = height x)
  /\ resources (this st') !! ("target-texture-" +:+ pretty c) = Some (VTexture2D new)
  /\ _targetRefTexName (this st') = Some name
  /\ renders_into c st'.
Proof.
  intros Hreach Hr Hv Hn Hne Ht Hs Hg Hx H. cbv zeta.
  pose proof (reachable_objects _ _ g0 st Hreach) as J0.
  unfold update in H.
  destruct ((_setElementCount opts;; _setupBuffers opts;; _setupTransformFeedback) st)
    as [o3 s3] eqn:E.
  assert (J3 : objects_ok g0 s3)
    by (eapply (use_pres (keeps (objects_ok g0))); [| exact E | exact J0];
        pres_auto objects_tac).
  pose proof (update_head_follow_view opts _ _ _ E) as P.
  unfold unchanged, follow_view in P. injection P as P1 P2 P3 P4 P5.
  assert (H' : _setupTextures opts s3 = (Ok tt, st')).
  { unfold mbind, M_bind in E, H.
    destruct (_setElementCount opts st) as [[[]|e1] s1]; [| discriminate].
    destruct (_setupBuffers opts s1) as [[[]|e2] s2]; [| discriminate].
    rewrite E in H. destruct o3 as [[]|e3]; [exact H | discriminate]. }
  destruct (lookup_texture_size (gl st) (gl s3) l x P5 Hx) as (x3 & Hx3 & Hw3 & Hh3).
  assert (Hlen : length (gl_textures (gl s3)) = length (gl_textures (gl st))).
  { apply (f_equal length) in P5. unfold texture_sizes in P5.
    now rewrite !length_fmap in P5. }
  rewrite <- P1 in Hr. rewrite <- P2 in Hv. rewrite <- P3 in Hn.
  pose proof (_setupTextures_follows g0 s3 opts name given l x3 st' J3 Hr Hv Hn Hne Ht Hs Hg
                Hx3 H') as K.
  cbv zeta in K. rewrite P4, Hlen, Hw3, Hh3 in K. exact K.
Qed.

End Following.

(** * Iterating *)

Lemma Object_assign_empty {V} (s : gmap string V) : Object_assign ∅ (Some s) = s.
Proof. unfold Object_assign. apply map_union_empty. Qed.

(** [run] on an instance without texture input or output. *)
Lemma run_buffers_only getSizeUniforms opts st m :
  hasSourceTextures (this st) = false ->
  truthy_str (targetTextureVarying (this st)) = false ->
  renderingToTexture (this st) = false ->
  model (this st) = Some m ->
  run getSizeUniforms opts st
  = (Ok tt,
     mkState (this st)
       (set_gl_calls
          (gl_calls (gl st)
           ++ [Model_setAttributes (at2 (currentIndex (this st)) (sourceBuffers (this st)));
               Model_transform
                 (mkTransformOpts (at2 (currentIndex (this st)) (transformFeedbacks (this st)))
                                  (Object_assign ∅ (RunOpts.uniforms opts)) true None
                                  (Object_assign ∅ (RunOpts.parameters opts)))])
          (gl st))).
Proof.
  intros Hs Hv Hr Hm. unfold run, _getInputs.
  unfold mbind at 1, M_bind at 1. unfold mbind at 1, M_bind at 1, get_this.
  cbn [this gl fst snd]. rewrite Hs, Hv. cbn [orb].
  unfold mret at 1, M_ret at 1.
  unfold mbind at 1, M_bind at 1, get_this. cbn [this gl fst snd]. rewrite Hr.
  unfold mbind at 1, M_bind at 1, mret at 1, M_ret at 1.
  unfold model_call, call, mbind, M_bind, get_this, modify_gl. cbn [this gl fst snd].
  rewrite Hm. cbn [this gl fst snd gl_calls set_gl_calls].
  rewrite Hm. cbn [this gl fst snd gl_calls set_gl_calls].
  rewrite Object_assign_empty, <- app_assoc. destruct st as [t g]. destruct g. reflexivity.
Qed.

Section Iterating.

Context (updateForTextures :
           string -> table -> option string -> value -> option string * gmap string string)
        (getSizeUniforms :
           list Texture2D -> table -> option string -> value -> gmap string Uniform).

Local Abbreviation reachable' := (reachable updateForTextures getSizeUniforms).
Local Abbreviation configured' := (configured updateForTextures getSizeUniforms).
Local Abbreviation run' := (run getSizeUniforms).

Lemma configured_reachable g0 st : configured' g0 st -> reachable' g0 st.
Proof.
  intros [props st' H | st0 opts st' Hr H].
  - now apply reachable_new with (props := props).
  - now apply reachable_exec with (st := st0) (op := Update opts) (o := Ok tt).
Qed.

Lemma reachable_rendering g0 st :
  reachable' g0 st ->
  renderingToTexture (this st) = truthy_str (targetTextureVarying (this st)).
Proof.
  induction 1 as [props st H | st op o st' _ IH H].
  - destruct (new_Transform_Ok _ _ _ _ H) as (s1 & s2 & s3 & s4 & _ & Ht & Hb & Htex & Hm & ->).
    assert (P : pres (unchanged (fun st => (renderingToTexture (this st),
                                            targetTextureVarying (this st))))
                  (_setupBuffers props;; _setupTextures props;;
                   _buildModel updateForTextures props)) by pres_auto ltac:(reflexivity).
    assert (E : (_setupBuffers props;; _setupTextures props;;
                 _buildModel updateForTextures props) s1 = (Ok tt, s4))
      by (unfold mbind, M_bind; now rewrite Hb, Htex).
    specialize (P _ _ _ E). unfold unchanged in P. injection P as P1 P2.
    cbn. rewrite P1, P2, Ht.
    destruct (truthy_str (Props._targetTextureVarying props)) eqn:Hp; cbn; [now rewrite Hp | auto].
  - pose proof (exec_construction_view _ _ _ _ _ H) as E. unfold unchanged, construction_view in E.
    injection E as E1 E2 _ _ _ _. congruence.
Qed.

(** X14: what one iteration captures, the next one reads.  On a configured
    instance without texture input or output, for a pair [s -> d] of the
    feedback map whose destination is that of no other pair: [run], [swap],
    [run] all return and issue exactly two draws; the first reads the current
    source buffers and captures with the transform-feedback object of the
    current generation, the second does so for the other generation, with
    another transform-feedback object; the buffer that the second draw reads as
    attribute [s] is the buffer into which the first draw captured [d], and the
    second draw captures [d] into the buffer that the first draw read as
    [s]. *)
Theorem swapped_run_reads_what_was_captured g0 st entries s d opts1 opts2 :
  configured' g0 st ->
  feedbackMap (this st) = Some entries ->
  NoDup entries.*1 ->
  (s, d) ∈ entries ->
  Some d <> targetTextureVarying (this st) ->
  (forall other, (other, d) ∈ entries -> other = s) ->
  hasSourceTextures (this st) = false ->
  truthy_str (targetTextureVarying (this st)) = false ->
  at2 (currentIndex (this st)) (feedbackBuffers (this st)) <> ∅ ->
  exists st1 st2 st3 tf1 tf2 fb1 fb2 a1 a2,
    run' opts1 st = (Ok tt, st1)
    /\ swap st1 = (Ok tt, st2)
    /\ run' opts2 st2 = (Ok tt, st3)
    /\ gl_calls (gl st3)
       = gl_calls (gl st)
         ++ [Model_setAttributes a1;
             Model_transform
               (mkTransformOpts (Some tf1) (Object_assign ∅ (RunOpts.uniforms opts1)) true None
                                (Object_assign ∅ (RunOpts.parameters opts1)));
             Model_setAttributes a2;
             Model_transform
               (mkTransformOpts (Some tf2) (Object_assign ∅ (RunOpts.uniforms opts2)) true None
                                (Object_assign ∅ (RunOpts.parameters opts2)))]
    /\ gl_transformFeedbacks (gl st3) !! tf1 = Some (mkTransformFeedback fb1)
    /\ gl_transformFeedbacks (gl st3) !! tf2 = Some (mkTransformFeedback fb2)
    /\ tf1 <> tf2
    /\ get_prop a2 s = get_prop fb1 d
    /\ get_prop fb2 d = get_prop a1 s
    /\ instanceof_Buffer (get_prop a1 s) = true.
Proof.
  intros Hconf Hmap Hnd Hin Hd Huniq Hs Hv Hne.
  pose proof (configured_reachable _ _ Hconf) as Hreach.
  pose proof (reachable_model _ _ _ _ Hreach) as Hm. unfold model_built in Hm.
  destruct (model (this st)) as [m|] eqn:Em; [clear Hm | contradiction].
  pose proof (reachable_rendering _ _ Hreach) as Hr. rewrite Hv in Hr.
  pose proof (reachable_binary_index _ _ _ _ Hreach) as Hc. unfold binary_index, idx in Hc.
  destruct (configured_wired _ _ _ _ _ _ _ Hconf Hmap Hnd Hin Hd Huniq) as (W1 & W2 & W3).
  cbv zeta in W1, W2, W3.
  destruct (configured_captures _ _ _ _ Hconf Hne) as [(tf1 & T1 & G1) C2].
  destruct C2 as [(tf2 & T2 & G2) Hdiff]; [rewrite Hmap; eauto |].
  set (c := currentIndex (this st)) in *. set (n := (c + 1) mod 2) in *.
  pose proof (run_buffers_only getSizeUniforms opts1 st m Hs Hv Hr Em) as R1.
  set (st1 := mkState (this st) _) in R1.
  set (st2 := mkState (set_currentIndex n (this st)) (gl st1)).
  assert (S : swap st1 = (Ok tt, st2)).
  { subst st2 st1. unfold swap, mbind, M_bind, get_this, assert, modify_this.
    cbn [this gl fst snd]. rewrite Hmap. rewrite bool_decide_eq_true_2 by eauto. reflexivity. }
  pose proof (run_buffers_only getSizeUniforms opts2 st2 m Hs Hv Hr Em) as R2.
  cbn [this gl currentIndex sourceBuffers transformFeedbacks set_currentIndex] in R2.
  set (st3 := mkState _ _) in R2.
  exists st1, st2, st3, tf1, tf2,
    (at2 c (feedbackBuffers (this st))), (at2 n (feedbackBuffers (this st))),
    (at2 c (sourceBuffers (this st))), (at2 n (sourceBuffers (this st))).
  split; [exact R1 |]. split; [exact S |]. split; [exact R2 |].
  split.
  { subst st3 st2 st1 n c.
    cbn [this gl gl_calls set_gl_calls currentIndex transformFeedbacks sourceBuffers
         set_currentIndex].
    rewrite T1, T2, <- app_assoc.
    reflexivity. }
  split; [exact G1 |]. split; [exact G2 |].
  split; [intros ->; apply Hdiff; now rewrite T1, T2 |].
  split; [exact W1 |]. split; [exact W2 |]. rewrite <- W2. exact W3.
Qed.

End Iterating.

(** * Texture inputs *)

Lemma override_filtering_twice x :
  override_filtering (override_filtering x) = override_filtering x.
Proof.
  unfold override_filtering. cbn. f_equal.
  now rewrite (assoc_L (∪)), (idemp_L (∪)).
Qed.

(** What the loop of [_setSourceTextureParameters] does to the device when
    every source texture is a texture. *)
Lemma filtering_loop (vs : list value) st :
  (forall v, v ∈ vs -> instanceof_Texture2D v = true) ->
  exists g',
    for_each vs (fun v => Texture2D_setParameters v SRC_TEX_PARAMETER_OVERRIDES) st
    = (Ok tt, mkState (this st) g')
    /\ (forall l, gl_textures g' !! l
                  = if decide (VTexture2D l ∈ vs)
                    then override_filtering <$> gl_textures (gl st) !! l
                    else gl_textures (gl st) !! l)
    /\ but_textures g' = but_textures (gl st).
Proof.
  revert st. induction vs as [|v vs IH]; intros st Hall.
  - exists (gl st). cbn. destruct st. split; [reflexivity |]. split; [| reflexivity].
    intros l. now rewrite decide_False by set_solver.
  - assert (Hv : instanceof_Texture2D v = true) by (apply Hall; left).
    destruct v as [| | |l0| |]; try discriminate.
    cbn [for_each]. unfold mbind, M_bind. cbn [Texture2D_setParameters modify_gl this gl].
    match goal with
    | |- context [for_each vs _ ?s] => destruct (IH s) as (g' & Hrun & Ht & Hf)
    end.
    { intros v Hv'. apply Hall. now right. }
    exists g'. cbn [this gl] in *. split; [exact Hrun |]. split; [| exact Hf].
    intros l. rewrite Ht. cbn [gl_textures set_gl_textures].
    change (fun x => mkTexture2D (width x) (height x)
                       (SRC_TEX_PARAMETER_OVERRIDES ∪ parameters x) (pixelStore x)
                       (texture_deleted x)) with override_filtering.
    destruct (decide (l0 = l)) as [-> | Hne].
    + rewrite list_lookup_alter_eq.
      rewrite (decide_True (P := VTexture2D l ∈ VTexture2D l :: vs)) by (left).
      destruct (decide (VTexture2D l ∈ vs)); [| reflexivity].
      destruct (gl_textures (gl st) !! l); [| reflexivity]. cbn.
      now rewrite override_filtering_twice.
    + rewrite list_lookup_alter_ne by exact Hne.
      destruct (decide (VTexture2D l ∈ vs)) as [Hl | Hl].
      * now rewrite decide_True by (now right).
      * rewrite decide_False; [reflexivity |].
        intros [E | E]%elem_of_cons; [congruence | contradiction].
Qed.

(** With a source texture that is not a texture, the loop throws. *)
Lemma filtering_loop_throws (vs : list value) st v :
  v ∈ vs -> instanceof_Texture2D v = false ->
  exists st',
    for_each vs (fun v => Texture2D_setParameters v SRC_TEX_PARAMETER_OVERRIDES) st
    = (Throw TypeError, st').
Proof.
  revert st. induction vs as [|w vs IH]; intros st Hin Hbad; [set_solver |].
  cbn [for_each]. unfold mbind, M_bind.
  destruct (instanceof_Texture2D w) eqn:Hw.
  - destruct w as [| | |l0| |]; try discriminate.
    cbn [Texture2D_setParameters modify_gl]. apply IH; [| exact Hbad].
    apply elem_of_cons in Hin as [-> | Hin]; [discriminate | exact Hin].
  - destruct w as [| | |l0| |]; try discriminate; cbn; eauto.
Qed.

Lemma _setSourceTextureParameters_loop st :
  _setSourceTextureParameters st
  = for_each (map_to_list (at2 (currentIndex (this st)) (sourceTextures (this st)))).*2
             (fun v => Texture2D_setParameters v SRC_TEX_PARAMETER_OVERRIDES) st.
Proof.
  unfold _setSourceTextureParameters, mbind, M_bind, get_this. cbn [this gl fst snd].
  rewrite for_each_fmap.
  rewrite (for_each_ext _ _ (fun x => Texture2D_setParameters x.2 SRC_TEX_PARAMETER_OVERRIDES));
    [reflexivity | now intros [n x]].
Qed.

Lemma elem_of_values (tbl : table) v :
  v ∈ (map_to_list tbl).*2 <-> exists name, tbl !! name = Some v.
Proof.
  rewrite list_elem_of_fmap. split.
  - intros ([name v'] & -> & H). exists name. now apply elem_of_map_to_list in H.
  - intros (name & H). exists (name, v). split; [reflexivity |]. now apply elem_of_map_to_list.
Qed.

Section Inputs.

Context (getSizeUniforms :
           list Texture2D -> table -> option string -> value -> gmap string Uniform).

Local Abbreviation _getInputs' := (_getInputs getSizeUniforms).
Local Abbreviation run' := (run getSizeUniforms).

(** X15: the inputs of [run].  [_getInputs] tests the flag [hasSourceTextures],
    which [_setupTextures] computes from the source textures of generation 0,
    and the texture output.  With the flag set or a texture output: if every
    source texture of the current generation is a texture, [_getInputs]
    returns; the attributes are the source buffers of the current generation
    and the element-index buffer as [transform_elementID]; the uniforms are
    the source texture of each sampler, overridden by the size uniforms; every
    source texture of the current generation has been given the filtering and
    wrapping of [SRC_TEX_PARAMETER_OVERRIDES], and nothing else has changed.
    If one of them is not a texture, as the swap texture of a generation
    without target texture is, [_getInputs] and [run] throw a type error.
    With the flag unset and no texture output, [_getInputs] returns the source
    buffers of the current generation as the attributes and no uniform, and
    changes nothing, whatever source textures the current generation has. *)
Theorem texture_backed_inputs st :
  let t := this st in
  let src := at2 (currentIndex t) (sourceTextures t) in
  (textures_enabled t ->
   ((forall name v, src !! name = Some v -> instanceof_Texture2D v = true) ->
    exists st',
      _getInputs' st
      = (Ok (<["transform_elementID" := elementIDBuffer t]>
               (at2 (currentIndex t) (sourceBuffers t)),
             Object_assign ((fun textureName => UTexture (get_prop src textureName))
                              <$> samplerTextureMap t)
                           (Some (getSizeUniforms (gl_textures (gl st')) src
                                    (targetTextureVarying t)
                                    (at2 (currentIndex t) (targetTextures t))))), st')
      /\ this st' = t
      /\ but_textures (gl st') = but_textures (gl st)
      /\ (forall name l, src !! name = Some (VTexture2D l) ->
            gl_textures (gl st') !! l = override_filtering <$> gl_textures (gl st) !! l)
      /\ (forall l, (forall name, src !! name <> Some (VTexture2D l)) ->
            gl_textures (gl st') !! l = gl_textures (gl st) !! l))
   /\ (forall name v, src !! name = Some v -> instanceof_Texture2D v = false ->
         (exists st', _getInputs' st = (Throw TypeError, st'))
         /\ forall opts, exists st', run' opts st = (Throw TypeError, st')))
  /\ (~ textures_enabled t ->
      _getInputs' st = (Ok (at2 (currentIndex t) (sourceBuffers t), ∅), st)).
Proof.
  cbv zeta. split.
  - intros Hb.
    assert (Hcond : hasSourceTextures (this st) || truthy_str (targetTextureVarying (this st))
                    = true) by (destruct Hb as [-> | ->]; [reflexivity | apply orb_true_r]).
    split.
    + intros Hall.
      destruct (filtering_loop
                  (map_to_list (at2 (currentIndex (this st)) (sourceTextures (this st)))).*2 st)
        as (g' & Hrun & Ht & Hf).
      { intros v Hv. apply elem_of_values in Hv as (name & Hv). eauto. }
      rewrite <- _setSourceTextureParameters_loop in Hrun.
      exists (mkState (this st) g'). cbn [this gl].
      split; [| split; [reflexivity | split; [exact Hf | split]]].
      * unfold _getInputs. unfold mbind at 1, M_bind at 1, get_this. cbn [this gl fst snd].
        rewrite Hcond. unfold mbind at 1, M_bind at 1. rewrite Hrun.
        unfold mbind, M_bind, get_gl, mret, M_ret. cbn [this gl fst snd].
        now rewrite Object_assign_empty.
      * intros name l Hl. rewrite Ht, decide_True; [reflexivity |].
        apply elem_of_values. eauto.
      * intros l Hl. rewrite Ht, decide_False; [reflexivity |].
        intros (name & Hn)%elem_of_values. exact (Hl name Hn).
    + intros name v Hv Hbad.
      destruct (filtering_loop_throws
                  (map_to_list (at2 (currentIndex (this st)) (sourceTextures (this st)))).*2
                  st v) as (st' & Hrun); [apply elem_of_values; eauto | exact Hbad |].
      rewrite <- _setSourceTextureParameters_loop in Hrun.
      assert (E : _getInputs' st = (Throw TypeError, st')).
      { unfold _getInputs. unfold mbind at 1, M_bind at 1, get_this. cbn [this gl fst snd].
        rewrite Hcond. unfold mbind at 1, M_bind at 1. now rewrite Hrun. }
      split; [eauto |]. intros opts. exists st'.
      unfold run. unfold mbind at 1, M_bind at 1. now rewrite E.
  - intros Hb. unfold textures_enabled in Hb.
    unfold _getInputs, mbind, M_bind, get_this. cbn [this gl fst snd].
    destruct (hasSourceTextures (this st)); [contradiction Hb; now left |].
    destruct (truthy_str (targetTextureVarying (this st))); [contradiction Hb; now right |].
    cbn [orb]. unfold mret, M_ret. rewrite Object_assign_empty. now destruct st.
Qed.

End Inputs.


(** * Retargeting *)

Lemma _buildTargetTexture_Ok textureOrAttribute index st out st' :
  _buildTargetTexture textureOrAttribute index st = (Ok out, st') ->
  exists l,
    out = VTexture2D l
    /\ (framebuffers (this st'), targetTextures (this st'), currentIndex (this st'),
        _swapTexture (this st'), transformFeedbacks (this st'))
       = (framebuffers (this st), targetTextures (this st), currentIndex (this st),
          _swapTexture (this st), transformFeedbacks (this st))
    /\ gl_framebuffers (gl st') = gl_framebuffers (gl st)
    /\ gl_transformFeedbacks (gl st') = gl_transformFeedbacks (gl st)
    /\ (forall l' y, gl_textures (gl st) !! l' = Some y ->
          exists y', gl_textures (gl st') !! l' = Some y'
                     /\ width y' = width y /\ height y' = height y)
    /\ match textureOrAttribute with
       | TTexture l0 => l = l0 /\ gl st' = gl st /\ _targetRefTexName (this st') = None
       | TAttribute name =>
           l = length (gl_textures (gl st))
           /\ is_Some (gl_textures (gl st') !! l)
           /\ _targetRefTexName (this st') = Some name
       end.
Proof.
  intros H. destruct textureOrAttribute as [l0 | name].
  - unfold _buildTargetTexture, mbind, M_bind, modify_this, mret, M_ret in H.
    cbn [this gl fst snd] in H. injection H as <- <-. exists l0. cbn.
    repeat split; eauto.
  - assert (H' := H). rewrite _buildTargetTexture_register in H'. cbv zeta in H'.
    unfold mbind at 1, M_bind at 1, get_this in H'. cbn [this gl fst snd] in H'.
    unfold mbind at 1, M_bind at 1, assert in H'.
    destruct (truthy _); [| discriminate].
    unfold mret at 1, M_ret at 1 in H'. unfold mbind at 1, M_bind at 1, modify_this in H'.
    cbn [this gl fst snd] in H'. unfold mbind at 1, M_bind at 1 in H'.
    unfold cloneTextureFrom in H'.
    destruct (get_prop (at2 index (sourceTextures (this st))) name) as [| | |l| |] eqn:Hr;
      try discriminate.
    unfold mbind at 1, M_bind at 1, get_gl in H'. cbn [this gl fst snd] in H'.
    destruct (gl_textures (gl st) !! l) as [x|] eqn:Hx; [| discriminate].
    clear H'.
    destruct (_buildTargetTexture_clone name index st out st' l x Hr Hx H)
      as (-> & Hthis & Hf & Ht & (x' & Hx' & _) & Hs).
    exists (length (gl_textures (gl st))). rewrite Hthis. cbn.
    repeat split; eauto.
Qed.

Section Retargeting.

Context (updateForTextures :
           string -> table -> option string -> value -> option string * gmap string string)
        (getSizeUniforms :
           list Texture2D -> table -> option string -> value -> gmap string Uniform).

Local Abbreviation reachable' := (reachable updateForTextures getSizeUniforms).

(** X16: [_updateTargetTexture] replaces the target texture of one generation
    and keeps its render target in step.  When it returns, the target texture
    of the generation is the texture given, or a new clone of the source
    texture named; no framebuffer has been created and the framebuffers of the
    instance are those it had; the framebuffer of the generation, if it has
    one, is attached to the new target texture and has its size; and the target
    texture of the other generation is as it was.  Given a texture, it creates
    nothing on the device and forgets the reference source texture. *)
Theorem _updateTargetTexture_retargets g0 st texture index st' :
  reachable' g0 st ->
  index < 2 ->
  _updateTargetTexture texture index st = (Ok tt, st') ->
  exists l,
    at2 index (targetTextures (this st')) = VTexture2D l
    /\ at2 ((index + 1) mod 2) (targetTextures (this st'))
       = at2 ((index + 1) mod 2) (targetTextures (this st))
    /\ framebuffers (this st') = framebuffers (this st)
    /\ length (gl_framebuffers (gl st')) = length (gl_framebuffers (gl st))
    /\ (is_Some (at2 index (framebuffers (this st))) -> renders_into index st')
    /\ match texture with
       | TTexture l0 =>
           l = l0 /\ _targetRefTexName (this st') = None
           /\ but_framebuffers (gl st') = but_framebuffers (gl st)
       | TAttribute name =>
           l = length (gl_textures (gl st)) /\ _targetRefTexName (this st') = Some name
       end.
Proof.
  intros Hreach Hi H.
  pose proof (reachable_objects _ _ g0 st Hreach) as [[Jf _] _].
  unfold _updateTargetTexture in H. split_bind H as H1 s1.
  destruct (_buildTargetTexture_Ok _ _ _ _ _ H1) as (l & -> & Hv & Hgf & _ & Hs & Hcase).
  injection Hv as V1 V2 _ _ _.
  cbn [truthy when] in H.
  split_bind H as H2 s2. injection H2 as <-.
  split_bind H as H3 s3. injection H3 as <- <-.
  cbn [this gl framebuffers targetTextures set_targetTextures] in H.
  rewrite at2_set2 in H. exists l.
  assert (Hother : forall (tt : Array2 value),
             at2 ((index + 1) mod 2) (set2 index (VTexture2D l) tt) = at2 ((index + 1) mod 2) tt)
    by (intros [a b]; destruct index as [|[|i]]; [reflexivity | reflexivity | lia]).
  destruct (at2 index (framebuffers (this s1))) as [fb|] eqn:Hfb.
  - split_bind H as H4 s4. destruct a as [w h].
    unfold texture_size, mbind, M_bind, get_gl in H4. cbn [this gl fst snd] in H4.
    destruct (gl_textures (gl s1) !! l) as [x|] eqn:Hx; [| discriminate].
    injection H4 as <- <- <-.
    unfold Framebuffer_update_resize, modify_gl in H. injection H as <-.
    cbn [this gl targetTextures framebuffers set_targetTextures gl_framebuffers
         set_gl_framebuffers _targetRefTexName].
    rewrite at2_set2, Hother, V1, V2, length_alter, Hgf.
    split; [reflexivity |]. split; [reflexivity |]. split; [reflexivity |].
    split; [reflexivity |]. split.
    + intros _. exists fb, l, x. cbn. rewrite at2_set2, V1.
      rewrite V1 in Hfb. split; [exact Hfb |]. split; [reflexivity |]. split; [exact Hx |].
      rewrite list_lookup_alter_eq.
      pose proof (proj1 (proj2 Jf) _ _ Hfb) as Hlt.
      destruct (lookup_lt_is_Some_2 (gl_framebuffers (gl st)) fb) as [f ->]; [lia | reflexivity].
    + destruct texture as [l0 | name].
      * destruct Hcase as (-> & Hg & Hn). split; [reflexivity |]. split; [exact Hn |].
        unfold but_framebuffers. cbn. now rewrite Hg.
      * destruct Hcase as (-> & _ & Hn). auto.
  - injection H as <-.
    cbn [this gl targetTextures framebuffers set_targetTextures _targetRefTexName].
    rewrite at2_set2, Hother, V1, V2, Hgf.
    split; [reflexivity |]. split; [reflexivity |]. split; [reflexivity |].
    split; [reflexivity |]. split.
    + rewrite V1 in Hfb. rewrite Hfb. intros [? [=]].
    + destruct texture as [l0 | name].
      * destruct Hcase as (-> & Hg & Hn). split; [reflexivity |]. split; [exact Hn |].
        now rewrite Hg.
      * destruct Hcase as (-> & _ & Hn). auto.
Qed.

End Retargeting.

(** * The texture swap and the render targets *)

Section Exchanging.

Context (updateForTextures :
           string -> table -> option string -> value -> option string * gmap string string)
        (getSizeUniforms :
           list Texture2D -> table -> option string -> value -> gmap string Uniform).

Local Abbreviation reachable' := (reachable updateForTextures getSizeUniforms).
Local Abbreviation configured' := (configured updateForTextures getSizeUniforms).
Local Abbreviation run' := (run getSizeUniforms).

Lemma run_framebuffers opts :
  pres (unchanged (fun st => gl_framebuffers (gl st))) (run' opts).
Proof. pres_auto ltac:(reflexivity). Qed.

(** X19: the texture swap after a configuration call that names the target
    texture.  After [new Transform] or [update] has returned with a
    [_targetTexture] on an instance with a texture output and a swap texture
    [name], each generation has its framebuffer: that of the current
    generation is attached to the target texture of the current generation,
    that of the other generation to the current generation's source texture
    [name].  A [run] that returns draws once, into the framebuffer of the
    current generation; after the [swap] that follows, the source texture
    [name] of the new current generation is the texture that was drawn into,
    and the framebuffer of the new current generation is the one attached to
    the source texture [name] the draw has read. *)
Theorem swap_texture_exchange_reaches_render_targets g0 props st st' name :
  new_Transform updateForTextures g0 props = (Ok tt, st')
  \/ reachable' g0 st /\ update props st = (Ok tt, st') ->
  truthy_target (Props._targetTexture props) = true ->
  _swapTexture (this st') = Some name ->
  name <> "" ->
  truthy_str (targetTextureVarying (this st')) = true ->
  let t := this st' in
  let current := currentIndex t in
  let next := (current + 1) mod 2 in
  exists fb fb' target source,
    at2 current (framebuffers t) = Some fb
    /\ at2 next (framebuffers t) = Some fb'
    /\ at2 current (targetTextures t) = VTexture2D target
    /\ get_prop (at2 current (sourceTextures t)) name = VTexture2D source
    /\ (color_attachment0 <$> gl_framebuffers (gl st') !! fb) = Some (VTexture2D target)
    /\ (color_attachment0 <$> gl_framebuffers (gl st') !! fb') = Some (VTexture2D source)
    /\ forall opts st1,
         run' opts st' = (Ok tt, st1) ->
         (exists attributes uniforms parameters,
            gl_calls (gl st1)
            = (gl_calls (gl st')
               ++ (if default true (RunOpts.clearRenderTarget opts)
                   then [Framebuffer_clear fb] else [])
               ++ [Model_setAttributes attributes;
                   Model_transform
                     (mkTransformOpts (at2 current (transformFeedbacks t)) uniforms false
                                      (Some fb) parameters)])%list)
         /\ exists st2,
              swap st1 = (Ok tt, st2)
              /\ currentIndex (this st2) = next
              /\ get_prop (at2 (currentIndex (this st2)) (sourceTextures (this st2))) name
                 = VTexture2D target
              /\ getFramebuffer (this st2) = Some fb'
              /\ (color_attachment0 <$> gl_framebuffers (gl st2) !! fb')
                 = Some (VTexture2D source).
Proof.
  intros Hconf Ht Hs Hn Hv. cbv zeta.
  assert (Hc : configured' g0 st').
  { destruct Hconf as [H | [Hr H]].
    - now apply configured_new with (props := props).
    - now apply configured_update with (st := st) (opts := props). }
  pose proof (configured_reachable _ _ _ _ Hc) as Hreach.
  pose proof (reachable_rendering _ _ _ _ Hreach) as Hrend. rewrite Hv in Hrend.
  destruct (configured_renders updateForTextures getSizeUniforms g0 props st st' Hconf Ht Hrend)
    as [R1 R2].
  specialize (R2 ltac:(rewrite Hs; cbn; now rewrite bool_decide_eq_false_2)).
  destruct R1 as (fb & target & x & F1 & T1 & _ & G1).
  destruct R2 as (fb' & source & x' & F2 & T2 & _ & G2).
  destruct (configured_texture_wired updateForTextures getSizeUniforms g0 st' name Hc Hs Hn Hv)
    as (W1 & W2).
  exists fb, fb', target, source.
  split; [exact F1 |]. split; [exact F2 |]. split; [exact T1 |].
  split; [now rewrite <- W2 |].
  split; [now rewrite G1 |]. split; [now rewrite G2 |].
  intros opts st1 Hrun.
  destruct (run_routes updateForTextures getSizeUniforms g0 st' opts (Ok tt) st1 Hreach Hrun)
    as (Hthis & Hrender & _).
  specialize (Hrender Hrend). unfold getFramebuffer in Hrender. rewrite F1 in Hrender.
  destruct (Hrender eq_refl) as (f & attributes & uniforms & parameters & _ & _ & Hcalls).
  split; [exists attributes, uniforms, parameters; exact Hcalls |].
  pose proof (run_framebuffers opts _ _ _ Hrun) as Hf. unfold unchanged in Hf.
  eexists. split; [| split; [| split; [| split]]].
  - unfold swap. msimpl. rewrite Hthis, Hs. cbn [truthy_str].
    rewrite (bool_decide_eq_false_2 _ Hn), orb_true_r. reflexivity.
  - cbn -[Nat.modulo]. now rewrite Hthis.
  - cbn -[Nat.modulo]. rewrite Hthis, W1. exact T1.
  - unfold getFramebuffer. cbn -[Nat.modulo]. rewrite Hthis. exact F2.
  - cbn -[Nat.modulo]. now rewrite Hf, G2.
Qed.

End Exchanging.

(** * The further properties at sample instances *)

Lemma constructor_requires_support_and_shader_witness :
  new_Transform sample_updateForTextures webgl1_gl sample_props
  = (Throw AssertionError, mkState initial webgl1_gl)
  /\ isSupported sample_gl = true.
Proof.
  destruct (constructor_requires_support_and_shader sample_updateForTextures
              webgl1_gl sample_props) as [H _].
  destruct (constructor_requires_support_and_shader sample_updateForTextures
              sample_gl sample_props) as [_ H'].
  split.
  - apply H. left. reflexivity.
  - apply (H' sample_state). vm_compute. reflexivity.
Defined.

Lemma invalid_feedback_buffer_rejected_before_binding_witness :
  (exists e, _setupBuffers misbound_props sample_state = (Throw e, sample_state))
  /\ (Props.elementCount misbound_props = None ->
      exists e, update misbound_props sample_state = (Throw e, sample_state)).
Proof.
  apply invalid_feedback_buffer_rejected_before_binding
    with (given := {[ "out" := VTexture2D 0 ]}) (name := "out") (x := VTexture2D 0);
    reflexivity.
Defined.

Lemma invalid_source_texture_rejected_before_binding_witness :
  _setupTextures mistextured_props texture_state = (Throw AssertionError, texture_state).
Proof.
  apply (invalid_source_texture_rejected_before_binding mistextured_props
           {[ "tex" := VBuffer 0 ]} "tex" (VBuffer 0) texture_state); reflexivity.
Defined.

Lemma construction_settings_never_change_witness :
  construction_view (swap sample_state).2 = construction_view sample_state.
Proof.
  apply (construction_settings_never_change sample_getSizeUniforms Swap sample_state
           (swap sample_state).1).
  vm_compute. reflexivity.
Defined.

Lemma swap_texture_only_at_construction_witness :
  _setupTextures swap_texture_props sample_state = (Throw TypeError, sample_state)
  /\ forall o st', update swap_texture_props sample_state = (o, st') ->
                   (exists e, o = Throw e) /\ _swapTexture (this st') = None.
Proof.
  apply (swap_texture_only_at_construction sample_updateForTextures sample_getSizeUniforms
           sample_gl sample_state swap_texture_props).
  - exact sample_state_reachable.
  - reflexivity.
  - reflexivity.
Defined.

Lemma delete_destroys_what_is_registered_witness :
  exists st',
    delete sample_state = (Ok tt, st')
    /\ is_deleted (gl st') (VBuffer 2)
    /\ gl_buffers (gl st') !! 0 = gl_buffers (gl sample_state) !! 0.
Proof.
  destruct (delete_destroys_what_is_registered sample_updateForTextures sample_getSizeUniforms
              sample_gl sample_state sample_state_reachable)
    as (st' & m & Hrun & _ & _ & Hdel & Hkeep & _).
  exists st'. split; [exact Hrun |]. split.
  - apply (Hdel "nextPos"). reflexivity.
  - apply Hkeep. intros (name & Hn).
    destruct (decide (name = "nextPos")) as [-> | Hne]; [discriminate Hn |].
    change (resources (this sample_state)) with ({[ "nextPos" := VBuffer 2 ]} : table) in Hn.
    rewrite lookup_singleton_ne in Hn by congruence. discriminate.
Defined.

Lemma ran_texture_state_reachable :
  reachable sample_updateForTextures sample_getSizeUniforms sample_gl ran_texture_state.
Proof.
  apply reachable_exec with (st := texture_state) (op := Run RunOpts.empty) (o := Ok tt).
  - exact texture_state_reachable.
  - vm_compute. reflexivity.
Qed.

Lemma borrowed_resources_survive_witness :
  gl_buffers (gl ran_texture_state) !! 1 = gl_buffers sample_gl !! 1
  /\ exists x', gl_textures (gl ran_texture_state) !! 0 = Some x'
                /\ same_but_filtering (mkTexture2D 2 2 ∅ ∅ false) x'
                /\ parameters x' = SRC_TEX_PARAMETER_OVERRIDES.
Proof.
  destruct (borrowed_resources_survive sample_updateForTextures sample_getSizeUniforms
              sample_gl ran_texture_state ran_texture_state_reachable) as [Hb Ht].
  split.
  - rewrite (Hb 1 (mkBuffer (Some 32) (Some 0x88E8%N) (Some (mkAccessor (Some 2) None None))
                            None false)); reflexivity.
  - destruct (Ht 0 (mkTexture2D 2 2 ∅ ∅ false) eq_refl) as (x' & Hx & Hs).
    exists x'. split; [exact Hx |]. split; [exact Hs |].
    vm_compute in Hx. injection Hx as <-. vm_compute. reflexivity.
Defined.

Lemma at_most_one_framebuffer_and_capture_per_generation_witness :
  length (gl_framebuffers (gl ran_texture_state)) = 1
  /\ length (gl_transformFeedbacks (gl ran_texture_state)) <= 2.
Proof.
  destruct (at_most_one_framebuffer_and_capture_per_generation
              sample_updateForTextures sample_getSizeUniforms sample_gl ran_texture_state
              ran_texture_state_reachable) as (H1 & _ & _ & H4 & _).
  split; [exact H1 | exact H4].
Defined.

Lemma configured_instance_captures_into_feedback_buffers_witness :
  captures_into 0 sample_state /\ captures_into 1 sample_state.
Proof.
  destruct (configured_instance_captures_into_feedback_buffers
              sample_updateForTextures sample_getSizeUniforms sample_gl sample_state
              sample_state_configured) as [H1 H2].
  - intros E. apply (f_equal (fun m : table => m !! "nextPos")) in E. vm_compute in E.
    discriminate E.
  - split; [exact H1 |]. apply H2. vm_compute. eauto.
Defined.

Lemma configured_render_target_matches_target_texture_witness :
  renders_into 0 texture_state.
Proof.
  destruct (configured_render_target_matches_target_texture
              sample_updateForTextures sample_getSizeUniforms sample_gl texture_props
              texture_state texture_state) as [H _].
  - left. vm_compute. reflexivity.
  - reflexivity.
  - reflexivity.
  - exact H.
Defined.

Lemma update_needs_source_textures_of_reference_witness :
  (exists st', _setupTextures Props.empty texture_state = (Throw TypeError, st')
               /\ gl st' = gl texture_state)
  /\ exists e, (update Props.empty texture_state).1 = Throw e.
Proof.
  destruct (update_needs_source_textures_of_reference texture_state Props.empty "tex")
    as [(st' & H1 & H2 & _) H];
    [reflexivity | reflexivity | discriminate | reflexivity | reflexivity |].
  split; [exists st'; split; assumption |].
  apply (H _ (update Props.empty texture_state).2).
  now destruct (update Props.empty texture_state).
Defined.

Lemma target_texture_follows_its_reference_witness :
  exists st',
    update retextured_props texture_state = (Ok tt, st')
    /\ at2 0 (targetTextures (this st')) = VTexture2D 2
    /\ renders_into 0 st'.
Proof.
  exists (update retextured_props texture_state).2.
  assert (E : update retextured_props texture_state
              = (Ok tt, (update retextured_props texture_state).2))
    by (vm_compute; reflexivity).
  split; [exact E |].
  destruct (target_texture_follows_its_reference
              sample_updateForTextures sample_getSizeUniforms sample_gl texture_state
              retextured_props "tex" {[ "tex" := VTexture2D 0 ]} 0 (mkTexture2D 2 2 ∅ ∅ false)
              (update retextured_props texture_state).2)
    as (_ & H2 & _ & _ & _ & H6);
    [exact texture_state_reachable | reflexivity | reflexivity | reflexivity | discriminate
    | reflexivity | reflexivity | reflexivity | reflexivity | exact E |].
  split; [exact H2 | exact H6].
Defined.

Lemma swapped_run_reads_what_was_captured_witness :
  exists st1 st2 st3 tf1 tf2 fb1 a2,
    run sample_getSizeUniforms RunOpts.empty sample_state = (Ok tt, st1)
    /\ swap st1 = (Ok tt, st2)
    /\ run sample_getSizeUniforms RunOpts.empty st2 = (Ok tt, st3)
    /\ length (gl_calls (gl st3)) = 4
    /\ gl_transformFeedbacks (gl st3) !! tf1 = Some (mkTransformFeedback fb1)
    /\ tf1 <> tf2
    /\ get_prop a2 "pos" = get_prop fb1 "nextPos".
Proof.
  destruct (swapped_run_reads_what_was_captured
              sample_updateForTextures sample_getSizeUniforms sample_gl sample_state
              [("pos", "nextPos")] "pos" "nextPos" RunOpts.empty RunOpts.empty)
    as (st1 & st2 & st3 & tf1 & tf2 & fb1 & fb2 & a1 & a2
        & R1 & S & R2 & Hcalls & G1 & _ & Hne & W1 & _).
  - exact sample_state_configured.
  - reflexivity.
  - repeat constructor; set_solver.
  - set_solver.
  - discriminate.
  - intros other Ho. apply list_elem_of_singleton in Ho. congruence.
  - reflexivity.
  - reflexivity.
  - intros E. apply (f_equal (fun m : table => m !! "nextPos")) in E. vm_compute in E.
    discriminate E.
  - exists st1, st2, st3, tf1, tf2, fb1, a2.
    split; [exact R1 |]. split; [exact S |]. split; [exact R2 |].
    split; [rewrite Hcalls; reflexivity |]. split; [exact G1 |]. split; [exact Hne | exact W1].
Defined.

Lemma texture_backed_inputs_witness :
  (exists attributes uniforms st',
     _getInputs sample_getSizeUniforms texture_state = (Ok (attributes, uniforms), st')
     /\ attributes !! "transform_elementID" = Some (VBuffer 2)
     /\ gl_textures (gl st') !! 0
        = override_filtering <$> gl_textures (gl texture_state) !! 0)
  /\ at2 (currentIndex (this late_generation_state)) (sourceTextures (this late_generation_state))
     !! "tex" = Some (VTexture2D 0)
  /\ _getInputs sample_getSizeUniforms late_generation_state
     = (Ok (at2 (currentIndex (this late_generation_state))
                (sourceBuffers (this late_generation_state)), ∅), late_generation_state).
Proof.
  split; [| split; [vm_compute; reflexivity |]].
  - destruct (texture_backed_inputs sample_getSizeUniforms texture_state) as [H _].
    destruct H as [H _]; [right; reflexivity |].
    destruct H as (st' & Hrun & _ & _ & Hsrc & _).
    + intros name v Hv.
      change (at2 (currentIndex (this texture_state)) (sourceTextures (this texture_state)))
        with ({[ "tex" := VTexture2D 0 ]} : table) in Hv.
      apply lookup_singleton_Some in Hv as [_ <-]. reflexivity.
    + eexists _, _, st'. split; [exact Hrun |]. split; [apply lookup_insert_eq |].
      apply (Hsrc "tex"). reflexivity.
  - destruct (texture_backed_inputs sample_getSizeUniforms late_generation_state) as [_ H].
    apply H. intros [Hc | Hc]; vm_compute in Hc; discriminate Hc.
Defined.

Lemma _updateTargetTexture_retargets_witness :
  exists st',
    _updateTargetTexture (TTexture 0) 0 texture_state = (Ok tt, st')
    /\ at2 0 (targetTextures (this st')) = VTexture2D 0
    /\ _targetRefTexName (this st') = None
    /\ renders_into 0 st'.
Proof.
  exists (_updateTargetTexture (TTexture 0) 0 texture_state).2.
  assert (H : _updateTargetTexture (TTexture 0) 0 texture_state
              = (Ok tt, (_updateTargetTexture (TTexture 0) 0 texture_state).2))
    by (vm_compute; reflexivity).
  split; [exact H |].
  destruct (_updateTargetTexture_retargets
              sample_updateForTextures sample_getSizeUniforms sample_gl texture_state
              (TTexture 0) 0 _ texture_state_reachable ltac:(lia) H)
    as (l & Ht & _ & _ & _ & Hr & -> & Hn & _).
  split; [exact Ht |]. split; [exact Hn |].
  apply Hr. vm_compute. eauto.
Defined.

Lemma replaced_resource_destroyed_before_installed_witness :
  exists st_del,
    resources (this sample_state) !! "nextPos" = Some (VBuffer 2)
    /\ is_deleted (gl st_del) (VBuffer 2)
    /\ resources (this st_del) = resources (this sample_state)
    /\ _createNewBuffer "nextPos" (mkBufferOpts (Some 16) None None None) sample_state
       = (Ok (VBuffer 3),
          mkState (set_resources (<["nextPos" := VBuffer 3]> (resources (this st_del)))
                                 (this st_del)) (gl st_del)).
Proof.
  destruct (replaced_resource_destroyed_before_installed
              sample_updateForTextures sample_getSizeUniforms sample_gl sample_state
              sample_state_reachable)
    as [Hbuffer _].
  destruct (Hbuffer "nextPos" (mkBufferOpts (Some 16) None None None))
    as (st_new & st_del & _ & Hprior & Hres & Hrun).
  { left. vm_compute. eauto. }
  exists st_del.
  change (resources (this sample_state) !! "nextPos") with (Some (VBuffer 2)) in Hprior.
  split; [reflexivity |]. split; [apply Hprior |]. split; [exact Hres | exact Hrun].
Defined.

Lemma swap_texture_exchange_reaches_render_targets_witness :
  exists fb fb' st1 st2,
    at2 0 (framebuffers (this exchange_state)) = Some fb
    /\ at2 1 (framebuffers (this exchange_state)) = Some fb'
    /\ (color_attachment0 <$> gl_framebuffers (gl exchange_state) !! fb) = Some (VTexture2D 1)
    /\ (color_attachment0 <$> gl_framebuffers (gl exchange_state) !! fb') = Some (VTexture2D 0)
    /\ run sample_getSizeUniforms RunOpts.empty exchange_state = (Ok tt, st1)
    /\ swap st1 = (Ok tt, st2)
    /\ get_prop (at2 (currentIndex (this st2)) (sourceTextures (this st2))) "tex" = VTexture2D 1
    /\ getFramebuffer (this st2) = Some fb'
    /\ (color_attachment0 <$> gl_framebuffers (gl st2) !! fb') = Some (VTexture2D 0).
Proof.
  destruct (swap_texture_exchange_reaches_render_targets
              sample_updateForTextures sample_getSizeUniforms swap_gl exchange_props
              exchange_state exchange_state "tex")
    as (fb & fb' & target & source & F1 & F2 & T1 & S1 & G1 & G2 & Hrun).
  - left. vm_compute. reflexivity.
  - reflexivity.
  - reflexivity.
  - discriminate.
  - reflexivity.
  - assert (target = 1) as -> by (vm_compute in T1; congruence).
    assert (source = 0) as -> by (vm_compute in S1; congruence).
    destruct (Hrun RunOpts.empty (run sample_getSizeUniforms RunOpts.empty exchange_state).2)
      as (_ & st2 & H1 & _ & H2 & H3 & H4); [vm_compute; reflexivity |].
    exists fb, fb', (run sample_getSizeUniforms RunOpts.empty exchange_state).2, st2.
    split; [exact F1 |]. split; [exact F2 |]. split; [exact G1 |]. split; [exact G2 |].
    split; [vm_compute; reflexivity |]. split; [exact H1 |]. split; [exact H2 |].
    split; [exact H3 | exact H4].
Defined.

